(** * PCD eligibility tools of mastra-vivi: a shallow embedding

    The three tools under [src/mastra/tools] are embedded as Rocq functions:

    - [Analysis]: step 3 of [analyzePCDDocumentFromPDF]
      (pcd-document-analysis-tool.ts), the keyword analysis of the
      lower-cased extracted text;
    - [Evaluation]: [evaluatePCDEligibility] (pcd-evaluation-tool.ts), with
      its [try]/[catch] as an error monad;
    - [Laudo]: the report template of [generateLaudoCaracterizador]
      (laudo-caracterizador-tool.ts);
    - [Pipeline]: the whole of [execute] of [analyzePCDDocumentFromPDF],
      with the download and the text extraction as parameters;
    - [Token]: the signature token of [generateLaudoCaracterizador].

    JavaScript strings are sequences of UTF-16 code units; numbers that the
    code only compares and adds are in [Z], the confidence literals in [Q]. *)

From Stdlib Require Import List ZArith NArith QArith Bool String Ascii Lia.
From Stdlib Require Import DecimalString DecimalN Permutation.
Import ListNotations.
Close Scope Q_scope.
Close Scope string_scope.

Set Implicit Arguments.

(** ** JavaScript strings *)

Module Js.

(** A string is the list of its UTF-16 code units. *)
Abbreviation jsstring := (list N).

(** Source literals are written as Rocq strings, which hold the UTF-8 bytes
    of the source file; [utf16] decodes them to code units. *)
Fixpoint utf16 (bytes : list N) : jsstring :=
  match bytes with
  | [] => []
  | b0 :: rest =>
      if (b0 <? 128)%N then b0 :: utf16 rest
      else
        match rest with
        | [] => [b0]
        | b1 :: rest1 =>
            if (b0 <? 224)%N then
              (N.land b0 31 * 64 + N.land b1 63)%N :: utf16 rest1
            else
              match rest1 with
              | [] => [b0; b1]
              | b2 :: rest2 =>
                  if (b0 <? 240)%N then
                    (N.land b0 15 * 4096 + N.land b1 63 * 64 + N.land b2 63)%N
                      :: utf16 rest2
                  else
                    match rest2 with
                    | [] => [b0; b1; b2]
                    | b3 :: rest3 =>
                        let cp := (N.land b0 7 * 262144 + N.land b1 63 * 4096
                                   + N.land b2 63 * 64 + N.land b3 63)%N in
                        let v := (cp - 65536)%N in
                        (55296 + v / 1024)%N :: (56320 + v mod 1024)%N
                          :: utf16 rest3
                    end
              end
        end
  end.

Definition js (s : string) : jsstring :=
  utf16 (map N_of_ascii (list_ascii_of_string s)).

Definition eqb (s t : jsstring) : bool :=
  if list_eq_dec N.eq_dec s t then true else false.

(** [s.startsWith(p)] *)
Fixpoint startsWith (s p : jsstring) : bool :=
  match p, s with
  | [], _ => true
  | _ :: _, [] => false
  | a :: p', b :: s' => N.eqb a b && startsWith s' p'
  end.

(** [s.includes(p)] *)
Fixpoint includes (s p : jsstring) : bool :=
  startsWith s p
  || match s with
     | [] => false
     | _ :: s' => includes s' p
     end.

(** [parts.join(sep)] *)
Fixpoint join (sep : jsstring) (parts : list jsstring) : jsstring :=
  match parts with
  | [] => []
  | [p] => p
  | p :: ps => p ++ sep ++ join sep ps
  end.

(** [\d] of a regular expression without the unicode flag *)
Definition isDigit (c : N) : bool := (48 <=? c)%N && (c <=? 57)%N.

(** White space and line terminators, as [\s] and [trim] see them. *)
Definition isSpace (c : N) : bool :=
  ((9 <=? c) && (c <=? 13) || (c =? 32) || (c =? 160) || (c =? 5760)
   || (8192 <=? c) && (c <=? 8202) || (c =? 8232) || (c =? 8233)
   || (c =? 8239) || (c =? 8287) || (c =? 12288) || (c =? 65279))%N.

Fixpoint trimStart (s : jsstring) : jsstring :=
  match s with
  | [] => []
  | c :: s' => if isSpace c then trimStart s' else s
  end.

Definition trimEnd (s : jsstring) : jsstring := rev (trimStart (rev s)).

Definition trim (s : jsstring) : jsstring := trimEnd (trimStart s).

(** [toLowerCase] on Basic Latin and Latin-1 letters; the definitions below
    take the built-in as a parameter and the examples run them with this
    instance, on text that is in lower case already or in this range. *)
Definition lowerUnit (c : N) : N :=
  if ((65 <=? c) && (c <=? 90)
      || (192 <=? c) && (c <=? 222) && negb (c =? 215))%N
  then (c + 32)%N else c.

Definition latin1ToLowerCase (s : jsstring) : jsstring := map lowerUnit s.

(** [String(n)] for a non-negative integer *)
Definition ofN (n : N) : jsstring := js (NilZero.string_of_uint (N.to_uint n)).

End Js.

Import Js.

(** ** Exceptions

    A [try] block is a computation that returns a value or throws. *)

Inductive exn := TypeError.

Inductive result (A : Type) :=
| Ok (a : A)
| Throw (e : exn).

Arguments Ok {A} a.
Arguments Throw {A} e.

Definition bind {A B : Type} (c : result A) (k : A -> result B) : result B :=
  match c with
  | Ok a => k a
  | Throw e => Throw e
  end.

Notation "x <- c ;; k" := (bind c (fun x => k))
  (at level 61, c at next level, right associativity).

(** [try { body } catch (error) { handler }] *)
Definition tryCatch {A : Type} (body : result A) (handler : exn -> A) : A :=
  match body with
  | Ok a => a
  | Throw e => handler e
  end.

(** ** evaluatePCDEligibility (pcd-evaluation-tool.ts) *)

Module Evaluation.

Inductive PCDOutcome := SIM | NAO | TALVEZ.

Inductive DeficiencyType :=
  FISICA | INTELECTUAL | AUDITIVA | VISUAL | MULTIPLA | PSICOSSOCIAL.

Inductive SeverityLevel := LEVE | MODERADA | GRAVE | GRAVISSIMA.

Inductive DocumentKind :=
  LAUDO_MEDICO | RELATORIO_ESPECIALISTA | EXAMES_COMPLEMENTARES
| ATESTADO_MEDICO | CIF_ASSESSMENT | NEUROPSICOLOGICO | OUTROS.

Definition DocumentKind_eqb (a b : DocumentKind) : bool :=
  match a, b with
  | LAUDO_MEDICO, LAUDO_MEDICO
  | RELATORIO_ESPECIALISTA, RELATORIO_ESPECIALISTA
  | EXAMES_COMPLEMENTARES, EXAMES_COMPLEMENTARES
  | ATESTADO_MEDICO, ATESTADO_MEDICO
  | CIF_ASSESSMENT, CIF_ASSESSMENT
  | NEUROPSICOLOGICO, NEUROPSICOLOGICO
  | OUTROS, OUTROS => true
  | _, _ => false
  end.

Definition typeName (t : DeficiencyType) : jsstring :=
  match t with
  | FISICA => js "FISICA"
  | INTELECTUAL => js "INTELECTUAL"
  | AUDITIVA => js "AUDITIVA"
  | VISUAL => js "VISUAL"
  | MULTIPLA => js "MULTIPLA"
  | PSICOSSOCIAL => js "PSICOSSOCIAL"
  end.

(** An entry of [documentationProvided] as [execute] receives it. The schema
    declares [content] a string; [None] is a value that has no
    [toLowerCase] method ([undefined], [null]), which an object that did not
    go through the schema can carry. *)
Record document := {
  type : DocumentKind;
  content : option jsstring;
  issueDate : option jsstring;
  professionalCRM : option jsstring;
  specialization : option jsstring
}.

Record LegalFramework := {
  lei13146 : jsstring;
  cif : jsstring;
  decreto : jsstring
}.

Record PCDEvaluationResult := {
  outcome : PCDOutcome;
  confidence : Q;
  deficiencyType : option DeficiencyType;
  severityLevel : option SeverityLevel;
  functionalLimitations : list jsstring;
  compensatoryFactors : list jsstring;
  legalJustification : LegalFramework;
  clinicalEvidence : list jsstring;
  missingDocumentation : list jsstring;
  technicalReasoning : jsstring;
  requiresPhysicalEvaluation : bool
}.

(** The variables the document loop assigns and pushes to. *)
Record loopState := {
  st_clinicalEvidence : list jsstring;
  st_functionalLimitations : list jsstring;
  st_deficiencyType : option DeficiencyType
}.

Definition setType (t : DeficiencyType) (finding : jsstring) (s : loopState)
  : loopState :=
  {| st_clinicalEvidence := st_clinicalEvidence s;
     st_functionalLimitations := st_functionalLimitations s ++ [finding];
     st_deficiencyType := Some t |}.

Definition pushEvidence (e : jsstring) (s : loopState) : loopState :=
  {| st_clinicalEvidence := st_clinicalEvidence s ++ [e];
     st_functionalLimitations := st_functionalLimitations s;
     st_deficiencyType := st_deficiencyType s |}.

Definition when (b : bool) (f : loopState -> loopState) (s : loopState)
  : loopState :=
  if b then f s else s.

(** The values of the loop variables before the first document. *)
Definition initialLoopState : loopState :=
  {| st_clinicalEvidence := [];
     st_functionalLimitations := [];
     st_deficiencyType := None |}.

Definition isSome {A : Type} (o : option A) : bool :=
  match o with
  | Some _ => true
  | None => false
  end.

Definition nonEmpty {A : Type} (l : list A) : bool := (0 <? List.length l)%nat.

(** The four types the per-document rules assign. *)
Definition ruleAssigned (t : DeficiencyType) : Prop :=
  t = FISICA \/ t = INTELECTUAL \/ t = AUDITIVA \/ t = VISUAL.

(** Loop invariant: whenever a type has been assigned, a finding has been
    pushed. *)
Definition typeHasFinding (s : loopState) : Prop :=
  isSome (st_deficiencyType s) = true ->
  nonEmpty (st_functionalLimitations s) = true.

(** Loop invariant: an assigned type is one of the four. *)
Definition typeRuleAssigned (s : loopState) : Prop :=
  forall t, st_deficiencyType s = Some t -> ruleAssigned t.

Section Execute.

(** [String.prototype.toLowerCase] *)
Variable toLowerCase : jsstring -> jsstring.

(** [doc.content.toLowerCase()] *)
Definition lowerContent (doc : document) : result jsstring :=
  match content doc with
  | Some text => Ok (toLowerCase text)
  | None => Throw TypeError
  end.

(** The body of [for (const doc of documentationProvided)] *)
Definition analyzeDoc (s : loopState) (doc : document) : result loopState :=
  c <- lowerContent doc ;;
  let s := when (includes c (js "deficiência física")
                 || includes c (js "mobilidade"))
             (setType FISICA (js "Limitações de mobilidade identificadas")) s in
  let s := when (includes c (js "deficiência intelectual")
                 || includes c (js "cognitiv"))
             (setType INTELECTUAL (js "Limitações cognitivas identificadas")) s in
  let s := when (includes c (js "deficiência auditiva")
                 || includes c (js "surdez"))
             (setType AUDITIVA (js "Limitações auditivas identificadas")) s in
  let s := when (includes c (js "deficiência visual")
                 || includes c (js "cegueira"))
             (setType VISUAL (js "Limitações visuais identificadas")) s in
  let s := when (includes c (js "cid"))
             (pushEvidence (js "CID identificado na documentação")) s in
  let s := when (includes c (js "limitação funcional"))
             (pushEvidence (js "Limitações funcionais documentadas")) s in
  Ok s.

Fixpoint forEachDoc (docs : list document) (s : loopState)
  : result loopState :=
  match docs with
  | [] => Ok s
  | doc :: rest => s' <- analyzeDoc s doc ;; forEachDoc rest s'
  end.

Definition hasKind (k : DocumentKind) (docs : list document) : bool :=
  existsb (fun doc => DocumentKind_eqb (type doc) k) docs.

Definition missingDocs (docs : list document) : list jsstring :=
  (if negb (hasKind LAUDO_MEDICO docs)
   then [js "Laudo médico atualizado (menos de 1 ano)"] else [])
  ++ (if negb (hasKind RELATORIO_ESPECIALISTA docs)
      then [js "Relatório de médico especialista na área da deficiência"]
      else []).

Definition legalJustificationOk : LegalFramework :=
  {| lei13146 := js "Art. 2º - Considera-se pessoa com deficiência aquela que tem impedimento de longo prazo de natureza física, mental, intelectual ou sensorial, o qual, em interação com uma ou mais barreiras, pode obstruir sua participação plena e efetiva na sociedade em igualdade de condições com as demais pessoas.";
     cif := js "Classificação baseada no modelo bio-psico-social da deficiência, considerando funções e estruturas do corpo, atividade e participação social.";
     decreto := js "Decreto 3.298/1999 e suas atualizações para classificação e avaliação" |}.

Definition technicalReasoningOf (o : PCDOutcome)
  (dt : option DeficiencyType) (missing : list jsstring) (physical : bool)
  : jsstring :=
  match o with
  | SIM =>
      js "Baseado na análise da documentação fornecida, identificou-se "
      ++ match dt with
         | Some t => toLowerCase (typeName t)
         | None => js "undefined"
         end
      ++ js " com limitações funcionais que atendem aos critérios da Lei 13.146/2015. A documentação apresenta evidências clínicas suficientes para caracterizar impedimento de longo prazo que, em interação com barreiras, pode obstruir a participação plena na sociedade."
  | NAO =>
      js "A documentação analisada não apresenta evidências suficientes de impedimento de longo prazo que atenda aos critérios estabelecidos pela Lei 13.146/2015. As condições apresentadas não caracterizam deficiência nos termos legais vigentes."
  | TALVEZ =>
      js "A documentação fornecida é insuficiente para conclusão definitiva. "
      ++ (if nonEmpty missing then js "Faltam documentos essenciais." else [])
      ++ js " "
      ++ (if physical
          then js "Recomenda-se avaliação física presencial para melhor caracterização."
          else [])
  end.

(** Step 3 of the [try] block: outcome, confidence, severity and the
    physical-evaluation flag. *)
Definition decide (docs : list document) (missing : list jsstring)
  (s : loopState) : PCDOutcome * Q * option SeverityLevel * bool :=
  if nonEmpty missing then (TALVEZ, 0.3%Q, None, false)
  else if isSome (st_deficiencyType s)
          && nonEmpty (st_functionalLimitations s)
  then (SIM, 0.8%Q, Some MODERADA, false)
  else if nonEmpty docs && isSome (st_deficiencyType s)
  then (TALVEZ, 0.6%Q, None, true)
  else (NAO, 0.7%Q, None, false).

(** The [try] block of [execute]. *)
Definition evaluateBody (docs : list document) : result PCDEvaluationResult :=
  let missing := missingDocs docs in
  s <- forEachDoc docs initialLoopState ;;
  let '(o, conf, severity, physical) := decide docs missing s in
  Ok {| outcome := o;
        confidence := conf;
        deficiencyType := st_deficiencyType s;
        severityLevel := severity;
        functionalLimitations := st_functionalLimitations s;
        compensatoryFactors :=
          [js "Capacidade adaptativa preservada";
           js "Uso de tecnologia assistiva";
           js "Suporte familiar adequado"];
        legalJustification := legalJustificationOk;
        clinicalEvidence := st_clinicalEvidence s;
        missingDocumentation := missing;
        technicalReasoning :=
          technicalReasoningOf o (st_deficiencyType s) missing physical;
        requiresPhysicalEvaluation := physical |}.

(** The value the [catch] block returns. *)
Definition degraded : PCDEvaluationResult :=
  {| outcome := TALVEZ;
     confidence := 0.1%Q;
     deficiencyType := None;
     severityLevel := None;
     functionalLimitations := [];
     compensatoryFactors := [];
     legalJustification :=
       {| lei13146 := js "Lei 13.146/2015 - Lei Brasileira de Inclusão";
          cif := js "Classificação Internacional de Funcionalidade, Incapacidade e Saúde";
          decreto := js "Decreto 3.298/1999" |};
     clinicalEvidence := [];
     missingDocumentation := [js "Erro na análise - revisão manual necessária"];
     technicalReasoning :=
       js "Erro técnico durante a análise. Recomenda-se revisão manual completa da documentação.";
     requiresPhysicalEvaluation := true |}.

(** [try { ... } catch (error) { ... }] of [execute], as a function of an
    array [documentationProvided]: the other fields of the context are only
    logged. *)
Definition evaluatePCDEligibility (docs : list document) : PCDEvaluationResult :=
  tryCatch (evaluateBody docs) (fun _ => degraded).

End Execute.

(** A schema-valid entry with the optional fields absent. *)
Definition entry (k : DocumentKind) (text : string) : document :=
  {| type := k; content := Some (js text); issueDate := None;
     professionalCRM := None; specialization := None |}.


(** *** The call, with the statements before [try]

    [execute] destructures the context and logs three lines (lines 401 to
    406) before it enters [try] at line 408. The second line reads
    [documentationProvided.length]. The input schema makes
    [documentationProvided] an array of entries; a caller that does not
    apply the schema can pass anything. *)

(** What [documentationProvided] is at run time. *)
Inductive provided :=
| AnArray (docs : list document)
| Nullish       (* [undefined] or [null] *)
| NotAnArray.   (* any other value without a method [some] *)

Section Call.

Variable toLowerCase : jsstring -> jsstring.

(** [documentationProvided.length], in the template of line 405: reading a
    property of [undefined] or [null] throws. *)
Definition readLength (p : provided) : result unit :=
  match p with
  | Nullish => Throw TypeError
  | AnArray _ | NotAnArray => Ok tt
  end.

(** The [try] block on what was provided: its first statement calls
    [documentationProvided.some] (line 410). *)
Definition tryBody (p : provided) : result PCDEvaluationResult :=
  match p with
  | AnArray docs => evaluateBody toLowerCase docs
  | Nullish | NotAnArray => Throw TypeError
  end.

(** [execute]: the logging, then [try { ... } catch (error) { ... }]. An
    exception of the logging leaves the call. *)
Definition execute (p : provided) : result PCDEvaluationResult :=
  _ <- readLength p ;;
  Ok (tryCatch (tryBody p) (fun _ => degraded)).

End Call.

End Evaluation.

(** ** analyzePCDDocumentFromPDF (pcd-document-analysis-tool.ts), step 3

    Steps 1 and 2 of [execute] download the PDF and extract its text, and
    leave the [try] block when the text is blank. Step 3, embedded here,
    analyses [content], the lower-cased extracted text. *)

Module Analysis.

Inductive DetectedDeficiencyType :=
  FISICA | INTELECTUAL | AUDITIVA | VISUAL | MULTIPLA | PSICOSSOCIAL
| NAO_IDENTIFICADA.

(** The values of the optional input [expectedDeficiencyType]. *)
Inductive ExpectedDeficiencyType :=
  EXP_FISICA | EXP_INTELECTUAL | EXP_AUDITIVA | EXP_VISUAL | EXP_MULTIPLA
| EXP_PSICOSSOCIAL | DESCONHECIDA.

Inductive DocumentQuality := EXCELENTE | BOA | REGULAR | INSUFICIENTE.

Definition detectedName (t : DetectedDeficiencyType) : jsstring :=
  match t with
  | FISICA => js "FISICA"
  | INTELECTUAL => js "INTELECTUAL"
  | AUDITIVA => js "AUDITIVA"
  | VISUAL => js "VISUAL"
  | MULTIPLA => js "MULTIPLA"
  | PSICOSSOCIAL => js "PSICOSSOCIAL"
  | NAO_IDENTIFICADA => js "NAO_IDENTIFICADA"
  end.

Definition expectedName (t : ExpectedDeficiencyType) : jsstring :=
  match t with
  | EXP_FISICA => js "FISICA"
  | EXP_INTELECTUAL => js "INTELECTUAL"
  | EXP_AUDITIVA => js "AUDITIVA"
  | EXP_VISUAL => js "VISUAL"
  | EXP_MULTIPLA => js "MULTIPLA"
  | EXP_PSICOSSOCIAL => js "PSICOSSOCIAL"
  | DESCONHECIDA => js "DESCONHECIDA"
  end.

Definition isIdentified (t : DetectedDeficiencyType) : bool :=
  match t with
  | NAO_IDENTIFICADA => false
  | _ => true
  end.

(** *** Regular expressions *)

(** [re.test(s)] for a pattern without anchors: a match starts somewhere. *)
Fixpoint testAnywhere (matchAt : jsstring -> bool) (s : jsstring) : bool :=
  matchAt s
  || match s with
     | [] => false
     | _ :: s' => testAnywhere matchAt s'
     end.

Definition startsWithDigit (s : jsstring) : bool :=
  match s with
  | c :: _ => isDigit c
  | [] => false
  end.

Fixpoint dropWhile (p : N -> bool) (s : jsstring) : jsstring :=
  match s with
  | [] => []
  | c :: s' => if p c then dropWhile p s' else s
  end.

(** [/cid-?\d+/] *)
Definition matchCidAt (s : jsstring) : bool :=
  startsWith s (js "cid")
  && (let r := skipn 3 s in
      startsWithDigit r
      || match r with
         | c :: r' => (c =? 45)%N && startsWithDigit r'
         | [] => false
         end).

(** [/crm[\s-]*\d+/] *)
Definition matchCrmAt (s : jsstring) : bool :=
  startsWith s (js "crm")
  && startsWithDigit
       (dropWhile (fun c => isSpace c || (c =? 45)%N) (skipn 3 s)).

(** *** Evidence read from the content *)

Definition hasCIDDiagnosis (content : jsstring) : bool :=
  includes content (js "cid") || includes content (js "c.i.d")
  || testAnywhere matchCidAt content.

Definition hasValidCRM (content : jsstring) : bool :=
  includes content (js "crm") || testAnywhere matchCrmAt content.

Definition hasProperMedicalSignature (content : jsstring) : bool :=
  hasValidCRM content
  && (includes content (js "dr.") || includes content (js "dra.")).

Definition hasLaudoMedico (content : jsstring) : bool :=
  includes content (js "laudo médico") || includes content (js "laudo medico")
  || includes content (js "parecer médico").

Definition hasSpecialistReport (content : jsstring) : bool :=
  includes content (js "relatório") || includes content (js "relatorio")
  || includes content (js "especialista") || includes content (js "avaliação").

Definition hasComplementaryExams (content : jsstring) : bool :=
  includes content (js "exame") || includes content (js "resultado")
  || includes content (js "tomografia").

Definition meetsCIFCriteria (content : jsstring) : bool :=
  includes content (js "funcionalidade") || includes content (js "cif")
  || includes content (js "limitação funcional")
  || includes content (js "limitacao funcional").

(** *** The five type rules *)

(** The variables the rules assign and push to. *)
Record ruleState := {
  rs_detected : DetectedDeficiencyType;
  rs_issuerQualifications : list jsstring;
  rs_missingDocuments : list jsstring
}.

Definition initialState : ruleState :=
  {| rs_detected := NAO_IDENTIFICADA;
     rs_issuerQualifications := [];
     rs_missingDocuments := [] |}.

Definition detect (t : DetectedDeficiencyType) (quals : list jsstring)
  (s : ruleState) : ruleState :=
  {| rs_detected := t;
     rs_issuerQualifications := rs_issuerQualifications s ++ quals;
     rs_missingDocuments := rs_missingDocuments s |}.

Definition pushMissing (entry : jsstring) (s : ruleState) : ruleState :=
  {| rs_detected := rs_detected s;
     rs_issuerQualifications := rs_issuerQualifications s;
     rs_missingDocuments := rs_missingDocuments s ++ [entry] |}.

Definition matchesFisica (content : jsstring) : bool :=
  includes content (js "deficiência física")
  || includes content (js "deficiencia fisica")
  || includes content (js "mobilidade reduzida")
  || includes content (js "paraplegia")
  || includes content (js "amputação")
  || includes content (js "amputacao").

Definition matchesIntelectual (content : jsstring) : bool :=
  includes content (js "deficiência intelectual")
  || includes content (js "deficiencia intelectual")
  || includes content (js "retardo mental")
  || includes content (js "transtorno do desenvolvimento").

Definition matchesAuditiva (content : jsstring) : bool :=
  includes content (js "deficiência auditiva")
  || includes content (js "deficiencia auditiva")
  || includes content (js "surdez")
  || includes content (js "perda auditiva")
  || includes content (js "audiometria").

Definition matchesVisual (content : jsstring) : bool :=
  includes content (js "deficiência visual")
  || includes content (js "deficiencia visual")
  || includes content (js "cegueira")
  || includes content (js "baixa visão")
  || includes content (js "baixa visao")
  || includes content (js "acuidade visual").

Definition matchesPsicossocial (content : jsstring) : bool :=
  includes content (js "transtorno mental")
  || includes content (js "psicossocial")
  || includes content (js "esquizofrenia")
  || includes content (js "bipolar").

Definition audioGap : jsstring :=
  js "Audiometria ou BERA (obrigatorio para deficiencia auditiva)".

Definition visualGap : jsstring :=
  js "Exame de acuidade visual e campo visual (obrigatorio para deficiencia visual)".

Definition lacksAudioExam (content : jsstring) : bool :=
  negb (includes content (js "audiometria"))
  && negb (includes content (js "bera")).

Definition lacksVisualExam (content : jsstring) : bool :=
  negb (includes content (js "acuidade visual"))
  && negb (includes content (js "campo visual")).

Definition ruleFisica (content : jsstring) (s : ruleState) : ruleState :=
  if matchesFisica content
  then detect FISICA [js "Ortopedia"; js "Fisiatria"] s
  else s.

Definition ruleIntelectual (content : jsstring) (s : ruleState) : ruleState :=
  if matchesIntelectual content
  then detect INTELECTUAL [js "Neurologia"; js "Psiquiatria"] s
  else s.

Definition ruleAuditiva (content : jsstring) (s : ruleState) : ruleState :=
  if matchesAuditiva content
  then
    let s := detect AUDITIVA [js "Otorrinolaringologia"; js "Fonoaudiologia"] s in
    if lacksAudioExam content then pushMissing audioGap s else s
  else s.

Definition ruleVisual (content : jsstring) (s : ruleState) : ruleState :=
  if matchesVisual content
  then
    let s := detect VISUAL [js "Oftalmologia"] s in
    if lacksVisualExam content then pushMissing visualGap s else s
  else s.

Definition rulePsicossocial (content : jsstring) (s : ruleState) : ruleState :=
  if matchesPsicossocial content
  then detect PSICOSSOCIAL [js "Psiquiatria"] s
  else s.

(** The five [if] statements, in source order. *)
Definition applyRules (content : jsstring) : ruleState :=
  rulePsicossocial content
    (ruleVisual content
       (ruleAuditiva content
          (ruleIntelectual content
             (ruleFisica content initialState)))).

(** *** The check for multiple deficiencies *)

Definition deficiencyKeywords : list jsstring :=
  [js "física"; js "fisica"; js "auditiva"; js "visual"; js "intelectual";
   js "psicossocial"].

Definition foundDeficiencies (content : jsstring) : list jsstring :=
  filter (fun kw => includes content kw) deficiencyKeywords.

Definition detectedDeficiencyTypeOf (content : jsstring)
  : DetectedDeficiencyType :=
  if (1 <? List.length (foundDeficiencies content))%nat
  then MULTIPLA
  else rs_detected (applyRules content).

(** *** Missing documents and urgency flags *)

Definition laudoEntry : jsstring := js "Laudo medico atualizado (obrigatorio)".
Definition cidEntry : jsstring := js "Diagnostico com codigo CID".
Definition crmEntry : jsstring := js "Documento com CRM do medico".

Definition cidFlag : jsstring :=
  js "Falta diagnostico com CID - fundamental para avaliacao".

Definition unidentifiedFlag : jsstring :=
  js "Tipo de deficiencia nao identificado no documento".

Definition mismatchFlag (detected : DetectedDeficiencyType)
  (expected : ExpectedDeficiencyType) : jsstring :=
  js "Tipo de deficiencia detectada (" ++ detectedName detected
  ++ js ") difere do esperado (" ++ expectedName expected ++ js ")".

(** [missingDocuments] after the "Build missing documents list" block;
    [gaps] are the entries the type rules pushed before. *)
Definition buildMissingDocuments (gaps : list jsstring)
  (laudo cid crm : bool) : list jsstring :=
  gaps
  ++ (if negb laudo then [laudoEntry] else [])
  ++ (if negb cid then [cidEntry] else [])
  ++ (if negb crm then [crmEntry] else []).

Definition buildUrgencyFlags (cid : bool) (detected : DetectedDeficiencyType)
  (expected : option ExpectedDeficiencyType) : list jsstring :=
  (if negb cid then [cidFlag] else [])
  ++ (if isIdentified detected then [] else [unidentifiedFlag])
  ++ match expected with
     | Some e =>
         if negb (Js.eqb (expectedName e) (js "DESCONHECIDA"))
            && negb (Js.eqb (detectedName detected) (expectedName e))
            && isIdentified detected
         then [mismatchFlag detected e]
         else []
     | None => []
     end.

(** *** Completeness score and quality *)

(** The eight booleans the score adds up. *)
Record DocumentEvidenceFlags := {
  hasMedicalReport : bool;
  hasSpecialistReportFlag : bool;
  hasCIDDiagnosisFlag : bool;
  hasValidSignature : bool;
  hasValidProfessionalId : bool;
  typeDetected : bool;
  hasCIFCriteria : bool;
  hasComplementaryExamsFlag : bool
}.

Definition addIf (b : bool) (points : Z) (score : Z) : Z :=
  if b then (score + points)%Z else score.

Definition completenessScoreOf (f : DocumentEvidenceFlags) : Z :=
  let score := 0%Z in
  let score := addIf (hasMedicalReport f) 20 score in
  let score := addIf (hasSpecialistReportFlag f) 20 score in
  let score := addIf (hasCIDDiagnosisFlag f) 10 score in
  let score := addIf (hasValidSignature f) 10 score in
  let score := addIf (hasValidProfessionalId f) 10 score in
  let score := addIf (typeDetected f) 15 score in
  let score := addIf (hasCIFCriteria f) 5 score in
  let score := addIf (hasComplementaryExamsFlag f) 10 score in
  score.

Definition documentQualityOf (score : Z) : DocumentQuality :=
  if (score >=? 85)%Z then EXCELENTE
  else if (score >=? 70)%Z then BOA
  else if (score >=? 50)%Z then REGULAR
  else INSUFICIENTE.

Definition evidenceFlags (content : jsstring) : DocumentEvidenceFlags :=
  {| hasMedicalReport := hasLaudoMedico content;
     hasSpecialistReportFlag := hasSpecialistReport content;
     hasCIDDiagnosisFlag := hasCIDDiagnosis content;
     hasValidSignature := hasProperMedicalSignature content;
     hasValidProfessionalId := hasValidCRM content;
     typeDetected := isIdentified (detectedDeficiencyTypeOf content);
     hasCIFCriteria := meetsCIFCriteria content;
     hasComplementaryExamsFlag := hasComplementaryExams content |}.

Definition buildRecommendations (missing : list jsstring) (crm : bool)
  (score : Z) (detected : DetectedDeficiencyType) : list jsstring :=
  (if (0 <? List.length missing)%nat
   then [js "Solicitar documentos faltantes listados"] else [])
  ++ (if negb crm
      then [js "Verificar assinatura e carimbo medico com CRM valido"] else [])
  ++ (if (score <? 70)%Z
      then [js "Documentacao insuficiente - solicitar relatorio medico mais detalhado"]
      else [])
  ++ (if isIdentified detected then []
      else [js "Identificar tipo especifico de deficiencia nos documentos"]).

(** *** The result *)

Record ExtractionResult := {
  extractedText : jsstring;
  pagesCount : Z
}.

Record ExtractedContent := {
  rawText : jsstring;
  ec_pagesCount : Z;
  characterCount : Z
}.

Record MedicalDocuments := {
  hasCurrentMedicalReport : bool;
  md_hasSpecialistReport : bool;
  md_hasComplementaryExams : bool;
  md_hasCIDDiagnosis : bool;
  issuerQualifications : list jsstring
}.

Record LegalCompliance := {
  meetsLei13146Requirements : bool;
  lc_meetsCIFCriteria : bool;
  lc_hasProperMedicalSignature : bool;
  lc_hasValidCRM : bool
}.

Record DocumentAnalysisResult := {
  completenessScore : Z;
  hasRequiredDocuments : bool;
  missingDocuments : list jsstring;
  documentQuality : DocumentQuality;
  extractedContent : ExtractedContent;
  medicalDocuments : MedicalDocuments;
  legalCompliance : LegalCompliance;
  detectedDeficiencyType : DetectedDeficiencyType;
  recommendations : list jsstring;
  urgencyFlags : list jsstring
}.

(** Step 3 and the [return] of the [try] block, for the lower-cased text
    [content] of [extraction]. *)
Definition analyzeContent (extraction : ExtractionResult)
  (expected : option ExpectedDeficiencyType) (content : jsstring)
  : DocumentAnalysisResult :=
  let rules := applyRules content in
  let detected := detectedDeficiencyTypeOf content in
  let missing :=
    buildMissingDocuments (rs_missingDocuments rules)
      (hasLaudoMedico content) (hasCIDDiagnosis content)
      (hasValidCRM content) in
  let score := completenessScoreOf (evidenceFlags content) in
  let required := hasLaudoMedico content && hasCIDDiagnosis content in
  {| completenessScore := score;
     hasRequiredDocuments := required;
     missingDocuments := missing;
     documentQuality := documentQualityOf score;
     extractedContent :=
       {| rawText := extractedText extraction;
          ec_pagesCount := pagesCount extraction;
          characterCount := Z.of_nat (List.length (extractedText extraction)) |};
     medicalDocuments :=
       {| hasCurrentMedicalReport := hasLaudoMedico content;
          md_hasSpecialistReport := hasSpecialistReport content;
          md_hasComplementaryExams := hasComplementaryExams content;
          md_hasCIDDiagnosis := hasCIDDiagnosis content;
          issuerQualifications := rs_issuerQualifications rules |};
     legalCompliance :=
       {| meetsLei13146Requirements := required && hasCIDDiagnosis content;
          lc_meetsCIFCriteria := meetsCIFCriteria content;
          lc_hasProperMedicalSignature := hasProperMedicalSignature content;
          lc_hasValidCRM := hasValidCRM content |};
     detectedDeficiencyType := detected;
     recommendations :=
       buildRecommendations missing (hasValidCRM content) score detected;
     urgencyFlags :=
       buildUrgencyFlags (hasCIDDiagnosis content) detected expected |}.

(** *** Vocabulary of the properties *)

(** The five base types, in the order of their rules. *)
Definition baseTypes : list DetectedDeficiencyType :=
  [FISICA; INTELECTUAL; AUDITIVA; VISUAL; PSICOSSOCIAL].

(** The trigger set of the rule of a base type matches the content. *)
Definition matchesRule (t : DetectedDeficiencyType) (content : jsstring)
  : bool :=
  match t with
  | FISICA => matchesFisica content
  | INTELECTUAL => matchesIntelectual content
  | AUDITIVA => matchesAuditiva content
  | VISUAL => matchesVisual content
  | PSICOSSOCIAL => matchesPsicossocial content
  | MULTIPLA | NAO_IDENTIFICADA => false
  end.

(** The base types whose rule matches, in rule order. *)
Definition matchedRules (content : jsstring) : list DetectedDeficiencyType :=
  filter (fun t => matchesRule t content) baseTypes.

(** The last entry of [matchedRules], NAO_IDENTIFICADA when there is none. *)
Definition lastMatch (content : jsstring) : DetectedDeficiencyType :=
  last (matchedRules content) NAO_IDENTIFICADA.

(** The qualifications the rule of a type pushes. *)
Definition qualificationsOf (t : DetectedDeficiencyType) : list jsstring :=
  match t with
  | FISICA => [js "Ortopedia"; js "Fisiatria"]
  | INTELECTUAL => [js "Neurologia"; js "Psiquiatria"]
  | AUDITIVA => [js "Otorrinolaringologia"; js "Fonoaudiologia"]
  | VISUAL => [js "Oftalmologia"]
  | PSICOSSOCIAL => [js "Psiquiatria"]
  | MULTIPLA | NAO_IDENTIFICADA => []
  end.

(** The type-specific gap the rule of a type pushes on this content. *)
Definition gapsOf (content : jsstring) (t : DetectedDeficiencyType)
  : list jsstring :=
  match t with
  | AUDITIVA => if lacksAudioExam content then [audioGap] else []
  | VISUAL => if lacksVisualExam content then [visualGap] else []
  | _ => []
  end.

(** An urgency flag that is about the CID: it names it. *)
Definition mentionsCID (flag : jsstring) : bool := includes flag (js "CID").

(** The names of the eight evidence flags. *)
Inductive Flag :=
  MedicalReport | SpecialistReport | CIDDiagnosis | ValidSignature
| ValidProfessionalId | TypeDetected | CIFCriteria | ComplementaryExams.

Definition getFlag (k : Flag) (f : DocumentEvidenceFlags) : bool :=
  match k with
  | MedicalReport => hasMedicalReport f
  | SpecialistReport => hasSpecialistReportFlag f
  | CIDDiagnosis => hasCIDDiagnosisFlag f
  | ValidSignature => hasValidSignature f
  | ValidProfessionalId => hasValidProfessionalId f
  | TypeDetected => typeDetected f
  | CIFCriteria => hasCIFCriteria f
  | ComplementaryExams => hasComplementaryExamsFlag f
  end.

(** The flags with flag [k] set to true and the others as they are. *)
Definition setFlag (k : Flag) (f : DocumentEvidenceFlags)
  : DocumentEvidenceFlags :=
  {| hasMedicalReport :=
       match k with MedicalReport => true | _ => hasMedicalReport f end;
     hasSpecialistReportFlag :=
       match k with SpecialistReport => true | _ => hasSpecialistReportFlag f end;
     hasCIDDiagnosisFlag :=
       match k with CIDDiagnosis => true | _ => hasCIDDiagnosisFlag f end;
     hasValidSignature :=
       match k with ValidSignature => true | _ => hasValidSignature f end;
     hasValidProfessionalId :=
       match k with ValidProfessionalId => true | _ => hasValidProfessionalId f end;
     typeDetected :=
       match k with TypeDetected => true | _ => typeDetected f end;
     hasCIFCriteria :=
       match k with CIFCriteria => true | _ => hasCIFCriteria f end;
     hasComplementaryExamsFlag :=
       match k with ComplementaryExams => true | _ => hasComplementaryExamsFlag f end |}.

(** The points of a flag in the score. *)
Definition weight (k : Flag) : Z :=
  match k with
  | MedicalReport => 20
  | SpecialistReport => 20
  | CIDDiagnosis => 10
  | ValidSignature => 10
  | ValidProfessionalId => 10
  | TypeDetected => 15
  | CIFCriteria => 5
  | ComplementaryExams => 10
  end.

Definition points (k : Flag) (f : DocumentEvidenceFlags) : Z :=
  if getFlag k f then weight k else 0%Z.

Definition noEvidence : DocumentEvidenceFlags :=
  {| hasMedicalReport := false; hasSpecialistReportFlag := false;
     hasCIDDiagnosisFlag := false; hasValidSignature := false;
     hasValidProfessionalId := false; typeDetected := false;
     hasCIFCriteria := false; hasComplementaryExamsFlag := false |}.

(** The extraction result of a one-page document with the given text. *)
Definition extractionOf (text : string) : ExtractionResult :=
  {| extractedText := js text; pagesCount := 1%Z |}.

(** The whole of steps 2 (from the lower-casing on) and 3. *)
Definition analyzeExtraction (toLowerCase : jsstring -> jsstring)
  (extraction : ExtractionResult) (expected : option ExpectedDeficiencyType)
  : DocumentAnalysisResult :=
  analyzeContent extraction expected (toLowerCase (extractedText extraction)).

End Analysis.

(** ** generateLaudoCaracterizador (laudo-caracterizador-tool.ts): the report *)

Module Laudo.

Inductive DeficiencyType :=
  FISICA | INTELECTUAL | AUDITIVA | VISUAL | MULTIPLA | PSICOSSOCIAL.

Inductive Prognosis := TEMPORARIA | PERMANENTE.

Inductive SeverityLevel := LEVE | MODERADA | GRAVE | GRAVISSIMA.

Definition typeName (t : DeficiencyType) : jsstring :=
  match t with
  | FISICA => js "FISICA"
  | INTELECTUAL => js "INTELECTUAL"
  | AUDITIVA => js "AUDITIVA"
  | VISUAL => js "VISUAL"
  | MULTIPLA => js "MULTIPLA"
  | PSICOSSOCIAL => js "PSICOSSOCIAL"
  end.

Definition prognosisName (p : Prognosis) : jsstring :=
  match p with
  | TEMPORARIA => js "TEMPORARIA"
  | PERMANENTE => js "PERMANENTE"
  end.

Definition severityName (s : SeverityLevel) : jsstring :=
  match s with
  | LEVE => js "LEVE"
  | MODERADA => js "MODERADA"
  | GRAVE => js "GRAVE"
  | GRAVISSIMA => js "GRAVISSIMA"
  end.

Record CandidateInfo := {
  fullName : jsstring;
  cpf : jsstring;
  rg : option jsstring;
  birthDate : jsstring;
  address : option jsstring;
  phone : option jsstring;
  email : option jsstring
}.

Record MedicalInfo := {
  deficiencyType : DeficiencyType;
  cidCode : jsstring;
  cifCode : option jsstring;
  diagnosis : jsstring;
  onsetDate : option jsstring;
  prognosis : Prognosis;
  severityLevel : SeverityLevel
}.

Record FunctionalAssessment := {
  functionalLimitations : list jsstring;
  preservedFunctions : list jsstring;
  adaptiveCapacity : jsstring;
  assistiveTechnology : list jsstring
}.

Record ProfessionalInfo := {
  doctorName : jsstring;
  crm : jsstring;
  specialization : jsstring;
  issueDate : jsstring;
  expirationDate : option jsstring
}.

Record LegalBasis := {
  lei13146 : bool;
  decreto3298 : bool;
  cif : bool;
  otherLaws : option (list jsstring)
}.

Record LaudoCaracterizadorData := {
  candidateInfo : CandidateInfo;
  medicalInfo : MedicalInfo;
  functionalAssessment : FunctionalAssessment;
  professionalInfo : ProfessionalInfo;
  legalBasis : LegalBasis
}.

Definition LF : jsstring := [10%N].

(** Truthiness of an optional string: absent and empty are both falsy. *)
Definition present (field : option jsstring) : bool :=
  match field with
  | Some (_ :: _) => true
  | _ => false
  end.

Definition valueOf (field : option jsstring) : jsstring :=
  match field with
  | Some v => v
  | None => []
  end.

(** [${field ? `label${field}` : ''}] *)
Definition optional (label : string) (field : option jsstring) : jsstring :=
  if present field then js label ++ valueOf field else [].

(** [${flag ? 'text' : ''}] *)
Definition flagged (flag : bool) (text : string) : jsstring :=
  if flag then js text else [].

(** [items.map((item) => `- ${item}`).join('\n')] *)
Definition bullets (items : list jsstring) : jsstring :=
  join LF (map (fun item => js "- " ++ item) items).

(** The interpolation of the assistive-technology block. *)
Definition assistiveBlock (items : list jsstring) : jsstring :=
  if (0 <? List.length items)%nat
  then LF ++ js "Tecnologias Assistivas:" ++ LF ++ bullets items ++ LF
  else [].

(** [${legalBasis.otherLaws?.length ? ... : ''}] *)
Definition otherLawsRow (laws : option (list jsstring)) : jsstring :=
  match laws with
  | Some (law :: rest) => bullets (law :: rest)
  | _ => []
  end.

(** [`LAUDO-PCD-${Date.now()}-${cpf.replace(/[^\d]/g, '')}`] *)
Definition laudoIdOf (now : N) (d : LaudoCaracterizadorData) : jsstring :=
  js "LAUDO-PCD-" ++ ofN now ++ js "-" ++ filter isDigit (cpf (candidateInfo d)).

Section Render.

(** [String.prototype.toLowerCase] *)
Variable toLowerCase : jsstring -> jsstring.

(** [Date.now()] and [new Date().toLocaleDateString('pt-BR')] *)
Variable now : N.
Variable currentDate : jsstring.

(** The template literal, one entry per line of the template between its
    first and its last line break. *)
Definition documentRows (d : LaudoCaracterizadorData) : list jsstring :=
  let c := candidateInfo d in
  let m := medicalInfo d in
  let f := functionalAssessment d in
  let p := professionalInfo d in
  let l := legalBasis d in
  [js "LAUDO CARACTERIZADOR DE PESSOA COM DEFICIENCIA";
   js "===============================================";
   [];
   js "IDENTIFICACAO DO LAUDO";
   js "Numero do Laudo: " ++ laudoIdOf now d;
   js "Data de Emissao: " ++ currentDate;
   js "Validade: 2 anos a partir da data de emissao";
   [];
   js "DADOS DO AVALIADO";
   js "Nome Completo: " ++ fullName c;
   js "CPF: " ++ cpf c;
   optional "RG: " (rg c);
   js "Data de Nascimento: " ++ birthDate c;
   optional "Endereco: " (address c);
   optional "Telefone: " (phone c);
   optional "Email: " (email c);
   [];
   js "INFORMACOES MEDICAS";
   js "Tipo de Deficiencia: " ++ typeName (deficiencyType m);
   js "Diagnostico Principal: " ++ diagnosis m;
   js "CID-10: " ++ cidCode m;
   optional "CIF: " (cifCode m);
   optional "Data de Inicio: " (onsetDate m);
   js "Prognostico: " ++ prognosisName (prognosis m);
   js "Grau da Deficiencia: " ++ severityName (severityLevel m);
   [];
   js "AVALIACAO FUNCIONAL";
   [];
   js "Limitacoes Funcionais Identificadas:";
   bullets (functionalLimitations f);
   [];
   js "Funcoes Preservadas:";
   bullets (preservedFunctions f);
   [];
   js "Capacidade Adaptativa:";
   adaptiveCapacity f;
   [];
   assistiveBlock (assistiveTechnology f);
   [];
   js "CONCLUSAO TECNICA";
   js "Com base na avaliacao medica realizada e na analise da documentacao apresentada,";
   js "ATESTO que " ++ fullName c ++ js ", portador(a) do CPF " ++ cpf c ++ js ",";
   js "apresenta deficiencia do tipo " ++ toLowerCase (typeName (deficiencyType m))
     ++ js ",";
   js "enquadrando-se nos criterios estabelecidos pela legislacao brasileira para";
   js "PESSOA COM DEFICIENCIA (PCD).";
   [];
   js "O diagnostico de " ++ diagnosis m ++ js " (CID-10: " ++ cidCode m ++ js ")";
   js "configura impedimento de longo prazo que, em interacao com diversas barreiras,";
   js "pode obstruir a participacao plena e efetiva na sociedade em igualdade de";
   js "condicoes com as demais pessoas.";
   [];
   js "FUNDAMENTACAO LEGAL";
   flagged (lei13146 l)
     "- Lei no 13.146/2015 (Lei Brasileira de Inclusao da Pessoa com Deficiencia)";
   flagged (decreto3298 l)
     "- Decreto no 3.298/1999 (Regulamenta a Lei no 7.853/1989)";
   flagged (cif l)
     "- Classificacao Internacional de Funcionalidade, Incapacidade e Saude (CIF/OMS)";
   otherLawsRow (otherLaws l);
   [];
   js "Este laudo tem validade de 2 (dois) anos a partir da data de emissao e";
   js "foi elaborado de acordo com as normas tecnicas vigentes e criterios";
   js "estabelecidos pela legislacao brasileira.";
   [];
   js "RESPONSAVEL TECNICO";
   js "Dr(a). " ++ doctorName p;
   js "CRM: " ++ crm p;
   js "Especialidade: " ++ specialization p;
   [];
   js "_________________________________";
   js "Assinatura e Carimbo";
   [];
   js "Data: " ++ currentDate;
   js "Local: Sao Paulo/SP";
   [];
   js "===============================================";
   js "Este documento possui validade legal e foi emitido em conformidade";
   js "com a legislacao brasileira vigente sobre pessoas com deficiencia."].

(** The template literal: it opens and closes with a line break. *)
Definition template (d : LaudoCaracterizadorData) : jsstring :=
  join LF ([] :: documentRows d ++ [[]]).

Definition fullDocument (d : LaudoCaracterizadorData) : jsstring :=
  trim (template d).

End Render.

(** [s.split('\n')] *)
Fixpoint splitLines (s : jsstring) : list jsstring :=
  match s with
  | [] => [[]]
  | c :: s' =>
      if (c =? 10)%N then [] :: splitLines s'
      else
        match splitLines s' with
        | line :: rest => (c :: line) :: rest
        | [] => [[c]]
        end
  end.

(** The position in [documentRows] of the row of each optional field. *)
Inductive OptionalField :=
  RG | Address | Phone | Email | CifCode | OnsetDate | AssistiveTechnology
| OtherLaws.

Definition rowOf (field : OptionalField) : nat :=
  match field with
  | RG => 11
  | Address => 13
  | Phone => 14
  | Email => 15
  | CifCode => 21
  | OnsetDate => 22
  | AssistiveTechnology => 37
  | OtherLaws => 55
  end.

(** The field is absent or empty in the dossier. *)
Definition absent (field : OptionalField) (d : LaudoCaracterizadorData) : bool :=
  match field with
  | RG => negb (present (rg (candidateInfo d)))
  | Address => negb (present (address (candidateInfo d)))
  | Phone => negb (present (phone (candidateInfo d)))
  | Email => negb (present (email (candidateInfo d)))
  | CifCode => negb (present (cifCode (medicalInfo d)))
  | OnsetDate => negb (present (onsetDate (medicalInfo d)))
  | AssistiveTechnology =>
      match assistiveTechnology (functionalAssessment d) with
      | [] => true
      | _ => false
      end
  | OtherLaws =>
      match otherLaws (legalBasis d) with
      | Some (_ :: _) => false
      | _ => true
      end
  end.

(** A dossier with every optional field absent. *)
Definition minimalDossier : LaudoCaracterizadorData :=
  {| candidateInfo :=
       {| fullName := js "Maria Souza"; cpf := js "123.456.789-00";
          rg := None; birthDate := js "01/02/1990"; address := None;
          phone := None; email := None |};
     medicalInfo :=
       {| deficiencyType := AUDITIVA; cidCode := js "H90.3"; cifCode := None;
          diagnosis := js "Perda auditiva neurossensorial bilateral";
          onsetDate := None; prognosis := PERMANENTE;
          severityLevel := MODERADA |};
     functionalAssessment :=
       {| functionalLimitations := [js "Comunicacao oral"];
          preservedFunctions := [js "Mobilidade"];
          adaptiveCapacity := js "Boa"; assistiveTechnology := [] |};
     professionalInfo :=
       {| doctorName := js "Ana Lima"; crm := js "12345-SP";
          specialization := js "Otorrinolaringologia";
          issueDate := js "10/03/2025"; expirationDate := None |};
     legalBasis :=
       {| lei13146 := true; decreto3298 := true; cif := true;
          otherLaws := None |} |}.

(** The lines of the report of [minimalDossier], issued on 03/11/2026. *)
Definition minimalLines : list jsstring :=
  splitLines
    (fullDocument latin1ToLowerCase 1700000000000 (js "03/11/2026")
       minimalDossier).

End Laudo.

(** ** analyzePCDDocumentFromPDF: the whole of [execute]

    The download and the text extraction are the caller's world: [fetch]
    and [extractTextFromPDF] (imported from ../lib/util) are parameters that
    return a value or throw. *)

Module Pipeline.

Import Analysis.

(** What a [throw] or a rejected promise carries: an [Error] with its
    message, or a value that is not an [Error]. *)
Inductive thrown :=
| ErrorObject (message : jsstring)
| OtherValue.

Inductive attempt (A : Type) :=
| Returned (a : A)
| Threw (t : thrown).

Arguments Returned {A} a.
Arguments Threw {A} t.

Definition andThen {A B : Type} (c : attempt A) (k : A -> attempt B)
  : attempt B :=
  match c with
  | Returned a => k a
  | Threw t => Threw t
  end.

(** The fields of a fetch response that [execute] reads. *)
Record Response := {
  ok : bool;
  status : N;
  statusText : jsstring;
  arrayBuffer : attempt (list N)
}.

Definition downloadFailure (response : Response) : jsstring :=
  js "Falha ao baixar PDF: " ++ ofN (status response) ++ js " "
  ++ statusText response.

Definition noTextMessage : jsstring := js "Nenhum texto pode ser extraido do PDF".

(** [!text || text.trim() === ''] *)
Definition isBlank (text : jsstring) : bool :=
  match text with
  | [] => true
  | _ :: _ => Js.eqb (trim text) []
  end.

Definition errorRecommendation : jsstring :=
  js "Erro tecnico na analise - reprocessar documentacao ou verificar URL do PDF".

Definition errorFlag : jsstring :=
  js "Sistema indisponivel ou PDF invalido - analise manual urgente".

(** [error instanceof Error ? error.message : 'Erro desconhecido'] *)
Definition errorMessage (t : thrown) : jsstring :=
  match t with
  | ErrorObject message => message
  | OtherValue => js "Erro desconhecido"
  end.

(** The value the [catch] block returns. *)
Definition errorResult (t : thrown) : DocumentAnalysisResult :=
  {| completenessScore := 0%Z;
     hasRequiredDocuments := false;
     missingDocuments := [js "Erro na analise: " ++ errorMessage t];
     documentQuality := INSUFICIENTE;
     extractedContent :=
       {| rawText := []; ec_pagesCount := 0%Z; characterCount := 0%Z |};
     medicalDocuments :=
       {| hasCurrentMedicalReport := false;
          md_hasSpecialistReport := false;
          md_hasComplementaryExams := false;
          md_hasCIDDiagnosis := false;
          issuerQualifications := [] |};
     legalCompliance :=
       {| meetsLei13146Requirements := false;
          lc_meetsCIFCriteria := false;
          lc_hasProperMedicalSignature := false;
          lc_hasValidCRM := false |};
     detectedDeficiencyType := NAO_IDENTIFICADA;
     recommendations := [errorRecommendation];
     urgencyFlags := [errorFlag] |}.

Section Execute.

Variable toLowerCase : jsstring -> jsstring.
Variable fetch : jsstring -> attempt Response.
Variable extractTextFromPDF : list N -> attempt ExtractionResult.

(** The [try] block: steps 1 to 3. *)
Definition tryBlock (pdfUrl : jsstring)
  (expected : option ExpectedDeficiencyType)
  : attempt DocumentAnalysisResult :=
  andThen (fetch pdfUrl) (fun response =>
  if negb (ok response)
  then Threw (ErrorObject (downloadFailure response))
  else
    andThen (arrayBuffer response) (fun pdfBuffer =>
    andThen (extractTextFromPDF pdfBuffer) (fun extractionResult =>
    if isBlank (extractedText extractionResult)
    then Threw (ErrorObject noTextMessage)
    else
      Returned
        (analyzeContent extractionResult expected
           (toLowerCase (extractedText extractionResult)))))).

(** [execute], as a function of [pdfUrl] and [expectedDeficiencyType]: the
    candidate's name and CPF are only logged. *)
Definition execute (pdfUrl : jsstring)
  (expected : option ExpectedDeficiencyType) : DocumentAnalysisResult :=
  match tryBlock pdfUrl expected with
  | Returned r => r
  | Threw t => errorResult t
  end.

End Execute.

(** A world in which the URL answers with the given status and no body. *)
Definition respondWith (code : N) (text : string) (_ : jsstring)
  : attempt Response :=
  Returned {| ok := (200 <=? code)%N && (code <=? 299)%N;
              status := code; statusText := js text;
              arrayBuffer := Returned [] |}.

(** An extraction that finds the given text on one page. *)
Definition extracting (text : string) (_ : list N) : attempt ExtractionResult :=
  Returned (extractionOf text).

End Pipeline.

(** ** generateLaudoCaracterizador: the signature token *)

Module Token.

(** The UTF-8 bytes of a string, as [Buffer.from(s)] gives them: a surrogate
    pair is one four-byte sequence and a surrogate on its own becomes
    U+FFFD. Code units are below 65536. *)
Definition isHighSurrogate (c : N) : bool := (55296 <=? c)%N && (c <=? 56319)%N.
Definition isLowSurrogate (c : N) : bool := (56320 <=? c)%N && (c <=? 57343)%N.

Definition replacement : list N := [239; 191; 189]%N.

Definition threeBytes (c : N) : list N :=
  [224 + c / 4096; 128 + (c / 64) mod 64; 128 + c mod 64]%N.

Definition fourBytes (hi lo : N) : list N :=
  let cp := (65536 + (hi - 55296) * 1024 + (lo - 56320))%N in
  [240 + cp / 262144; 128 + (cp / 4096) mod 64; 128 + (cp / 64) mod 64;
   128 + cp mod 64]%N.

Fixpoint utf8 (s : jsstring) : list N :=
  match s with
  | [] => []
  | c :: rest =>
      if (c <? 128)%N then c :: utf8 rest
      else if (c <? 2048)%N then (192 + c / 64)%N :: (128 + c mod 64)%N :: utf8 rest
      else if isHighSurrogate c then
        match rest with
        | lo :: rest' =>
            if isLowSurrogate lo then fourBytes c lo ++ utf8 rest'
            else replacement ++ utf8 rest
        | [] => replacement
        end
      else if isLowSurrogate c then replacement ++ utf8 rest
      else threeBytes c ++ utf8 rest
  end.

(** The character of a six-bit value in the base64 alphabet. *)
Definition sextet (v : N) : N :=
  if (v <? 26)%N then (65 + v)%N
  else if (v <? 52)%N then (97 + (v - 26))%N
  else if (v <? 62)%N then (48 + (v - 52))%N
  else if (v =? 62)%N then 43%N
  else 47%N.

(** [buffer.toString('base64')] *)
Fixpoint base64 (bytes : list N) : jsstring :=
  match bytes with
  | [] => []
  | [a] => [sextet (a / 4); sextet (a mod 4 * 16); 61; 61]%N
  | [a; b] =>
      [sextet (a / 4); sextet (a mod 4 * 16 + b / 16); sextet (b mod 16 * 4);
       61]%N
  | a :: b :: c :: rest =>
      [sextet (a / 4); sextet (a mod 4 * 16 + b / 16);
       sextet (b mod 16 * 4 + c / 64); sextet (c mod 64)]%N
      ++ base64 rest
  end.

(** [`SHA256-${Buffer.from(laudoId + cpf + currentDateTime)
      .toString('base64').substring(0, 16)}`] *)
Definition digitalSignature (now : N) (currentDateTime : jsstring)
  (d : Laudo.LaudoCaracterizadorData) : jsstring :=
  js "SHA256-"
  ++ firstn 16
       (base64
          (utf8 (Laudo.laudoIdOf now d ++ Laudo.cpf (Laudo.candidateInfo d)
                 ++ currentDateTime))).

End Token.

(** ** Vocabulary of the further properties *)

Module Vocabulary.

(** [[x]] when [b] holds, nothing otherwise: one conditional [push]. *)
Definition pick (b : bool) (x : jsstring) : list jsstring :=
  if b then [x] else [].

(** [x] is an element of [l]. *)
Definition member (x : jsstring) (l : list jsstring) : bool :=
  existsb (Js.eqb x) l.

(** No string occurs twice in [l]. *)
Fixpoint distinct (l : list jsstring) : bool :=
  match l with
  | [] => true
  | x :: rest => negb (member x rest) && distinct rest
  end.

(** An evidence test that text added before or after cannot turn off. *)
Definition monotone (h : jsstring -> bool) : Prop :=
  forall a c b, h c = true -> h (a ++ c ++ b) = true.

(** The five entries the analysis can list as missing, in push order. *)
Definition missingEntries : list jsstring :=
  [Analysis.audioGap; Analysis.visualGap; Analysis.laudoEntry;
   Analysis.cidEntry; Analysis.crmEntry].

Definition verifyCrmRecommendation : jsstring :=
  js "Verificar assinatura e carimbo medico com CRM valido".

Definition identifyRecommendation : jsstring :=
  js "Identificar tipo especifico de deficiencia nos documentos".

(** The findings and the evidence the evaluation loop can push. *)
Definition findings : list jsstring :=
  [js "Limitações de mobilidade identificadas";
   js "Limitações cognitivas identificadas";
   js "Limitações auditivas identificadas";
   js "Limitações visuais identificadas"].

Definition evidences : list jsstring :=
  [js "CID identificado na documentação";
   js "Limitações funcionais documentadas"].

(** The keywords and the finding of each type rule of the evaluation loop,
    and those of its two evidence rules. *)
Definition findingRules : list (list jsstring * jsstring) :=
  [([js "deficiência física"; js "mobilidade"],
    js "Limitações de mobilidade identificadas");
   ([js "deficiência intelectual"; js "cognitiv"],
    js "Limitações cognitivas identificadas");
   ([js "deficiência auditiva"; js "surdez"],
    js "Limitações auditivas identificadas");
   ([js "deficiência visual"; js "cegueira"],
    js "Limitações visuais identificadas")].

Definition evidenceRules : list (list jsstring * jsstring) :=
  [([js "cid"], js "CID identificado na documentação");
   ([js "limitação funcional"], js "Limitações funcionais documentadas")].

(** The keywords of the four type rules of the evaluation loop. *)
Definition typeKeywords : list jsstring :=
  [js "deficiência física"; js "mobilidade";
   js "deficiência intelectual"; js "cognitiv";
   js "deficiência auditiva"; js "surdez";
   js "deficiência visual"; js "cegueira"].

(** The lower-cased content of the document has one of the keywords. *)
Definition mentions (toLowerCase : jsstring -> jsstring)
  (keywords : list jsstring) (doc : Evaluation.document) : bool :=
  match Evaluation.content doc with
  | Some text => existsb (includes (toLowerCase text)) keywords
  | None => false
  end.

(** How many times [x] occurs in [l]. *)
Definition occurrences (x : jsstring) (l : list jsstring) : nat :=
  count_occ (list_eq_dec N.eq_dec) l x.

(** The reasoning of an indeterminate assessment of the try block. *)
Definition missingReasoning : jsstring :=
  js "A documentação fornecida é insuficiente para conclusão definitiva. Faltam documentos essenciais. ".

(** The section headers of the report, in template order. *)
Definition sectionHeaders : list jsstring :=
  [js "IDENTIFICACAO DO LAUDO"; js "DADOS DO AVALIADO";
   js "INFORMACOES MEDICAS"; js "AVALIACAO FUNCIONAL";
   js "CONCLUSAO TECNICA"; js "FUNDAMENTACAO LEGAL";
   js "RESPONSAVEL TECNICO"].

(** The number a text of decimal digits writes, read from the left:
    [Number(s)] on digits. *)
Definition decimalValue (s : jsstring) : N :=
  fold_left (fun acc c => (acc * 10 + (c - 48))%N) s 0%N.

End Vocabulary.

(** * Properties *)

(** ** JavaScript strings *)

Lemma eqb_eq (s t : jsstring) : Js.eqb s t = true <-> s = t.
Proof.
  unfold Js.eqb. destruct (list_eq_dec N.eq_dec s t); split; congruence.
Qed.

Lemma join_snoc (sep : jsstring) (parts : list jsstring) (p q : jsstring) :
  join sep ((p :: parts) ++ [q]) = join sep (p :: parts) ++ sep ++ q.
Proof.
  revert p. induction parts as [|r parts IH]; intros p.
  - reflexivity.
  - change (join sep ((p :: r :: parts) ++ [q]))
      with (p ++ sep ++ join sep ((r :: parts) ++ [q])).
    rewrite IH.
    change (join sep (p :: r :: parts)) with (p ++ sep ++ join sep (r :: parts)).
    now rewrite <- !app_assoc.
Qed.

(** Lists that differ by the bracketing of [++] and [::] only. *)
Ltac reassociate :=
  repeat (rewrite <- app_assoc || rewrite <- app_comm_cons
          || rewrite app_nil_l);
  reflexivity.

Lemma join_cons_snoc (sep p : jsstring) (parts : list jsstring) (q : jsstring) :
  join sep (p :: parts ++ [q]) = p ++ sep ++ join sep (parts ++ [q]).
Proof.
  destruct parts; reflexivity.
Qed.

Lemma join_ends (sep : jsstring) (parts : list jsstring) (q : jsstring) (c : N) :
  exists pre, join sep (parts ++ [q ++ [c]]) = pre ++ [c].
Proof.
  destruct parts as [|p parts].
  - exists q. reflexivity.
  - rewrite join_snoc. exists (join sep (p :: parts) ++ sep ++ q).
    now rewrite <- !app_assoc.
Qed.

Lemma trimStart_line_break (s : jsstring) :
  trimStart (10%N :: s) = trimStart s.
Proof. reflexivity. Qed.

Lemma trimStart_unit (c : N) (s : jsstring) :
  isSpace c = false -> trimStart (c :: s) = c :: s.
Proof.
  intros H. simpl. now rewrite H.
Qed.

Lemma trimEnd_line_break (s : jsstring) (c : N) :
  isSpace c = false -> trimEnd (s ++ [c] ++ [10%N]) = s ++ [c].
Proof.
  intros Hc. unfold trimEnd.
  rewrite !rev_app_distr. simpl. rewrite Hc.
  change (c :: rev s) with ([c] ++ rev s).
  rewrite rev_app_distr, rev_involutive. reflexivity.
Qed.

(** ** evaluatePCDEligibility *)

Section EvaluationFacts.

Import Evaluation.

Variable toLowerCase : jsstring -> jsstring.

Lemma when_preserves (P : loopState -> Prop) (b : bool)
  (f : loopState -> loopState) (s : loopState) :
  (forall s0, P s0 -> P (f s0)) -> P s -> P (when b f s).
Proof.
  intros Hf Hs. unfold when. destruct b; auto.
Qed.

(** A property kept by every assignment and push of the loop body is kept by
    the loop body. *)
Lemma analyzeDoc_preserves (P : loopState -> Prop) :
  (forall t finding s, ruleAssigned t -> P s -> P (setType t finding s)) ->
  (forall e s, P s -> P (pushEvidence e s)) ->
  forall s doc s', P s -> analyzeDoc toLowerCase s doc = Ok s' -> P s'.
Proof.
  intros Hset Hpush s doc s' Hs. unfold analyzeDoc, lowerContent.
  destruct (content doc) as [text|]; simpl; [|discriminate].
  intros H. injection H as <-.
  repeat (apply when_preserves;
          [intros s0 Hs0;
           first [apply Hpush; exact Hs0
                 | apply Hset; [unfold ruleAssigned; tauto | exact Hs0]]|]).
  exact Hs.
Qed.

Lemma forEachDoc_preserves (P : loopState -> Prop) :
  (forall t finding s, ruleAssigned t -> P s -> P (setType t finding s)) ->
  (forall e s, P s -> P (pushEvidence e s)) ->
  forall docs s s', P s -> forEachDoc toLowerCase docs s = Ok s' -> P s'.
Proof.
  intros Hset Hpush docs.
  induction docs as [|doc rest IH]; intros s s' Hs; simpl.
  - intros H. injection H as <-. exact Hs.
  - destruct (analyzeDoc toLowerCase s doc) as [s1|e] eqn:Hdoc; simpl;
      [|discriminate].
    apply IH. eapply analyzeDoc_preserves; eauto.
Qed.

Lemma forEachDoc_typeHasFinding (docs : list document) (s : loopState) :
  forEachDoc toLowerCase docs initialLoopState = Ok s -> typeHasFinding s.
Proof.
  apply forEachDoc_preserves with (P := typeHasFinding).
  - intros t finding s0 _ _ _. unfold nonEmpty. simpl.
    rewrite length_app. simpl. apply Nat.ltb_lt. lia.
  - intros e s0 Hs0. exact Hs0.
  - intros H. discriminate H.
Qed.

Lemma forEachDoc_typeRuleAssigned (docs : list document) (s : loopState) :
  forEachDoc toLowerCase docs initialLoopState = Ok s -> typeRuleAssigned s.
Proof.
  apply forEachDoc_preserves with (P := typeRuleAssigned).
  - intros t finding s0 Ht _ t' H. simpl in H. injection H as <-. exact Ht.
  - intros e s0 Hs0. exact Hs0.
  - intros t H. discriminate H.
Qed.

(** The try block throws nowhere but in the loop. *)
Lemma evaluateBody_Ok (docs : list document) (r : PCDEvaluationResult) :
  evaluateBody toLowerCase docs = Ok r ->
  exists s, forEachDoc toLowerCase docs initialLoopState = Ok s
    /\ let '(o, conf, severity, physical) := decide docs (missingDocs docs) s in
       outcome r = o /\ confidence r = conf /\ severityLevel r = severity
       /\ requiresPhysicalEvaluation r = physical
       /\ deficiencyType r = st_deficiencyType s
       /\ functionalLimitations r = st_functionalLimitations s
       /\ clinicalEvidence r = st_clinicalEvidence s
       /\ missingDocumentation r = missingDocs docs.
Proof.
  unfold evaluateBody.
  destruct (forEachDoc toLowerCase docs initialLoopState) as [s|e]; simpl;
    [|discriminate].
  intros H. exists s. split; [reflexivity|].
  destruct (decide docs (missingDocs docs) s) as [[[o conf] severity] physical].
  injection H as <-. simpl. repeat split.
Qed.

Lemma evaluateBody_Throw (docs : list document) (e : exn) :
  evaluateBody toLowerCase docs = Throw e ->
  forEachDoc toLowerCase docs initialLoopState = Throw e.
Proof.
  unfold evaluateBody.
  destruct (forEachDoc toLowerCase docs initialLoopState) as [s|e']; simpl.
  - destruct (decide docs (missingDocs docs) s) as [[[o conf] severity] physical].
    discriminate.
  - intros H. destruct e, e'. reflexivity.
Qed.

(** The try block throws exactly when some entry has a content that is not
    a string. *)
Lemma forEachDoc_Throw_iff (docs : list document) (s : loopState) :
  (exists e, forEachDoc toLowerCase docs s = Throw e)
  <-> exists doc, In doc docs /\ content doc = None.
Proof.
  revert s. induction docs as [|doc rest IH]; intros s; simpl.
  - split; [intros [e H]; discriminate | intros [doc [[] _]]].
  - unfold analyzeDoc at 1, lowerContent.
    destruct (content doc) as [text|] eqn:Hc; simpl.
    + rewrite IH. split.
      * intros [d [Hin Hd]]. exists d. auto.
      * intros [d [[<-|Hin] Hd]]; [congruence | exists d; auto].
    + split; [intros _; exists doc; auto | intros _; exists TypeError; reflexivity].
Qed.

(** The decision table at the level of the returned assessment: the rows are
    tried in order on every run of the try block that returns. *)
Lemma decision_table (docs : list document) (r : PCDEvaluationResult) :
  evaluateBody toLowerCase docs = Ok r ->
  if nonEmpty (missingDocumentation r)
  then outcome r = TALVEZ /\ confidence r = 0.3%Q
  else if isSome (deficiencyType r) && nonEmpty (functionalLimitations r)
  then outcome r = SIM /\ confidence r = 0.8%Q
       /\ severityLevel r = Some MODERADA
  else if nonEmpty docs && isSome (deficiencyType r)
  then outcome r = TALVEZ /\ confidence r = 0.6%Q
       /\ requiresPhysicalEvaluation r = true
  else outcome r = NAO /\ confidence r = 0.7%Q.
Proof.
  intros H. apply evaluateBody_Ok in H. destruct H as [s [_ H]].
  unfold decide in H.
  destruct (nonEmpty (missingDocs docs)) eqn:Hm;
    [|destruct (isSome (st_deficiencyType s)
                && nonEmpty (st_functionalLimitations s)) eqn:H2;
      [|destruct (nonEmpty docs && isSome (st_deficiencyType s)) eqn:H3]];
    destruct H as (Ho & Hc & Hs & Hp & Hd & Hf & _ & Hmiss);
    rewrite Hmiss, ?Hd, ?Hf, Hm, ?H2, ?H3; auto.
Qed.

(** On a run of the try block that returns, the condition of the third row
    is never met when the first two rows have been passed over. *)
Lemma third_row_condition_false (docs : list document) (s : loopState) :
  forEachDoc toLowerCase docs initialLoopState = Ok s ->
  isSome (st_deficiencyType s) && nonEmpty (st_functionalLimitations s) = false ->
  nonEmpty docs && isSome (st_deficiencyType s) = false.
Proof.
  intros Hloop H2. apply forEachDoc_typeHasFinding in Hloop.
  unfold typeHasFinding in Hloop.
  destruct (isSome (st_deficiencyType s)); [|apply andb_false_r].
  rewrite Hloop in H2 by reflexivity. discriminate H2.
Qed.

(** C1 (third row of the decision table). The claim has every row of the
    table reachable. In the code the third row is dead: the loop pushes a
    functional-limitation finding with every type it assigns, so the second
    row takes every input on which a type was detected: no list of
    documents is answered with confidence 0.6, and a physical evaluation is
    required by the catch block only. *)
Theorem third_branch_never_taken (docs : list document) :
  let r := evaluatePCDEligibility toLowerCase docs in
  confidence r <> 0.6%Q
  /\ (r = degraded \/ requiresPhysicalEvaluation r = false).
Proof.
  cbv zeta. unfold evaluatePCDEligibility, tryCatch.
  destruct (evaluateBody toLowerCase docs) as [r|e] eqn:Hbody;
    [|split; [simpl; discriminate | left; reflexivity]].
  apply evaluateBody_Ok in Hbody. destruct Hbody as [s [Hloop H]].
  unfold decide in H.
  destruct (nonEmpty (missingDocs docs)).
  - destruct H as (_ & -> & _ & -> & _). split; [discriminate | now right].
  - destruct (isSome (st_deficiencyType s)
              && nonEmpty (st_functionalLimitations s)) eqn:H2.
    + destruct H as (_ & -> & _ & -> & _). split; [discriminate | now right].
    + rewrite (third_row_condition_false _ Hloop H2) in H.
      destruct H as (_ & -> & _ & -> & _). split; [discriminate | now right].
Qed.

(** Every call returns: the assessment of the try block, or that of the
    catch block when the try block throws. *)
Lemma evaluatePCDEligibility_returns (docs : list document) :
  evaluateBody toLowerCase docs
  = Ok (evaluatePCDEligibility toLowerCase docs)
  \/ ((exists e, evaluateBody toLowerCase docs = Throw e)
      /\ evaluatePCDEligibility toLowerCase docs = degraded).
Proof.
  unfold evaluatePCDEligibility, tryCatch.
  destruct (evaluateBody toLowerCase docs) as [r|e]; [left | right]; eauto.
Qed.

(** C2, as amended. With no document supplied both required documents are
    missing, so the first row of the table applies: the outcome is TALVEZ
    (indeterminate) with confidence 0.3, and the clinical-evidence and
    functional-limitation lists are empty. *)
Theorem zero_documents_indeterminate :
  let r := evaluatePCDEligibility toLowerCase [] in
  outcome r = TALVEZ /\ confidence r = 0.3%Q
  /\ clinicalEvidence r = [] /\ functionalLimitations r = []
  /\ missingDocumentation r
     = [js "Laudo médico atualizado (menos de 1 ano)";
        js "Relatório de médico especialista na área da deficiência"]
  /\ deficiencyType r = None /\ requiresPhysicalEvaluation r = false.
Proof.
  cbv zeta. repeat split.
Qed.


(** The call returns unless the logging throws, and the logging throws
    exactly on a [documentationProvided] that is [undefined] or [null]. *)
Lemma execute_Throw_iff (p : provided) :
  (exists e, execute toLowerCase p = Throw e) <-> p = Nullish.
Proof.
  unfold execute. destruct p; cbn [readLength bind]; split;
    try discriminate; try reflexivity.
  - intros [e He]. discriminate He.
  - intros _. now exists TypeError.
  - intros [e He]. discriminate He.
Qed.


(** C10. The type an assessment carries is never MULTIPLA and never
    PSICOSSOCIAL, whatever the documents say: the loop assigns FISICA,
    INTELECTUAL, AUDITIVA or VISUAL, or leaves the type unset, and the catch
    block returns no type. *)
Theorem deficiencyType_never_multiple_nor_psychosocial (docs : list document) :
  deficiencyType (evaluatePCDEligibility toLowerCase docs) <> Some MULTIPLA
  /\ deficiencyType (evaluatePCDEligibility toLowerCase docs)
     <> Some PSICOSSOCIAL.
Proof.
  unfold evaluatePCDEligibility, tryCatch.
  destruct (evaluateBody toLowerCase docs) as [r|e] eqn:Hbody;
    [|simpl; split; discriminate].
  apply evaluateBody_Ok in Hbody. destruct Hbody as [s [Hloop H]].
  apply forEachDoc_typeRuleAssigned in Hloop.
  destruct (decide docs (missingDocs docs) s) as [[[o conf] severity] physical].
  destruct H as (_ & _ & _ & _ & Hd & _).
  split; intros Heq; rewrite Hd in Heq; apply Hloop in Heq;
    unfold ruleAssigned in Heq; intuition discriminate.
Qed.

End EvaluationFacts.

(** *** Runs of the decision table *)

Section EvaluationRuns.

Import Evaluation.

(** First row: a required document is missing. *)
Example first_row_run :
  let r := evaluatePCDEligibility latin1ToLowerCase
             [entry LAUDO_MEDICO "Paciente com deficiência física."] in
  outcome r = TALVEZ /\ confidence r = 0.3%Q
  /\ requiresPhysicalEvaluation r = false.
Proof. vm_compute. repeat split. Qed.

(** Second row: both required documents, a type and its finding. *)
Example second_row_run :
  let r := evaluatePCDEligibility latin1ToLowerCase
             [entry LAUDO_MEDICO "Deficiência física com limitação funcional";
              entry RELATORIO_ESPECIALISTA "Deficiência física com limitação funcional";
              entry EXAMES_COMPLEMENTARES "Deficiência física com limitação funcional"] in
  outcome r = SIM /\ confidence r = 0.8%Q /\ severityLevel r = Some MODERADA
  /\ deficiencyType r = Some FISICA.
Proof. vm_compute. repeat split. Qed.

(** Fourth row: both required documents and no type. *)
Example fourth_row_run :
  let r := evaluatePCDEligibility latin1ToLowerCase
             [entry LAUDO_MEDICO "Paciente em acompanhamento";
              entry RELATORIO_ESPECIALISTA "Sem alteracoes"] in
  outcome r = NAO /\ confidence r = 0.7%Q /\ deficiencyType r = None.
Proof. vm_compute. repeat split. Qed.

(** C1, at an input that meets the wording of the third row: documents
    present, both required kinds, a type detected and no
    functional-limitation phrase in any content. The second row answers. *)
Example third_row_input_confirmed :
  let r := evaluatePCDEligibility latin1ToLowerCase
             [entry LAUDO_MEDICO "deficiência visual";
              entry RELATORIO_ESPECIALISTA "paciente em acompanhamento"] in
  outcome r = SIM /\ confidence r = 0.8%Q
  /\ requiresPhysicalEvaluation r = false
  /\ deficiencyType r = Some VISUAL
  /\ functionalLimitations r = [js "Limitações visuais identificadas"]
  /\ clinicalEvidence r = [].
Proof. vm_compute. repeat split. Qed.

(** C2, as stated, fails: with no document the assessment is not the
    rejection with confidence 0.7. *)
Lemma zero_documents_not_rejected :
  let r := evaluatePCDEligibility latin1ToLowerCase [] in
  ~ (outcome r = NAO /\ confidence r = 0.7%Q
     /\ clinicalEvidence r = [] /\ functionalLimitations r = []).
Proof.
  cbv zeta. intros [H _]. vm_compute in H. discriminate H.
Qed.



(** C10 on documents that name a psychosocial and a multiple disability. *)
Example psychosocial_text_leaves_type_unset :
  deficiencyType
    (evaluatePCDEligibility latin1ToLowerCase
       [entry LAUDO_MEDICO "Deficiência psicossocial: esquizofrenia";
        entry RELATORIO_ESPECIALISTA "Deficiência múltipla"])
  = None.
Proof. vm_compute. reflexivity. Qed.

End EvaluationRuns.

(** ** analyzePCDDocumentFromPDF, step 3 *)

Section AnalysisFacts.

Import Analysis.

(** *** Score and quality *)

Lemma completenessScoreOf_sum (f : DocumentEvidenceFlags) :
  completenessScoreOf f
  = (points MedicalReport f + points SpecialistReport f
     + points CIDDiagnosis f + points ValidSignature f
     + points ValidProfessionalId f + points TypeDetected f
     + points CIFCriteria f + points ComplementaryExams f)%Z.
Proof.
  destruct f as [[] [] [] [] [] [] [] []]; reflexivity.
Qed.

Lemma points_bounds (k : Flag) (f : DocumentEvidenceFlags) :
  (0 <= points k f <= weight k)%Z.
Proof.
  unfold points. destruct (getFlag k f), k; simpl; lia.
Qed.

Lemma completenessScoreOf_bounds (f : DocumentEvidenceFlags) :
  (0 <= completenessScoreOf f <= 100)%Z.
Proof.
  rewrite completenessScoreOf_sum.
  pose proof (points_bounds MedicalReport f).
  pose proof (points_bounds SpecialistReport f).
  pose proof (points_bounds CIDDiagnosis f).
  pose proof (points_bounds ValidSignature f).
  pose proof (points_bounds ValidProfessionalId f).
  pose proof (points_bounds TypeDetected f).
  pose proof (points_bounds CIFCriteria f).
  pose proof (points_bounds ComplementaryExams f).
  simpl weight in *. lia.
Qed.

Lemma documentQualityOf_tiers (score : Z) :
  (documentQualityOf score = EXCELENTE <-> 85 <= score)%Z
  /\ (documentQualityOf score = BOA <-> 70 <= score < 85)%Z
  /\ (documentQualityOf score = REGULAR <-> 50 <= score < 70)%Z
  /\ (documentQualityOf score = INSUFICIENTE <-> score < 50)%Z.
Proof.
  unfold documentQualityOf.
  destruct (Z.geb_spec score 85); [|destruct (Z.geb_spec score 70);
    [|destruct (Z.geb_spec score 50)]];
    repeat split; intros; try discriminate; try lia; try reflexivity.
Qed.

(** C4. For every combination of the eight evidence flags the score is the
    sum of the weights of the flags that are set (20, 20, 10, 10, 10, 15, 5,
    10), it lies between 0 and 100, and the quality is EXCELENTE exactly
    from 85, BOA from 70 to 84, REGULAR from 50 to 69 and INSUFICIENTE
    below. *)
Theorem score_bounds_and_tiers (f : DocumentEvidenceFlags) :
  let score := completenessScoreOf f in
  let quality := documentQualityOf score in
  score
  = ((if hasMedicalReport f then 20 else 0)
     + (if hasSpecialistReportFlag f then 20 else 0)
     + (if hasCIDDiagnosisFlag f then 10 else 0)
     + (if hasValidSignature f then 10 else 0)
     + (if hasValidProfessionalId f then 10 else 0)
     + (if typeDetected f then 15 else 0)
     + (if hasCIFCriteria f then 5 else 0)
     + (if hasComplementaryExamsFlag f then 10 else 0))%Z
  /\ (0 <= score <= 100)%Z
  /\ (quality = EXCELENTE <-> 85 <= score)%Z
  /\ (quality = BOA <-> 70 <= score < 85)%Z
  /\ (quality = REGULAR <-> 50 <= score < 70)%Z
  /\ (quality = INSUFICIENTE <-> score < 50)%Z.
Proof.
  cbv zeta. split; [|split].
  - rewrite completenessScoreOf_sum. reflexivity.
  - apply completenessScoreOf_bounds.
  - apply documentQualityOf_tiers.
Qed.

(** The score and the quality of an analysis are those of the flags read
    from its content. *)
Lemma analyzeContent_score (extraction : ExtractionResult)
  (expected : option ExpectedDeficiencyType) (content : jsstring) :
  let r := analyzeContent extraction expected content in
  completenessScore r = completenessScoreOf (evidenceFlags content)
  /\ documentQuality r = documentQualityOf (completenessScore r)
  /\ (0 <= completenessScore r <= 100)%Z.
Proof.
  cbv zeta. simpl. repeat split;
    apply (completenessScoreOf_bounds (evidenceFlags content)).
Qed.

(** Setting a flag adds the points it did not yet contribute. *)
Lemma completenessScoreOf_setFlag (k : Flag) (f : DocumentEvidenceFlags) :
  completenessScoreOf (setFlag k f)
  = (completenessScoreOf f + (weight k - points k f))%Z.
Proof.
  destruct f as [[] [] [] [] [] [] [] []], k; reflexivity.
Qed.

(** C9. Setting one evidence flag that is false to true, the others as they
    are, never decreases the score. *)
Theorem score_monotone (f : DocumentEvidenceFlags) (k : Flag) :
  getFlag k f = false ->
  (completenessScoreOf f <= completenessScoreOf (setFlag k f))%Z.
Proof.
  intros Hk. rewrite completenessScoreOf_setFlag.
  unfold points. rewrite Hk. destruct k; simpl; lia.
Qed.

Lemma score_monotone_witness :
  getFlag CIFCriteria noEvidence = false
  /\ (completenessScoreOf noEvidence
      <= completenessScoreOf (setFlag CIFCriteria noEvidence))%Z.
Proof.
  split.
  - reflexivity.
  - apply (@score_monotone noEvidence CIFCriteria). reflexivity.
Defined.

(** *** The type rules *)

(** What the five [if] statements leave in their variables: the type of the
    last rule that matched, and the qualifications and the type-specific
    gaps of every rule that matched, in rule order. *)
Lemma applyRules_matched (content : jsstring) :
  rs_detected (applyRules content) = lastMatch content
  /\ rs_issuerQualifications (applyRules content)
     = flat_map qualificationsOf (matchedRules content)
  /\ rs_missingDocuments (applyRules content)
     = flat_map (gapsOf content) (matchedRules content).
Proof.
  unfold applyRules, rulePsicossocial, ruleVisual, ruleAuditiva,
    ruleIntelectual, ruleFisica, lastMatch, matchedRules, baseTypes.
  cbn [filter matchesRule].
  destruct (matchesFisica content), (matchesIntelectual content),
    (matchesAuditiva content), (matchesVisual content),
    (matchesPsicossocial content);
    cbn [flat_map gapsOf];
    destruct (lacksAudioExam content), (lacksVisualExam content);
    repeat split.
Qed.



(** C7, as amended. The type the rules assign, before the check for
    multiple deficiencies, is that of the last rule that matches; the
    returned qualifications are those of all the rules that match, in rule
    order, and the missing-document list opens with the type-specific gaps
    of all the rules that match. *)
Theorem rules_accumulate_over_matches (extraction : ExtractionResult)
  (expected : option ExpectedDeficiencyType) (content : jsstring) :
  let r := analyzeContent extraction expected content in
  rs_detected (applyRules content) = last (matchedRules content) NAO_IDENTIFICADA
  /\ issuerQualifications (medicalDocuments r)
     = flat_map qualificationsOf (matchedRules content)
  /\ missingDocuments r
     = flat_map (gapsOf content) (matchedRules content)
       ++ buildMissingDocuments [] (hasLaudoMedico content)
            (hasCIDDiagnosis content) (hasValidCRM content).
Proof.
  cbv zeta. simpl.
  destruct (applyRules_matched content) as (Hd & Hq & Hm).
  rewrite Hd, Hq, Hm. repeat split.
Qed.

(** *** Missing documents and urgency flags *)

Lemma cid_flags_of_missing_cid (detected : DetectedDeficiencyType)
  (expected : option ExpectedDeficiencyType) :
  List.length (filter mentionsCID (buildUrgencyFlags false detected expected))
  = 1%nat.
Proof.
  destruct detected, expected as [[]|]; vm_compute; reflexivity.
Qed.

(** In the analysis of a content without medical-report evidence and
    without CID evidence the missing-document list has the medical-report
    entry and the CID entry, and exactly one urgency flag is about the CID. *)
Lemma analyzeContent_missing_report_and_cid (extraction : ExtractionResult)
  (expected : option ExpectedDeficiencyType) (content : jsstring) :
  hasLaudoMedico content = false ->
  hasCIDDiagnosis content = false ->
  let r := analyzeContent extraction expected content in
  In laudoEntry (missingDocuments r)
  /\ In cidEntry (missingDocuments r)
  /\ List.length (filter mentionsCID (urgencyFlags r)) = 1%nat
  /\ In cidFlag (urgencyFlags r).
Proof.
  intros Hlaudo Hcid. cbv zeta. simpl. rewrite Hlaudo, Hcid.
  unfold buildMissingDocuments. cbn [negb].
  split; [|split; [|split]].
  - apply in_or_app. right. left. reflexivity.
  - apply in_or_app. right. right. left. reflexivity.
  - apply cid_flags_of_missing_cid.
  - left. reflexivity.
Qed.

(** *** Runs of the analysis *)


(** C7, as stated, fails: with two rules matching, the qualifications and
    the type-specific gaps are not those of the last match alone. *)
Lemma qualifications_not_of_last_match_alone :
  let r1 := analyzeExtraction latin1ToLowerCase
              (extractionOf "paraplegia e surdez") None in
  let r2 := analyzeExtraction latin1ToLowerCase
              (extractionOf "surdez e cegueira") None in
  (lastMatch (js "paraplegia e surdez") = AUDITIVA
   /\ issuerQualifications (medicalDocuments r1)
      = [js "Ortopedia"; js "Fisiatria"; js "Otorrinolaringologia";
         js "Fonoaudiologia"]
   /\ issuerQualifications (medicalDocuments r1) <> qualificationsOf AUDITIVA)
  /\ (lastMatch (js "surdez e cegueira") = VISUAL
      /\ rs_missingDocuments (applyRules (js "surdez e cegueira"))
         = [audioGap; visualGap]
      /\ rs_missingDocuments (applyRules (js "surdez e cegueira"))
         <> gapsOf (js "surdez e cegueira") VISUAL
      /\ In audioGap (missingDocuments r2)).
Proof.
  cbv zeta. repeat split; try (vm_compute; reflexivity);
    try (vm_compute; discriminate).
  vm_compute. left. reflexivity.
Qed.

(** Scenario 1 of the specification: an auditory deficiency with an
    audiometry and no CID. *)
Example auditory_with_audiometry :
  let r := analyzeExtraction latin1ToLowerCase
             (extractionOf "Laudo: deficiência auditiva, audiometria anexa")
             None in
  detectedDeficiencyType r = AUDITIVA
  /\ ~ In audioGap (missingDocuments r)
  /\ In cidEntry (missingDocuments r)
  /\ urgencyFlags r = [cidFlag].
Proof.
  cbv zeta. repeat split; try (vm_compute; reflexivity).
  - vm_compute. intuition discriminate.
  - vm_compute. right. left. reflexivity.
Qed.

End AnalysisFacts.

(** ** analyzePCDDocumentFromPDF: the whole of [execute] *)

Section PipelineFacts.

Import Analysis Pipeline.

Variable toLowerCase : jsstring -> jsstring.
Variable fetch : jsstring -> attempt Response.
Variable extractTextFromPDF : list N -> attempt ExtractionResult.

Lemma trimStart_nil_iff (s : jsstring) :
  trimStart s = [] <-> forallb isSpace s = true.
Proof.
  induction s as [|c s IH]; [tauto|].
  cbn [trimStart forallb]. destruct (isSpace c); cbn [andb];
    [exact IH | split; discriminate].
Qed.

Lemma forallb_rev (p : N -> bool) (s : jsstring) :
  forallb p (rev s) = forallb p s.
Proof.
  induction s as [|c s IH]; [reflexivity|].
  cbn [rev forallb]. rewrite forallb_app, IH. cbn [forallb].
  rewrite andb_true_r. apply andb_comm.
Qed.

(** [trim] leaves nothing exactly of the texts made of white space. *)
Lemma trim_nil_iff (s : jsstring) :
  trim s = [] <-> forallb isSpace s = true.
Proof.
  unfold trim, trimEnd. split.
  - intros H. apply (f_equal (@rev N)) in H.
    rewrite rev_involutive in H. cbn [rev] in H.
    apply trimStart_nil_iff in H. rewrite forallb_rev in H.
    apply trimStart_nil_iff.
    destruct s as [|c s]; [reflexivity|].
    cbn [trimStart] in *. destruct (isSpace c) eqn:Hc.
    + destruct (trimStart s) as [|d t] eqn:Ht; [reflexivity|].
      exfalso. clear -Ht H. revert d t Ht H.
      induction s as [|e s IH]; intros d t Ht H; [discriminate Ht|].
      cbn [trimStart] in Ht. destruct (isSpace e) eqn:He.
      * now apply (IH d t).
      * injection Ht as <- <-. cbn [forallb] in H. now rewrite He in H.
    + cbn [forallb] in H. now rewrite Hc in H.
  - intros H. apply trimStart_nil_iff in H. now rewrite H.
Qed.

Lemma isBlank_iff (text : jsstring) :
  isBlank text = true <-> forallb isSpace text = true.
Proof.
  unfold isBlank. destruct text as [|c s]; [tauto|].
  rewrite eqb_eq. apply trim_nil_iff.
Qed.

Lemma isBlank_false_iff (text : jsstring) :
  isBlank text = false <-> forallb isSpace text = false.
Proof.
  rewrite <- !not_true_iff_false. now rewrite isBlank_iff.
Qed.

(** A try block that returns has downloaded the file, extracted a text
    that is not blank, and returns its analysis. *)
Lemma tryBlock_Returned (pdfUrl : jsstring)
  (expected : option ExpectedDeficiencyType) (r : DocumentAnalysisResult) :
  tryBlock toLowerCase fetch extractTextFromPDF pdfUrl expected = Returned r ->
  exists extraction,
    forallb isSpace (extractedText extraction) = false
    /\ r = analyzeContent extraction expected
             (toLowerCase (extractedText extraction)).
Proof.
  unfold tryBlock, andThen. intros Htry.
  destruct (fetch pdfUrl) as [response|]; [|discriminate Htry].
  destruct (negb (ok response)); [discriminate Htry|].
  destruct (arrayBuffer response) as [buffer|]; [|discriminate Htry].
  destruct (extractTextFromPDF buffer) as [extraction|]; [|discriminate Htry].
  destruct (isBlank (extractedText extraction)) eqn:Hblank;
    [discriminate Htry|].
  injection Htry as <-. exists extraction.
  split; [now apply isBlank_false_iff | reflexivity].
Qed.

(** Every result of [execute] is that of the catch block or the analysis of
    a text that is not blank. *)
Lemma execute_cases (pdfUrl : jsstring)
  (expected : option ExpectedDeficiencyType) :
  (exists t, execute toLowerCase fetch extractTextFromPDF pdfUrl expected
             = errorResult t)
  \/ (exists extraction,
        forallb isSpace (extractedText extraction) = false
        /\ execute toLowerCase fetch extractTextFromPDF pdfUrl expected
           = analyzeContent extraction expected
               (toLowerCase (extractedText extraction))).
Proof.
  unfold execute.
  destruct (tryBlock toLowerCase fetch extractTextFromPDF pdfUrl expected)
    as [r|t] eqn:Htry.
  - right. destruct (tryBlock_Returned _ _ Htry) as (extraction & Hb & ->).
    now exists extraction.
  - left. now exists t.
Qed.

(** After a download and an extraction that succeed, a text that is not
    blank is analysed. *)
Lemma execute_analysed (pdfUrl : jsstring)
  (expected : option ExpectedDeficiencyType) (response : Response)
  (pdfBuffer : list N) (extraction : ExtractionResult) :
  fetch pdfUrl = Returned response ->
  ok response = true ->
  arrayBuffer response = Returned pdfBuffer ->
  extractTextFromPDF pdfBuffer = Returned extraction ->
  forallb isSpace (extractedText extraction) = false ->
  execute toLowerCase fetch extractTextFromPDF pdfUrl expected
  = analyzeContent extraction expected
      (toLowerCase (extractedText extraction)).
Proof.
  intros Hf Hok Hb He Hblank. apply isBlank_false_iff in Hblank.
  unfold execute, tryBlock. rewrite Hf. cbn [andThen]. rewrite Hok.
  cbn [negb]. rewrite Hb. cbn [andThen]. rewrite He. cbn [andThen].
  now rewrite Hblank.
Qed.

(** C8, as amended. For every input text that is not blank and contains no
    medical-report evidence and no CID evidence, the result of the analysis
    has the medical-report entry and the CID entry in its missing-document
    list, and exactly one of its urgency flags is about the CID. *)
Theorem missing_report_and_cid_of_text (pdfUrl : jsstring)
  (expected : option ExpectedDeficiencyType) (response : Response)
  (pdfBuffer : list N) (extraction : ExtractionResult) :
  fetch pdfUrl = Returned response ->
  ok response = true ->
  arrayBuffer response = Returned pdfBuffer ->
  extractTextFromPDF pdfBuffer = Returned extraction ->
  forallb isSpace (extractedText extraction) = false ->
  hasLaudoMedico (toLowerCase (extractedText extraction)) = false ->
  hasCIDDiagnosis (toLowerCase (extractedText extraction)) = false ->
  let r := execute toLowerCase fetch extractTextFromPDF pdfUrl expected in
  In laudoEntry (missingDocuments r)
  /\ In cidEntry (missingDocuments r)
  /\ List.length (filter mentionsCID (urgencyFlags r)) = 1%nat
  /\ In cidFlag (urgencyFlags r).
Proof.
  intros Hf Hok Hb He Hblank Hlaudo Hcid. cbv zeta.
  rewrite (execute_analysed expected Hf Hok Hb He Hblank).
  now apply analyzeContent_missing_report_and_cid.
Qed.

End PipelineFacts.

Section PipelineFactRuns.

Import Analysis Pipeline.

(** C8, as stated, fails: a text of white space contains no medical-report
    evidence and no CID evidence, and the result, that of the catch block,
    lists neither entry and raises no flag about the CID. *)
Lemma blank_text_lists_neither_entry :
  let extraction := extractionOf "   " in
  let content := latin1ToLowerCase (extractedText extraction) in
  let r := execute latin1ToLowerCase (respondWith 200 "OK") (extracting "   ")
             (js "https://example.org/laudo.pdf") None in
  hasLaudoMedico content = false
  /\ hasCIDDiagnosis content = false
  /\ ~ In laudoEntry (missingDocuments r)
  /\ ~ In cidEntry (missingDocuments r)
  /\ List.length (filter mentionsCID (urgencyFlags r)) = 0%nat.
Proof.
  cbv zeta.
  split; [vm_compute; reflexivity|]. split; [vm_compute; reflexivity|].
  split; [|split].
  - vm_compute. intros [H|[]]. discriminate H.
  - vm_compute. intros [H|[]]. discriminate H.
  - vm_compute. reflexivity.
Qed.

(** C8, as amended, at a text that names a deafness and nothing else. *)
Lemma missing_report_and_cid_of_text_witness :
  let extraction := extractionOf "Paciente com surdez bilateral" in
  let response := {| ok := true; status := 200; statusText := js "OK";
                     arrayBuffer := Returned [] |} in
  respondWith 200 "OK" (js "https://example.org/laudo.pdf")
  = Returned response
  /\ forallb isSpace (extractedText extraction) = false
  /\ hasLaudoMedico (latin1ToLowerCase (extractedText extraction)) = false
  /\ hasCIDDiagnosis (latin1ToLowerCase (extractedText extraction)) = false
  /\ let r := execute latin1ToLowerCase (respondWith 200 "OK")
                (extracting "Paciente com surdez bilateral")
                (js "https://example.org/laudo.pdf") (Some EXP_VISUAL) in
     In laudoEntry (missingDocuments r)
     /\ In cidEntry (missingDocuments r)
     /\ List.length (filter mentionsCID (urgencyFlags r)) = 1%nat
     /\ In cidFlag (urgencyFlags r).
Proof.
  cbv zeta. split; [reflexivity|]. split; [vm_compute; reflexivity|].
  split; [vm_compute; reflexivity|]. split; [vm_compute; reflexivity|].
  apply (@missing_report_and_cid_of_text latin1ToLowerCase
           (respondWith 200 "OK") (extracting "Paciente com surdez bilateral")
           (js "https://example.org/laudo.pdf") (Some EXP_VISUAL)
           {| ok := true; status := 200; statusText := js "OK";
              arrayBuffer := Returned [] |}
           [] (extractionOf "Paciente com surdez bilateral"));
    [reflexivity | reflexivity | reflexivity | reflexivity
    | vm_compute; reflexivity | vm_compute; reflexivity
    | vm_compute; reflexivity].
Defined.

End PipelineFactRuns.

(** ** generateLaudoCaracterizador: the report *)

Section LaudoFacts.

Import Laudo.

Variable toLowerCase : jsstring -> jsstring.
Variable now : N.
Variable currentDate : jsstring.

(** [trim] takes from a text that is framed by two line breaks, and that
    starts and ends with a unit that is not white space, the two line breaks
    and nothing else. *)
Lemma trim_framed (c0 cl : N) (r0 rl : jsstring) (mid : list jsstring) :
  isSpace c0 = false -> isSpace cl = false ->
  trim (join LF ([] :: ((c0 :: r0) :: mid ++ [rl ++ [cl]]) ++ [[]]))
  = join LF ((c0 :: r0) :: mid ++ [rl ++ [cl]]).
Proof.
  intros H0 Hl.
  rewrite (join_cons_snoc LF [] ((c0 :: r0) :: mid ++ [rl ++ [cl]]) []).
  rewrite join_snoc, app_nil_r. unfold LF at 1. cbn [app].
  unfold trim. rewrite trimStart_line_break.
  rewrite (join_cons_snoc LF (c0 :: r0) mid (rl ++ [cl])).
  destruct (join_ends LF mid rl cl) as [pre ->].
  cbn [app]. rewrite trimStart_unit by exact H0.
  replace (c0 :: (r0 ++ LF ++ pre ++ [cl]) ++ LF)
    with ((c0 :: r0 ++ LF ++ pre) ++ [cl] ++ [10%N])
    by (unfold LF; reassociate).
  rewrite trimEnd_line_break by exact Hl.
  reassociate.
Qed.

(** The document is its rows joined by line breaks: [trim] removes the line
    break that opens the template and the one that closes it. *)
Lemma fullDocument_rows (d : LaudoCaracterizadorData) :
  fullDocument toLowerCase now currentDate d
  = join LF (documentRows toLowerCase now currentDate d).
Proof.
  unfold fullDocument, template.
  set (rows := documentRows toLowerCase now currentDate d).
  assert (Hshape :
    rows = (76%N :: tl (js "LAUDO CARACTERIZADOR DE PESSOA COM DEFICIENCIA"))
             :: removelast (tl rows)
             ++ [removelast
                   (js "com a legislacao brasileira vigente sobre pessoas com deficiencia.")
                 ++ [46%N]]).
  { subst rows. cbv - [ofN]. reflexivity. }
  rewrite Hshape. apply trim_framed; reflexivity.
Qed.

Lemma optional_absent (label : string) (field : option jsstring) :
  present field = false -> optional label field = [].
Proof.
  intros H. unfold optional. now rewrite H.
Qed.

(** The row of each optional field is empty when the field is absent. *)
Lemma absent_row_empty (d : LaudoCaracterizadorData) (field : OptionalField) :
  absent field d = true ->
  nth_error (documentRows toLowerCase now currentDate d) (rowOf field)
  = Some [].
Proof.
  intros H. unfold documentRows.
  destruct field; cbn [rowOf nth_error]; cbn [absent] in H;
    try (apply negb_true_iff in H; now rewrite (optional_absent _ _ H)).
  - destruct (assistiveTechnology (functionalAssessment d));
      [reflexivity | discriminate H].
  - destruct (otherLaws (legalBasis d)) as [[|law rest]|];
      [reflexivity | discriminate H | reflexivity].
Qed.

(** C5, as amended. For every dossier and every optional field (RG,
    address, phone, e-mail, CIF code, onset date, assistive technologies,
    other laws) that is absent or empty, the report leaves out the label and
    the value of the field and keeps the line: the document is the template
    rows joined by line breaks, and the row of the field is the empty
    string. *)
Theorem absent_field_leaves_empty_row (d : LaudoCaracterizadorData)
  (field : OptionalField) :
  absent field d = true ->
  fullDocument toLowerCase now currentDate d
  = join LF (documentRows toLowerCase now currentDate d)
  /\ List.length (documentRows toLowerCase now currentDate d) = 75%nat
  /\ nth_error (documentRows toLowerCase now currentDate d) (rowOf field)
     = Some [].
Proof.
  intros H. split; [apply fullDocument_rows|].
  split; [unfold documentRows; reflexivity | apply absent_row_empty; exact H].
Qed.

End LaudoFacts.

Section LaudoRuns.

Import Laudo.

Lemma absent_field_leaves_empty_row_witness :
  absent RG minimalDossier = true
  /\ fullDocument latin1ToLowerCase 1700000000000 (js "03/11/2026")
       minimalDossier
     = join LF (documentRows latin1ToLowerCase 1700000000000
                  (js "03/11/2026") minimalDossier)
  /\ List.length (documentRows latin1ToLowerCase 1700000000000
                    (js "03/11/2026") minimalDossier) = 75%nat
  /\ nth_error (documentRows latin1ToLowerCase 1700000000000
                  (js "03/11/2026") minimalDossier) (rowOf RG)
     = Some [].
Proof.
  split.
  - reflexivity.
  - apply (@absent_field_leaves_empty_row latin1ToLowerCase 1700000000000
             (js "03/11/2026") minimalDossier RG).
    reflexivity.
Defined.

(** C5, as stated, fails: the report of a dossier without RG has an empty
    line where the RG line would be, between the CPF line and the line of
    the date of birth; and so for each of the eight optional fields. *)
Lemma absent_rg_leaves_blank_line :
  absent RG minimalDossier = true
  /\ nth_error minimalLines 10 = Some (js "CPF: 123.456.789-00")
  /\ nth_error minimalLines 11 = Some []
  /\ nth_error minimalLines 12 = Some (js "Data de Nascimento: 01/02/1990")
  /\ forall field, absent field minimalDossier = true
                   /\ nth_error minimalLines (rowOf field) = Some [].
Proof.
  repeat split; try (vm_compute; reflexivity);
    destruct field; vm_compute; reflexivity.
Qed.

End LaudoRuns.

(** * Further properties *)

(** ** Strings *)

Section StringFacts.

Import Vocabulary.

Lemma startsWith_nil (s : jsstring) : startsWith s [] = true.
Proof. now destruct s. Qed.

Lemma startsWith_app (s p b : jsstring) :
  startsWith s p = true -> startsWith (s ++ b) p = true.
Proof.
  revert s. induction p as [|a p IH]; intros s;
    [intros _; apply startsWith_nil|].
  destruct s as [|c s]; simpl; [discriminate|].
  intros H. apply andb_true_iff in H. destruct H as [-> H].
  simpl. now apply IH.
Qed.

Lemma startsWith_self (p b : jsstring) : startsWith (p ++ b) p = true.
Proof.
  induction p as [|a p IH]; [apply startsWith_nil|].
  simpl. now rewrite N.eqb_refl.
Qed.

Lemma includes_nil (s : jsstring) : includes s [] = true.
Proof. now destruct s. Qed.

Lemma includes_cons (c : N) (s p : jsstring) :
  includes (c :: s) p = startsWith (c :: s) p || includes s p.
Proof. reflexivity. Qed.

Lemma includes_startsWith (s p : jsstring) :
  startsWith s p = true -> includes s p = true.
Proof.
  intros H. destruct s as [|c s].
  - destruct p; [reflexivity | discriminate H].
  - simpl in *. now rewrite H.
Qed.

Lemma includes_app_r (s p b : jsstring) :
  includes s p = true -> includes (s ++ b) p = true.
Proof.
  induction s as [|c s IH]; simpl.
  - destruct p; [intros _; apply includes_nil | discriminate].
  - intros H. apply orb_true_iff in H. apply orb_true_iff.
    destruct H as [H|H].
    + left. now apply (@startsWith_app (c :: s) p b).
    + right. now apply IH.
Qed.

Lemma includes_app_l (a s p : jsstring) :
  includes s p = true -> includes (a ++ s) p = true.
Proof.
  intros H. induction a as [|c a IH]; [exact H|].
  simpl. rewrite IH. apply orb_true_r.
Qed.

Lemma includes_window (a s b p : jsstring) :
  includes s p = true -> includes (a ++ s ++ b) p = true.
Proof.
  intros H. apply includes_app_l. now apply includes_app_r.
Qed.

Lemma includes_here (a p b : jsstring) : includes (a ++ p ++ b) p = true.
Proof.
  apply includes_app_l, includes_startsWith, startsWith_self.
Qed.

Lemma startsWith_split (s p : jsstring) :
  startsWith s p = true -> exists b, s = p ++ b.
Proof.
  revert s. induction p as [|a p IH]; intros s H; [now exists s|].
  destruct s as [|c s]; [discriminate H|].
  cbn [startsWith] in H. apply andb_true_iff in H. destruct H as [Hc H].
  apply N.eqb_eq in Hc. subst c. destruct (IH s H) as [b ->]. now exists b.
Qed.

(** [includes] is the substring relation. *)
Lemma includes_split (s p : jsstring) :
  includes s p = true <-> exists a b, s = a ++ p ++ b.
Proof.
  split.
  - induction s as [|c s IH].
    + cbn [includes]. rewrite orb_false_r. intros H.
      destruct (startsWith_split _ _ H) as [b ->]. now exists [], b.
    + rewrite includes_cons. intros H. apply orb_true_iff in H.
      destruct H as [H|H].
      * destruct (startsWith_split _ _ H) as [b ->]. now exists [], b.
      * destruct (IH H) as (a & b & ->). now exists (c :: a), b.
  - intros (a & b & ->). apply includes_here.
Qed.

Lemma includes_trans (s p t : jsstring) :
  includes s p = true -> includes t s = true -> includes t p = true.
Proof.
  intros Hp Hs. apply includes_split in Hs. destruct Hs as (a & b & ->).
  now apply includes_window.
Qed.

(** A pattern that starts with a literal matches only where the literal
    occurs. *)
Lemma testAnywhere_includes (matchAt : jsstring -> bool) (p s : jsstring) :
  (forall t, matchAt t = true -> startsWith t p = true) ->
  Analysis.testAnywhere matchAt s = true -> includes s p = true.
Proof.
  intros Hm. induction s as [|c s IH].
  - change (Analysis.testAnywhere matchAt [])
      with (matchAt [] || false).
    rewrite orb_false_r. intros H.
    apply includes_startsWith. now apply Hm.
  - rewrite includes_cons.
    change (Analysis.testAnywhere matchAt (c :: s))
      with (matchAt (c :: s) || Analysis.testAnywhere matchAt s).
    intros H. apply orb_true_iff in H. apply orb_true_iff.
    destruct H as [H|H]; [left; now apply Hm | right; now apply IH].
Qed.

Lemma member_In (x : jsstring) (l : list jsstring) :
  member x l = true <-> In x l.
Proof.
  unfold member. rewrite existsb_exists. split.
  - intros [y [Hin Heq]]. apply eqb_eq in Heq. now subst.
  - intros Hin. exists x. split; [exact Hin | now apply eqb_eq].
Qed.

Lemma member_false (x : jsstring) (l : list jsstring) :
  member x l = false <-> ~ In x l.
Proof.
  rewrite <- member_In. destruct (member x l); split; congruence.
Qed.

Lemma distinct_NoDup (l : list jsstring) : distinct l = true -> NoDup l.
Proof.
  induction l as [|x l IH]; simpl; intros H; constructor.
  - apply andb_true_iff in H. destruct H as [H _].
    apply negb_true_iff in H. now apply member_false.
  - apply IH. apply andb_true_iff in H. tauto.
Qed.

End StringFacts.

(** ** analyzePCDDocumentFromPDF: the analysis of the content *)

Section AnalysisExtras.

Import Analysis Vocabulary.

Lemma hasCIDDiagnosis_includes (content : jsstring) :
  hasCIDDiagnosis content
  = includes content (js "cid") || includes content (js "c.i.d").
Proof.
  unfold hasCIDDiagnosis.
  destruct (testAnywhere matchCidAt content) eqn:H;
    [|now rewrite orb_false_r].
  apply (@testAnywhere_includes _ (js "cid")) in H.
  - now rewrite H.
  - intros t Ht. unfold matchCidAt in Ht.
    apply andb_true_iff in Ht. tauto.
Qed.

Lemma hasValidCRM_includes (content : jsstring) :
  hasValidCRM content = includes content (js "crm").
Proof.
  unfold hasValidCRM.
  destruct (testAnywhere matchCrmAt content) eqn:H;
    [|now rewrite orb_false_r].
  apply (@testAnywhere_includes _ (js "crm")) in H.
  - now rewrite H.
  - intros t Ht. unfold matchCrmAt in Ht.
    apply andb_true_iff in Ht. tauto.
Qed.

(** X1. The two regular-expression tests never change the answer: a CID is
    found exactly when the content has "cid" or "c.i.d", and a CRM exactly
    when it has "crm", with or without a number after it. *)
Theorem regex_tests_add_nothing (content : jsstring) :
  hasCIDDiagnosis content
  = includes content (js "cid") || includes content (js "c.i.d")
  /\ hasValidCRM content = includes content (js "crm").
Proof.
  split; [apply hasCIDDiagnosis_includes | apply hasValidCRM_includes].
Qed.

(** The missing-document list, entry by entry. *)
Lemma missingDocuments_picks (extraction : ExtractionResult)
  (expected : option ExpectedDeficiencyType) (content : jsstring) :
  missingDocuments (analyzeContent extraction expected content)
  = pick (matchesAuditiva content && lacksAudioExam content) audioGap
    ++ pick (matchesVisual content && lacksVisualExam content) visualGap
    ++ pick (negb (hasLaudoMedico content)) laudoEntry
    ++ pick (negb (hasCIDDiagnosis content)) cidEntry
    ++ pick (negb (hasValidCRM content)) crmEntry.
Proof.
  simpl. destruct (applyRules_matched content) as (_ & _ & ->).
  unfold matchedRules, baseTypes, buildMissingDocuments.
  cbn [filter matchesRule].
  destruct (matchesFisica content), (matchesIntelectual content),
    (matchesAuditiva content), (matchesVisual content),
    (matchesPsicossocial content);
    cbn [flat_map gapsOf andb];
    destruct (lacksAudioExam content), (lacksVisualExam content);
    reflexivity.
Qed.

Lemma picks_distinct (b1 b2 b3 b4 b5 : bool) :
  let l := pick b1 audioGap ++ pick b2 visualGap ++ pick b3 laudoEntry
           ++ pick b4 cidEntry ++ pick b5 crmEntry in
  distinct l = true /\ (List.length l <= 5)%nat
  /\ forallb (fun x => member x missingEntries) l = true.
Proof.
  destruct b1, b2, b3, b4, b5; vm_compute; repeat split; lia.
Qed.

(** X2. The missing-document list of an analysis never names a document twice,
    has at most five entries, and every entry is one of the five fixed
    ones. *)
Theorem missingDocuments_distinct (extraction : ExtractionResult)
  (expected : option ExpectedDeficiencyType) (content : jsstring) :
  let missing := missingDocuments (analyzeContent extraction expected content) in
  NoDup missing /\ (List.length missing <= 5)%nat
  /\ forall x, In x missing -> In x missingEntries.
Proof.
  cbv zeta. rewrite missingDocuments_picks.
  destruct (picks_distinct
              (matchesAuditiva content && lacksAudioExam content)
              (matchesVisual content && lacksVisualExam content)
              (negb (hasLaudoMedico content))
              (negb (hasCIDDiagnosis content))
              (negb (hasValidCRM content))) as (Hd & Hl & Hm).
  split; [now apply distinct_NoDup|]. split; [exact Hl|].
  intros x Hx. rewrite forallb_forall in Hm. now apply member_In, Hm.
Qed.

Lemma picks_membership (b1 b2 b3 b4 b5 : bool) :
  let l := pick b1 audioGap ++ pick b2 visualGap ++ pick b3 laudoEntry
           ++ pick b4 cidEntry ++ pick b5 crmEntry in
  member audioGap l = b1 /\ member visualGap l = b2
  /\ member laudoEntry l = b3 /\ member cidEntry l = b4
  /\ member crmEntry l = b5.
Proof.
  destruct b1, b2, b3, b4, b5; vm_compute; repeat split.
Qed.

(** Each of the five entries is listed exactly under its own condition. *)
Lemma missingDocuments_membership (extraction : ExtractionResult)
  (expected : option ExpectedDeficiencyType) (content : jsstring) :
  let missing := missingDocuments (analyzeContent extraction expected content) in
  (In audioGap missing
   <-> matchesAuditiva content && lacksAudioExam content = true)
  /\ (In visualGap missing
      <-> matchesVisual content && lacksVisualExam content = true)
  /\ (In laudoEntry missing <-> hasLaudoMedico content = false)
  /\ (In cidEntry missing <-> hasCIDDiagnosis content = false)
  /\ (In crmEntry missing <-> hasValidCRM content = false).
Proof.
  cbv zeta. rewrite missingDocuments_picks. rewrite <- !member_In.
  destruct (picks_membership
              (matchesAuditiva content && lacksAudioExam content)
              (matchesVisual content && lacksVisualExam content)
              (negb (hasLaudoMedico content))
              (negb (hasCIDDiagnosis content))
              (negb (hasValidCRM content))) as (-> & -> & -> & -> & ->).
  rewrite !negb_true_iff. repeat split; auto.
Qed.

(** In an analysis [hasRequiredDocuments] holds exactly when neither the
    medical report nor the CID diagnosis is listed as missing, and the flag
    for Lei 13.146 is the same boolean. *)
Lemma analysis_required_documents (extraction : ExtractionResult)
  (expected : option ExpectedDeficiencyType) (content : jsstring) :
  let r := analyzeContent extraction expected content in
  (hasRequiredDocuments r = true
   <-> ~ In laudoEntry (missingDocuments r)
       /\ ~ In cidEntry (missingDocuments r))
  /\ meetsLei13146Requirements (legalCompliance r) = hasRequiredDocuments r.
Proof.
  cbv zeta.
  destruct (missingDocuments_membership extraction expected content)
    as (_ & _ & Hl & Hc & _).
  rewrite Hl, Hc. clear Hl Hc. unfold analyzeContent.
  cbn [hasRequiredDocuments meetsLei13146Requirements legalCompliance].
  destruct (hasLaudoMedico content), (hasCIDDiagnosis content);
    cbn [andb]; intuition congruence.
Qed.

(** The fields of an analysis in terms of the functions that build them. *)
Lemma analysis_fields (extraction : ExtractionResult)
  (expected : option ExpectedDeficiencyType) (content : jsstring) :
  let r := analyzeContent extraction expected content in
  completenessScore r = completenessScoreOf (evidenceFlags content)
  /\ documentQuality r = documentQualityOf (completenessScore r)
  /\ recommendations r
     = buildRecommendations (missingDocuments r) (hasValidCRM content)
         (completenessScore r) (detectedDeficiencyType r)
  /\ urgencyFlags r
     = buildUrgencyFlags (hasCIDDiagnosis content) (detectedDeficiencyType r)
         expected
  /\ detectedDeficiencyType r = detectedDeficiencyTypeOf content
  /\ issuerQualifications (medicalDocuments r)
     = flat_map qualificationsOf (matchedRules content).
Proof.
  cbv zeta. unfold analyzeContent.
  cbn [completenessScore documentQuality recommendations missingDocuments
       urgencyFlags detectedDeficiencyType issuerQualifications
       medicalDocuments].
  destruct (applyRules_matched content) as (_ & -> & _).
  repeat split.
Qed.

Lemma points_zero (k : Flag) (f : DocumentEvidenceFlags) :
  getFlag k f = false -> points k f = 0%Z.
Proof.
  intros H. unfold points. now rewrite H.
Qed.

(** In the analysis of a content without CRM evidence the signature does
    not count either: the score is at most 80, the quality is never
    EXCELENTE, the CRM document is listed as missing and the recommendation
    to verify the CRM is given. *)
Lemma analysis_without_crm (extraction : ExtractionResult)
  (expected : option ExpectedDeficiencyType) (content : jsstring) :
  hasValidCRM content = false ->
  let r := analyzeContent extraction expected content in
  (completenessScore r <= 80)%Z
  /\ documentQuality r <> EXCELENTE
  /\ lc_hasProperMedicalSignature (legalCompliance r) = false
  /\ In crmEntry (missingDocuments r)
  /\ In verifyCrmRecommendation (recommendations r).
Proof.
  intros Hcrm. cbv zeta.
  destruct (analysis_fields extraction expected content)
    as (Hs & Hq & Hr & _).
  assert (Hsig : hasProperMedicalSignature content = false)
    by (unfold hasProperMedicalSignature; now rewrite Hcrm).
  assert (Hscore : (completenessScore
                      (analyzeContent extraction expected content) <= 80)%Z).
  { rewrite Hs, completenessScoreOf_sum.
    rewrite (@points_zero ValidSignature) by exact Hsig.
    rewrite (@points_zero ValidProfessionalId) by exact Hcrm.
    pose proof (points_bounds MedicalReport (evidenceFlags content)).
    pose proof (points_bounds SpecialistReport (evidenceFlags content)).
    pose proof (points_bounds CIDDiagnosis (evidenceFlags content)).
    pose proof (points_bounds TypeDetected (evidenceFlags content)).
    pose proof (points_bounds CIFCriteria (evidenceFlags content)).
    pose proof (points_bounds ComplementaryExams (evidenceFlags content)).
    cbn [weight] in *. lia. }
  split; [exact Hscore|]. split; [|split; [|split]].
  - rewrite Hq. intros Hex.
    apply (documentQualityOf_tiers
             (completenessScore (analyzeContent extraction expected content)))
      in Hex. lia.
  - unfold analyzeContent.
    cbn [legalCompliance lc_hasProperMedicalSignature]. exact Hsig.
  - now apply (missingDocuments_membership extraction expected content).
  - rewrite Hr. unfold buildRecommendations. rewrite Hcrm.
    apply in_or_app. right. left. vm_compute. reflexivity.
Qed.

(** X5. No recommendation is given exactly when nothing is missing, the score
    is at least 70 and a deficiency type was identified. *)
Theorem recommendations_empty_iff (extraction : ExtractionResult)
  (expected : option ExpectedDeficiencyType) (content : jsstring) :
  let r := analyzeContent extraction expected content in
  recommendations r = []
  <-> missingDocuments r = [] /\ (70 <= completenessScore r)%Z
      /\ detectedDeficiencyType r <> NAO_IDENTIFICADA.
Proof.
  cbv zeta.
  destruct (analysis_fields extraction expected content)
    as (_ & _ & Hr & _).
  destruct (missingDocuments_membership extraction expected content)
    as (_ & _ & _ & _ & Hcrm).
  rewrite Hr. clear Hr.
  set (r := analyzeContent extraction expected content) in *.
  unfold buildRecommendations.
  destruct (missingDocuments r) as [|m ms] eqn:Hm.
  - assert (Hvalid : hasValidCRM content = true).
    { destruct (hasValidCRM content); [reflexivity|].
      destruct (proj2 Hcrm eq_refl). }
    rewrite Hvalid. cbn [List.length Nat.ltb Nat.leb negb app].
    destruct (Z.ltb_spec (completenessScore r) 70);
      destruct (detectedDeficiencyType r); cbn [isIdentified app];
      split; try discriminate; try (intros (_ & ? & ?); lia || congruence);
      intros _; repeat split; try lia; discriminate.
  - cbn [List.length Nat.ltb Nat.leb app]. split; [discriminate|].
    intros [H _]. discriminate H.
Qed.

Lemma buildUrgencyFlags_shape (cid : bool) (detected : DetectedDeficiencyType)
  (expected : option ExpectedDeficiencyType) :
  let flags := buildUrgencyFlags cid detected expected in
  (List.length flags <=? 2)%nat = true
  /\ member unidentifiedFlag flags = negb (isIdentified detected)
  /\ member cidFlag flags = negb cid.
Proof.
  destruct cid, detected, expected as [[]|]; vm_compute; repeat split.
Qed.

(** X6. An analysis raises at most two urgency flags: the flag for the missing
    CID exactly when no CID was found, and the flag for the unidentified
    type exactly when no type was identified, in which case no mismatch
    with the expected type is reported. *)
Theorem urgency_flags_at_most_two (extraction : ExtractionResult)
  (expected : option ExpectedDeficiencyType) (content : jsstring) :
  let r := analyzeContent extraction expected content in
  (List.length (urgencyFlags r) <= 2)%nat
  /\ (In cidFlag (urgencyFlags r) <-> hasCIDDiagnosis content = false)
  /\ (In unidentifiedFlag (urgencyFlags r)
      <-> detectedDeficiencyType r = NAO_IDENTIFICADA)
  /\ (detectedDeficiencyType r = NAO_IDENTIFICADA ->
      urgencyFlags r
      = pick (negb (hasCIDDiagnosis content)) cidFlag ++ [unidentifiedFlag]).
Proof.
  cbv zeta.
  destruct (analysis_fields extraction expected content)
    as (_ & _ & _ & Hu & _).
  rewrite Hu. clear Hu.
  assert (Hexcl : detectedDeficiencyType
                    (analyzeContent extraction expected content)
                  = NAO_IDENTIFICADA ->
                  buildUrgencyFlags (hasCIDDiagnosis content)
                    (detectedDeficiencyType
                       (analyzeContent extraction expected content)) expected
                  = pick (negb (hasCIDDiagnosis content)) cidFlag
                    ++ [unidentifiedFlag]).
  { intros ->. unfold buildUrgencyFlags. cbn [isIdentified].
    destruct expected as [e|]; [rewrite andb_false_r|];
      destruct (hasCIDDiagnosis content); reflexivity. }
  destruct (buildUrgencyFlags_shape (hasCIDDiagnosis content)
              (detectedDeficiencyType
                 (analyzeContent extraction expected content)) expected)
    as (Hlen & Hun & Hcid).
  rewrite <- !member_In, Hun, Hcid.
  split; [now apply Nat.leb_le|]. split; [|split; [|exact Hexcl]].
  - now rewrite negb_true_iff.
  - clear Hexcl.
    destruct (detectedDeficiencyType
                (analyzeContent extraction expected content));
      cbn [isIdentified negb]; split; congruence.
Qed.

Lemma lastMatch_none (content : jsstring) :
  lastMatch content = NAO_IDENTIFICADA ->
  matchesFisica content = false /\ matchesIntelectual content = false
  /\ matchesAuditiva content = false /\ matchesVisual content = false
  /\ matchesPsicossocial content = false.
Proof.
  unfold lastMatch, matchedRules, baseTypes. cbn [filter matchesRule].
  destruct (matchesFisica content), (matchesIntelectual content),
    (matchesAuditiva content), (matchesVisual content),
    (matchesPsicossocial content); cbn [last]; intros H;
    try discriminate H; repeat split.
Qed.

(** When an analysis identifies no deficiency type, no rule has matched: it
    names no issuer qualification and no type-specific exam, the score is
    at most 85, and the recommendation and the urgency flag for the
    unidentified type are both given. *)
Lemma analysis_unidentified_type (extraction : ExtractionResult)
  (expected : option ExpectedDeficiencyType) (content : jsstring) :
  detectedDeficiencyType (analyzeContent extraction expected content)
  = NAO_IDENTIFICADA ->
  let r := analyzeContent extraction expected content in
  matchedRules content = []
  /\ issuerQualifications (medicalDocuments r) = []
  /\ ~ In audioGap (missingDocuments r)
  /\ ~ In visualGap (missingDocuments r)
  /\ (completenessScore r <= 85)%Z
  /\ In identifyRecommendation (recommendations r)
  /\ In unidentifiedFlag (urgencyFlags r).
Proof.
  intros Hdet. cbv zeta.
  destruct (analysis_fields extraction expected content)
    as (Hs & _ & Hr & Hu & Hd & Hq).
  destruct (missingDocuments_membership extraction expected content)
    as (Ha & Hv & _).
  assert (Hnone : lastMatch content = NAO_IDENTIFICADA).
  { rewrite Hd in Hdet. unfold detectedDeficiencyTypeOf in Hdet.
    destruct (1 <? List.length (foundDeficiencies content))%nat;
      [discriminate Hdet|].
    now destruct (applyRules_matched content) as (<- & _). }
  destruct (lastMatch_none content Hnone) as (HF & HI & HA & HV & HP).
  assert (Hrules : matchedRules content = []).
  { unfold matchedRules, baseTypes. cbn [filter matchesRule].
    now rewrite HF, HI, HA, HV, HP. }
  split; [exact Hrules|]. split; [now rewrite Hq, Hrules|].
  split; [rewrite Ha, HA; discriminate|].
  split; [rewrite Hv, HV; discriminate|].
  split; [|split].
  - rewrite Hs, completenessScoreOf_sum.
    rewrite (@points_zero TypeDetected)
      by (cbn [getFlag evidenceFlags typeDetected]; rewrite <- Hd, Hdet;
          reflexivity).
    pose proof (points_bounds MedicalReport (evidenceFlags content)).
    pose proof (points_bounds SpecialistReport (evidenceFlags content)).
    pose proof (points_bounds CIDDiagnosis (evidenceFlags content)).
    pose proof (points_bounds ValidSignature (evidenceFlags content)).
    pose proof (points_bounds ValidProfessionalId (evidenceFlags content)).
    pose proof (points_bounds CIFCriteria (evidenceFlags content)).
    pose proof (points_bounds ComplementaryExams (evidenceFlags content)).
    cbn [weight] in *. lia.
  - rewrite Hr, Hdet. unfold buildRecommendations. cbn [isIdentified].
    apply in_or_app. right. apply in_or_app. right. apply in_or_app. right.
    left. vm_compute. reflexivity.
  - rewrite Hu, <- member_In.
    destruct (buildUrgencyFlags_shape (hasCIDDiagnosis content)
                (detectedDeficiencyType
                   (analyzeContent extraction expected content)) expected)
      as (_ & -> & _).
    now rewrite Hdet.
Qed.

Lemma matched_qualifications (t : DetectedDeficiencyType) (q : jsstring)
  (extraction : ExtractionResult) (expected : option ExpectedDeficiencyType)
  (content : jsstring) :
  In t baseTypes -> matchesRule t content = true ->
  In q (qualificationsOf t) ->
  In q (issuerQualifications
          (medicalDocuments (analyzeContent extraction expected content))).
Proof.
  intros Ht Hm Hq.
  destruct (analysis_fields extraction expected content)
    as (_ & _ & _ & _ & _ & ->).
  apply in_flat_map. exists t. split; [|exact Hq].
  unfold matchedRules. apply filter_In. split; assumption.
Qed.

(** X8. A content that names the audiometry matches the auditory rule, even
    with no deficiency named: the auditory qualifications are returned and
    the auditory exam is never listed as missing. *)
Theorem audiometry_named_no_gap (extraction : ExtractionResult)
  (expected : option ExpectedDeficiencyType) (content : jsstring) :
  includes content (js "audiometria") = true ->
  let r := analyzeContent extraction expected content in
  In AUDITIVA (matchedRules content)
  /\ ~ In audioGap (missingDocuments r)
  /\ In (js "Otorrinolaringologia") (issuerQualifications (medicalDocuments r))
  /\ In (js "Fonoaudiologia") (issuerQualifications (medicalDocuments r)).
Proof.
  intros H. cbv zeta.
  assert (Hm : matchesAuditiva content = true)
    by (unfold matchesAuditiva; rewrite H; now rewrite !orb_true_r).
  assert (Hl : lacksAudioExam content = false)
    by (unfold lacksAudioExam; now rewrite H).
  split; [|split; [|split]].
  - unfold matchedRules. apply filter_In. split; [|exact Hm].
    unfold baseTypes. cbn [In]. tauto.
  - rewrite (proj1 (missingDocuments_membership extraction expected content)).
    rewrite Hm, Hl. discriminate.
  - apply (@matched_qualifications AUDITIVA); [cbn; tauto | exact Hm |].
    left. reflexivity.
  - apply (@matched_qualifications AUDITIVA); [cbn; tauto | exact Hm |].
    right. left. reflexivity.
Qed.

Lemma audiometry_named_no_gap_witness :
  let content := js "audiometria tonal sem alteracoes" in
  includes content (js "audiometria") = true
  /\ let r := analyzeContent
                (extractionOf "audiometria tonal sem alteracoes") None content in
     In AUDITIVA (matchedRules content)
     /\ ~ In audioGap (missingDocuments r)
     /\ In (js "Otorrinolaringologia")
          (issuerQualifications (medicalDocuments r))
     /\ In (js "Fonoaudiologia") (issuerQualifications (medicalDocuments r)).
Proof.
  cbv zeta. split.
  - vm_compute. reflexivity.
  - apply (@audiometry_named_no_gap
             (extractionOf "audiometria tonal sem alteracoes") None
             (js "audiometria tonal sem alteracoes")).
    vm_compute. reflexivity.
Defined.

(** X9. A content that names the visual acuity matches the visual rule: the
    visual qualification is returned and the visual exam is never listed
    as missing. *)
Theorem visual_acuity_named_no_gap (extraction : ExtractionResult)
  (expected : option ExpectedDeficiencyType) (content : jsstring) :
  includes content (js "acuidade visual") = true ->
  let r := analyzeContent extraction expected content in
  In VISUAL (matchedRules content)
  /\ ~ In visualGap (missingDocuments r)
  /\ In (js "Oftalmologia") (issuerQualifications (medicalDocuments r)).
Proof.
  intros H. cbv zeta.
  assert (Hm : matchesVisual content = true)
    by (unfold matchesVisual; rewrite H; now rewrite !orb_true_r).
  assert (Hl : lacksVisualExam content = false)
    by (unfold lacksVisualExam; now rewrite H).
  split; [|split].
  - unfold matchedRules. apply filter_In. split; [|exact Hm].
    unfold baseTypes. cbn [In]. tauto.
  - destruct (missingDocuments_membership extraction expected content)
      as (_ & Hv & _).
    rewrite Hv, Hm, Hl. discriminate.
  - apply (@matched_qualifications VISUAL); [cbn; tauto | exact Hm |].
    left. reflexivity.
Qed.

Lemma visual_acuity_named_no_gap_witness :
  let content := js "acuidade visual 20/200 em ambos os olhos" in
  includes content (js "acuidade visual") = true
  /\ let r := analyzeContent
                (extractionOf "acuidade visual 20/200 em ambos os olhos")
                None content in
     In VISUAL (matchedRules content)
     /\ ~ In visualGap (missingDocuments r)
     /\ In (js "Oftalmologia") (issuerQualifications (medicalDocuments r)).
Proof.
  cbv zeta. split.
  - vm_compute. reflexivity.
  - apply (@visual_acuity_named_no_gap
             (extractionOf "acuidade visual 20/200 em ambos os olhos") None
             (js "acuidade visual 20/200 em ambos os olhos")).
    vm_compute. reflexivity.
Defined.

(** *** Text added to a document *)

Lemma monotone_includes (k : jsstring) : monotone (fun c => includes c k).
Proof.
  intros a c b H. now apply includes_window.
Qed.

Lemma monotone_orb (f g : jsstring -> bool) :
  monotone f -> monotone g -> monotone (fun c => f c || g c).
Proof.
  intros Hf Hg a c b H. apply orb_true_iff in H. apply orb_true_iff.
  destruct H as [H|H]; [left; now apply Hf | right; now apply Hg].
Qed.

Lemma monotone_andb (f g : jsstring -> bool) :
  monotone f -> monotone g -> monotone (fun c => f c && g c).
Proof.
  intros Hf Hg a c b H. apply andb_true_iff in H. apply andb_true_iff.
  destruct H as [H1 H2]. split; [now apply Hf | now apply Hg].
Qed.

Lemma monotone_ext (f g : jsstring -> bool) :
  (forall c, f c = g c) -> monotone g -> monotone f.
Proof.
  intros Heq Hg a c b H. rewrite Heq in *. now apply Hg.
Qed.

Ltac monotone_tests :=
  repeat first [apply monotone_orb | apply monotone_andb
               | apply monotone_includes].

Lemma monotone_hasCIDDiagnosis : monotone hasCIDDiagnosis.
Proof.
  apply (@monotone_ext _ _ hasCIDDiagnosis_includes). monotone_tests.
Qed.

Lemma monotone_hasValidCRM : monotone hasValidCRM.
Proof.
  apply (@monotone_ext _ _ hasValidCRM_includes). monotone_tests.
Qed.

Lemma monotone_found :
  monotone (fun c => (1 <? List.length (foundDeficiencies c))%nat).
Proof.
  intros a c b H. apply Nat.ltb_lt in H. apply Nat.ltb_lt.
  eapply Nat.lt_le_trans; [exact H|].
  unfold foundDeficiencies.
  induction deficiencyKeywords as [|kw kws IH]; [apply Nat.le_refl|].
  cbn [filter].
  destruct (includes c kw) eqn:Hkw.
  - rewrite (@includes_window a c b kw Hkw). cbn [List.length]. lia.
  - destruct (includes (a ++ c ++ b) kw); cbn [List.length]; lia.
Qed.

(** A type is identified exactly when two keywords are found or some rule
    matches. *)
Lemma identified_formula (content : jsstring) :
  isIdentified (detectedDeficiencyTypeOf content)
  = (1 <? List.length (foundDeficiencies content))%nat
    || (matchesFisica content || matchesIntelectual content
        || matchesAuditiva content || matchesVisual content
        || matchesPsicossocial content).
Proof.
  unfold detectedDeficiencyTypeOf.
  destruct (1 <? List.length (foundDeficiencies content))%nat;
    [reflexivity|].
  destruct (applyRules_matched content) as (-> & _).
  unfold lastMatch, matchedRules, baseTypes. cbn [filter matchesRule].
  destruct (matchesFisica content), (matchesIntelectual content),
    (matchesAuditiva content), (matchesVisual content),
    (matchesPsicossocial content); reflexivity.
Qed.

Lemma monotone_identified :
  monotone (fun c => isIdentified (detectedDeficiencyTypeOf c)).
Proof.
  apply (@monotone_ext _ _ identified_formula).
  apply monotone_orb; [apply monotone_found|].
  unfold matchesFisica, matchesIntelectual, matchesAuditiva, matchesVisual,
    matchesPsicossocial.
  monotone_tests.
Qed.

Lemma monotone_flags (k : Flag) :
  monotone (fun c => getFlag k (evidenceFlags c)).
Proof.
  destruct k; cbn [getFlag evidenceFlags hasMedicalReport
                     hasSpecialistReportFlag hasCIDDiagnosisFlag
                     hasValidSignature hasValidProfessionalId typeDetected
                     hasCIFCriteria hasComplementaryExamsFlag].
  - unfold hasLaudoMedico. monotone_tests.
  - unfold hasSpecialistReport. monotone_tests.
  - apply monotone_hasCIDDiagnosis.
  - unfold hasProperMedicalSignature.
    apply monotone_andb; [apply monotone_hasValidCRM | monotone_tests].
  - apply monotone_hasValidCRM.
  - apply monotone_identified.
  - unfold meetsCIFCriteria. monotone_tests.
  - unfold hasComplementaryExams. monotone_tests.
Qed.

Lemma completenessScoreOf_pointwise (f g : DocumentEvidenceFlags) :
  (forall k, getFlag k f = true -> getFlag k g = true) ->
  (completenessScoreOf f <= completenessScoreOf g)%Z.
Proof.
  intros H.
  assert (Hk : forall k, (points k f <= points k g)%Z).
  { intros k. unfold points. specialize (H k).
    destruct (getFlag k f); [rewrite H by reflexivity; lia|].
    destruct (getFlag k g), k; cbn [weight]; lia. }
  rewrite !completenessScoreOf_sum.
  pose proof (Hk MedicalReport). pose proof (Hk SpecialistReport).
  pose proof (Hk CIDDiagnosis). pose proof (Hk ValidSignature).
  pose proof (Hk ValidProfessionalId). pose proof (Hk TypeDetected).
  pose proof (Hk CIFCriteria). pose proof (Hk ComplementaryExams).
  lia.
Qed.

(** X10. Text added before or after a content never lowers the completeness
    score, and never turns an identified type into an unidentified one. *)
Theorem score_grows_with_text (extraction extraction' : ExtractionResult)
  (expected expected' : option ExpectedDeficiencyType)
  (before content after : jsstring) :
  let r := analyzeContent extraction expected content in
  let r' := analyzeContent extraction' expected'
              (before ++ content ++ after) in
  (completenessScore r <= completenessScore r')%Z
  /\ (detectedDeficiencyType r' = NAO_IDENTIFICADA ->
      detectedDeficiencyType r = NAO_IDENTIFICADA).
Proof.
  cbv zeta.
  destruct (analysis_fields extraction expected content)
    as (-> & _ & _ & _ & -> & _).
  destruct (analysis_fields extraction' expected' (before ++ content ++ after))
    as (-> & _ & _ & _ & -> & _).
  split.
  - apply completenessScoreOf_pointwise. intros k.
    apply (@monotone_flags k before content after).
  - intros H.
    pose proof (@monotone_identified before content after) as Hm.
    cbv beta in Hm. rewrite H in Hm.
    destruct (detectedDeficiencyTypeOf content); try reflexivity;
      discriminate (Hm eq_refl).
Qed.

End AnalysisExtras.

(** ** analyzePCDDocumentFromPDF: the whole of [execute] *)

Section PipelineExtras.

Import Analysis Vocabulary Pipeline.

Variable toLowerCase : jsstring -> jsstring.
Variable fetch : jsstring -> attempt Response.
Variable extractTextFromPDF : list N -> attempt ExtractionResult.

Lemma errorFlag_not_raised (cid : bool) (detected : DetectedDeficiencyType)
  (expected : option ExpectedDeficiencyType) :
  member errorFlag (buildUrgencyFlags cid detected expected) = false.
Proof.
  destruct cid, detected, expected as [[]|]; vm_compute; reflexivity.
Qed.

(** The flag of the catch block is none of the flags of an analysis. *)
Lemma analysis_has_no_error_flag (extraction : ExtractionResult)
  (expected : option ExpectedDeficiencyType) (content : jsstring) :
  ~ In errorFlag (urgencyFlags (analyzeContent extraction expected content)).
Proof.
  destruct (analysis_fields extraction expected content)
    as (_ & _ & _ & -> & _).
  apply member_false, errorFlag_not_raised.
Qed.

(** The only missing-document entry of the catch block starts with the
    words of the error, so it is none of the entries of an analysis, which
    start otherwise. *)
Lemma errorResult_missing (t : thrown) (entry : jsstring) :
  firstn 17 entry <> js "Erro na analise: " ->
  ~ In entry (missingDocuments (errorResult t)).
Proof.
  intros Hhd [H|[]]. apply Hhd. rewrite <- H.
  cbn [missingDocuments errorResult]. vm_compute. reflexivity.
Qed.

(** X3. In every result of the tool, a failed run included,
    [hasRequiredDocuments] holds exactly when the run did not fail (the
    flag of the catch block is not raised) and neither the medical report
    nor the CID diagnosis is listed as missing; the flag for Lei 13.146 is
    always the same boolean. *)
Theorem required_documents_of_result (pdfUrl : jsstring)
  (expected : option ExpectedDeficiencyType) :
  let r := execute toLowerCase fetch extractTextFromPDF pdfUrl expected in
  (hasRequiredDocuments r = true
   <-> ~ In errorFlag (urgencyFlags r)
       /\ ~ In laudoEntry (missingDocuments r)
       /\ ~ In cidEntry (missingDocuments r))
  /\ meetsLei13146Requirements (legalCompliance r) = hasRequiredDocuments r.
Proof.
  cbv zeta.
  destruct (execute_cases toLowerCase fetch extractTextFromPDF pdfUrl expected)
    as [[t ->]|(extraction & _ & ->)].
  - cbn [hasRequiredDocuments meetsLei13146Requirements legalCompliance
         urgencyFlags errorResult].
    split; [split|reflexivity].
    + discriminate.
    + intros [H _]. exfalso. apply H. left. reflexivity.
  - pose proof (analysis_has_no_error_flag extraction expected
                  (toLowerCase (extractedText extraction))) as Hno.
    destruct (analysis_required_documents extraction expected
                (toLowerCase (extractedText extraction))) as [Hiff Hlei].
    split; [|exact Hlei]. clear Hlei.
    destruct Hiff as [Hto Hfrom]. split.
    + intros H. destruct (Hto H) as [Hl Hc].
      split; [exact Hno|]. split; [exact Hl | exact Hc].
    + intros (_ & Hl & Hc). apply Hfrom. split; [exact Hl | exact Hc].
Qed.

(** X4. In every result of the tool whose [hasValidCRM] is false, a failed
    run included, the signature does not count either: the score is at most
    80, the quality is never EXCELENTE and [hasProperMedicalSignature] is
    false; when the run did not fail, the CRM document is listed as missing
    and the recommendation to verify the CRM is given. *)
Theorem no_crm_caps_score_of_result (pdfUrl : jsstring)
  (expected : option ExpectedDeficiencyType) :
  lc_hasValidCRM
    (legalCompliance
       (execute toLowerCase fetch extractTextFromPDF pdfUrl expected))
  = false ->
  let r := execute toLowerCase fetch extractTextFromPDF pdfUrl expected in
  (completenessScore r <= 80)%Z
  /\ documentQuality r <> EXCELENTE
  /\ lc_hasProperMedicalSignature (legalCompliance r) = false
  /\ (~ In errorFlag (urgencyFlags r) ->
      In crmEntry (missingDocuments r)
      /\ In verifyCrmRecommendation (recommendations r)).
Proof.
  cbv zeta.
  destruct (execute_cases toLowerCase fetch extractTextFromPDF pdfUrl expected)
    as [[t ->]|(extraction & _ & ->)]; intros Hcrm.
  - clear Hcrm.
    cbn [completenessScore documentQuality lc_hasProperMedicalSignature
         legalCompliance urgencyFlags errorResult].
    split; [lia|]. split; [discriminate|]. split; [reflexivity|].
    intros H. exfalso. apply H. left. reflexivity.
  - assert (Hc : hasValidCRM (toLowerCase (extractedText extraction)) = false)
      by exact Hcrm.
    clear Hcrm.
    destruct (analysis_without_crm extraction expected _ Hc)
      as (Hs & Hq & Hsig & Hm & Hr).
    split; [exact Hs|]. split; [exact Hq|]. split; [exact Hsig|].
    intros _. split; [exact Hm | exact Hr].
Qed.

(** X7. In every result of the tool whose detected type is NAO_IDENTIFICADA,
    a failed run included, no issuer qualification and no type-specific
    exam is named and the score is at most 85; when the run did not fail,
    no type rule has matched the lower-cased text, and the recommendation
    and the urgency flag for the unidentified type are both given. *)
Theorem unidentified_type_of_result (pdfUrl : jsstring)
  (expected : option ExpectedDeficiencyType) :
  detectedDeficiencyType
    (execute toLowerCase fetch extractTextFromPDF pdfUrl expected)
  = NAO_IDENTIFICADA ->
  let r := execute toLowerCase fetch extractTextFromPDF pdfUrl expected in
  issuerQualifications (medicalDocuments r) = []
  /\ ~ In audioGap (missingDocuments r)
  /\ ~ In visualGap (missingDocuments r)
  /\ (completenessScore r <= 85)%Z
  /\ (~ In errorFlag (urgencyFlags r) ->
      matchedRules (toLowerCase (rawText (extractedContent r))) = []
      /\ In identifyRecommendation (recommendations r)
      /\ In unidentifiedFlag (urgencyFlags r)).
Proof.
  cbv zeta.
  destruct (execute_cases toLowerCase fetch extractTextFromPDF pdfUrl expected)
    as [[t ->]|(extraction & _ & ->)]; intros Hdet.
  - clear Hdet. split; [reflexivity|].
    split; [apply errorResult_missing; intros H; vm_compute in H; discriminate H|].
    split; [apply errorResult_missing; intros H; vm_compute in H; discriminate H|].
    cbn [completenessScore urgencyFlags errorResult].
    split; [lia|]. intros H. exfalso. apply H. left. reflexivity.
  - destruct (analysis_unidentified_type extraction expected _ Hdet)
      as (Hrules & Hq & Ha & Hv & Hs & Hr & Hu).
    split; [exact Hq|]. split; [exact Ha|]. split; [exact Hv|].
    split; [exact Hs|]. intros _.
    split; [exact Hrules|]. split; [exact Hr | exact Hu].
Qed.

(** X13. The caller can tell a failed run from an analysis by the urgency flag
    of the catch block alone: it is raised exactly when the try block
    threw, whatever was downloaded and extracted. On a failure the score
    is 0 and the quality INSUFICIENTE. *)
Theorem error_flag_marks_failure (pdfUrl : jsstring)
  (expected : option ExpectedDeficiencyType) :
  let r := execute toLowerCase fetch extractTextFromPDF pdfUrl expected in
  (In errorFlag (urgencyFlags r)
   <-> exists t, tryBlock toLowerCase fetch extractTextFromPDF pdfUrl expected
                 = Threw t)
  /\ (In errorFlag (urgencyFlags r) ->
      completenessScore r = 0%Z /\ documentQuality r = INSUFICIENTE
      /\ hasRequiredDocuments r = false
      /\ detectedDeficiencyType r = NAO_IDENTIFICADA).
Proof.
  cbv zeta. unfold execute.
  destruct (tryBlock toLowerCase fetch extractTextFromPDF pdfUrl expected)
    as [r|t] eqn:Htry.
  - assert (Hno : ~ In errorFlag (urgencyFlags r)).
    { unfold tryBlock, andThen in Htry.
      destruct (fetch pdfUrl) as [response|]; [|discriminate Htry].
      destruct (negb (ok response)); [discriminate Htry|].
      destruct (arrayBuffer response) as [buffer|]; [|discriminate Htry].
      destruct (extractTextFromPDF buffer) as [extraction|];
        [|discriminate Htry].
      destruct (isBlank (extractedText extraction)); [discriminate Htry|].
      injection Htry as <-.
      destruct (analysis_fields extraction expected
                  (toLowerCase (extractedText extraction)))
        as (_ & _ & _ & -> & _).
      apply member_false, errorFlag_not_raised. }
    split; [|intros H; destruct (Hno H)].
    split; [intros H; destruct (Hno H) | intros [t Ht]; discriminate Ht].
  - split; [|intros _; repeat split].
    split; [intros _; now exists t | intros _; left; reflexivity].
Qed.

(** X14. A document whose extracted text is empty or made of white space only
    is a failure: the result is that of the catch block, with the message
    that no text could be extracted. *)
Theorem blank_text_is_failure (pdfUrl : jsstring)
  (expected : option ExpectedDeficiencyType) (response : Response)
  (pdfBuffer : list N) (extraction : ExtractionResult) :
  fetch pdfUrl = Returned response ->
  ok response = true ->
  arrayBuffer response = Returned pdfBuffer ->
  extractTextFromPDF pdfBuffer = Returned extraction ->
  forallb isSpace (extractedText extraction) = true ->
  let r := execute toLowerCase fetch extractTextFromPDF pdfUrl expected in
  r = errorResult (ErrorObject noTextMessage)
  /\ missingDocuments r
     = [js "Erro na analise: Nenhum texto pode ser extraido do PDF"]
  /\ completenessScore r = 0%Z
  /\ urgencyFlags r = [errorFlag].
Proof.
  intros Hf Hok Hb He Hblank. cbv zeta.
  apply isBlank_iff in Hblank.
  assert (Hrun : execute toLowerCase fetch extractTextFromPDF pdfUrl expected
                 = errorResult (ErrorObject noTextMessage)).
  { unfold execute, tryBlock. rewrite Hf. cbn [andThen]. rewrite Hok.
    cbn [negb]. rewrite Hb. cbn [andThen]. rewrite He. cbn [andThen].
    now rewrite Hblank. }
  rewrite Hrun. split; [reflexivity|].
  split; [|split]; vm_compute; reflexivity.
Qed.

(** X15. A response that is not ok is a failure whatever the extraction would
    do: the result is that of the catch block, and its only
    missing-document entry carries the status and the status text. *)
Theorem failed_download_is_failure (pdfUrl : jsstring)
  (expected : option ExpectedDeficiencyType) (response : Response) :
  fetch pdfUrl = Returned response ->
  ok response = false ->
  let r := execute toLowerCase fetch extractTextFromPDF pdfUrl expected in
  r = errorResult (ErrorObject (downloadFailure response))
  /\ missingDocuments r
     = [js "Erro na analise: Falha ao baixar PDF: "
        ++ ofN (status response) ++ js " " ++ statusText response]
  /\ urgencyFlags r = [errorFlag].
Proof.
  intros Hf Hok. cbv zeta.
  assert (Hrun : execute toLowerCase fetch extractTextFromPDF pdfUrl expected
                 = errorResult (ErrorObject (downloadFailure response))).
  { unfold execute, tryBlock. rewrite Hf. cbn [andThen]. now rewrite Hok. }
  rewrite Hrun. split; [reflexivity|]. split; [|reflexivity].
  cbn [missingDocuments errorResult errorMessage]. unfold downloadFailure.
  assert (Hab : js "Erro na analise: Falha ao baixar PDF: "
                = js "Erro na analise: " ++ js "Falha ao baixar PDF: ")
    by (vm_compute; reflexivity).
  rewrite Hab, <- app_assoc. reflexivity.
Qed.

End PipelineExtras.

Section PipelineRuns.

Import Analysis Vocabulary Pipeline.

Lemma blank_text_is_failure_witness :
  let fetch := respondWith 200 "OK" in
  let extract := extracting "  
	 " in
  fetch (js "https://example.org/laudo.pdf")
  = Returned {| ok := true; status := 200; statusText := js "OK";
                arrayBuffer := Returned [] |}
  /\ forallb isSpace (extractedText (extractionOf "  
	 ")) = true
  /\ let r := execute latin1ToLowerCase fetch extract
                (js "https://example.org/laudo.pdf") None in
     r = errorResult (ErrorObject noTextMessage)
     /\ missingDocuments r
        = [js "Erro na analise: Nenhum texto pode ser extraido do PDF"]
     /\ completenessScore r = 0%Z
     /\ urgencyFlags r = [errorFlag].
Proof.
  cbv zeta. split; [reflexivity|]. split; [vm_compute; reflexivity|].
  apply (@blank_text_is_failure latin1ToLowerCase (respondWith 200 "OK")
           (extracting "  
	 ")
           (js "https://example.org/laudo.pdf") None
           {| ok := true; status := 200; statusText := js "OK";
              arrayBuffer := Returned [] |}
           [] (extractionOf "  
	 "));
    [reflexivity | reflexivity | reflexivity | reflexivity
    | vm_compute; reflexivity].
Defined.

Lemma failed_download_is_failure_witness :
  let fetch := respondWith 404 "Not Found" in
  ok {| ok := false; status := 404; statusText := js "Not Found";
        arrayBuffer := Returned [] |} = false
  /\ let r := execute latin1ToLowerCase fetch (extracting "laudo medico")
                (js "https://example.org/laudo.pdf") None in
     r = errorResult
           (ErrorObject
              (downloadFailure
                 {| ok := false; status := 404; statusText := js "Not Found";
                    arrayBuffer := Returned [] |}))
     /\ missingDocuments r
        = [js "Erro na analise: Falha ao baixar PDF: "
           ++ ofN 404 ++ js " " ++ js "Not Found"]
     /\ urgencyFlags r = [errorFlag].
Proof.
  cbv zeta. split; [reflexivity|].
  apply (@failed_download_is_failure latin1ToLowerCase
           (respondWith 404 "Not Found") (extracting "laudo medico")
           (js "https://example.org/laudo.pdf") None
           {| ok := false; status := 404; statusText := js "Not Found";
              arrayBuffer := Returned [] |});
    reflexivity.
Defined.

Lemma no_crm_caps_score_of_result_witness :
  let run := execute latin1ToLowerCase (respondWith 200 "OK")
               (extracting "Laudo medico com CID F70, Dr. Silva")
               (js "https://example.org/laudo.pdf") None in
  lc_hasValidCRM (legalCompliance run) = false
  /\ (completenessScore run <= 80)%Z
  /\ documentQuality run <> EXCELENTE
  /\ lc_hasProperMedicalSignature (legalCompliance run) = false
  /\ (~ In errorFlag (urgencyFlags run) ->
      In crmEntry (missingDocuments run)
      /\ In verifyCrmRecommendation (recommendations run)).
Proof.
  cbv zeta. split.
  - vm_compute. reflexivity.
  - apply (@no_crm_caps_score_of_result latin1ToLowerCase
             (respondWith 200 "OK")
             (extracting "Laudo medico com CID F70, Dr. Silva")
             (js "https://example.org/laudo.pdf") None).
    vm_compute. reflexivity.
Defined.

Lemma unidentified_type_of_result_witness :
  let run := execute latin1ToLowerCase (respondWith 200 "OK")
               (extracting "Atestado: paciente em repouso por 3 dias")
               (js "https://example.org/laudo.pdf") (Some EXP_FISICA) in
  detectedDeficiencyType run = NAO_IDENTIFICADA
  /\ issuerQualifications (medicalDocuments run) = []
  /\ ~ In audioGap (missingDocuments run)
  /\ ~ In visualGap (missingDocuments run)
  /\ (completenessScore run <= 85)%Z
  /\ (~ In errorFlag (urgencyFlags run) ->
      matchedRules (latin1ToLowerCase (rawText (extractedContent run))) = []
      /\ In identifyRecommendation (recommendations run)
      /\ In unidentifiedFlag (urgencyFlags run)).
Proof.
  cbv zeta. split.
  - vm_compute. reflexivity.
  - apply (@unidentified_type_of_result latin1ToLowerCase
             (respondWith 200 "OK")
             (extracting "Atestado: paciente em repouso por 3 dias")
             (js "https://example.org/laudo.pdf") (Some EXP_FISICA)).
    vm_compute. reflexivity.
Defined.

End PipelineRuns.

(** ** evaluatePCDEligibility: the loop and the outcome *)

Section EvaluationExtras.

Import Evaluation Vocabulary.

Variable toLowerCase : jsstring -> jsstring.

(** What one pass of the loop body does to the three variables. *)
Lemma analyzeDoc_effect (s s' : loopState) (doc : document) :
  analyzeDoc toLowerCase s doc = Ok s' ->
  exists text, content doc = Some text
    /\ let c := toLowerCase text in
       let b1 := includes c (js "deficiência física")
                 || includes c (js "mobilidade") in
       let b2 := includes c (js "deficiência intelectual")
                 || includes c (js "cognitiv") in
       let b3 := includes c (js "deficiência auditiva")
                 || includes c (js "surdez") in
       let b4 := includes c (js "deficiência visual")
                 || includes c (js "cegueira") in
       st_functionalLimitations s'
       = st_functionalLimitations s
         ++ pick b1 (js "Limitações de mobilidade identificadas")
         ++ pick b2 (js "Limitações cognitivas identificadas")
         ++ pick b3 (js "Limitações auditivas identificadas")
         ++ pick b4 (js "Limitações visuais identificadas")
       /\ st_clinicalEvidence s'
          = st_clinicalEvidence s
            ++ pick (includes c (js "cid"))
                 (js "CID identificado na documentação")
            ++ pick (includes c (js "limitação funcional"))
                 (js "Limitações funcionais documentadas")
       /\ st_deficiencyType s'
          = if b4 then Some VISUAL
            else if b3 then Some AUDITIVA
            else if b2 then Some INTELECTUAL
            else if b1 then Some FISICA
            else st_deficiencyType s.
Proof.
  unfold analyzeDoc, lowerContent.
  destruct (content doc) as [text|]; [|discriminate].
  cbn [bind]. intros H. injection H as <-. exists text.
  split; [reflexivity|]. cbv zeta.
  destruct (includes (toLowerCase text) (js "deficiência física")
            || includes (toLowerCase text) (js "mobilidade")),
    (includes (toLowerCase text) (js "deficiência intelectual")
     || includes (toLowerCase text) (js "cognitiv")),
    (includes (toLowerCase text) (js "deficiência auditiva")
     || includes (toLowerCase text) (js "surdez")),
    (includes (toLowerCase text) (js "deficiência visual")
     || includes (toLowerCase text) (js "cegueira")),
    (includes (toLowerCase text) (js "cid")),
    (includes (toLowerCase text) (js "limitação funcional"));
    cbn [when setType pushEvidence st_functionalLimitations
         st_clinicalEvidence st_deficiencyType pick];
    repeat split; rewrite ?app_nil_r; reassociate.
Qed.

Lemma forEachDoc_app (docs1 docs2 : list document) (s : loopState) :
  forEachDoc toLowerCase (docs1 ++ docs2) s
  = bind (forEachDoc toLowerCase docs1 s) (forEachDoc toLowerCase docs2).
Proof.
  revert s. induction docs1 as [|doc rest IH]; intros s; [reflexivity|].
  cbn [app forEachDoc].
  destruct (analyzeDoc toLowerCase s doc) as [s1|e]; cbn [bind];
    [apply IH | reflexivity].
Qed.

Lemma evaluateBody_Throw_iff (docs : list document) :
  (exists e, evaluateBody toLowerCase docs = Throw e)
  <-> exists doc, In doc docs /\ content doc = None.
Proof.
  rewrite <- (forEachDoc_Throw_iff toLowerCase docs initialLoopState).
  split; intros [e H]; exists e.
  - now apply evaluateBody_Throw.
  - unfold evaluateBody. rewrite H. reflexivity.
Qed.

(** The rows of the table as they can occur on a run of the try block that
    returns: the first, the second or the fourth. *)
Lemma evaluateBody_rows (docs : list document) (r : PCDEvaluationResult) :
  evaluateBody toLowerCase docs = Ok r ->
  exists s, forEachDoc toLowerCase docs initialLoopState = Ok s
    /\ deficiencyType r = st_deficiencyType s
    /\ functionalLimitations r = st_functionalLimitations s
    /\ clinicalEvidence r = st_clinicalEvidence s
    /\ missingDocumentation r = missingDocs docs
    /\ requiresPhysicalEvaluation r = false
    /\ ((nonEmpty (missingDocs docs) = true
         /\ outcome r = TALVEZ /\ confidence r = 0.3%Q
         /\ severityLevel r = None)
        \/ (nonEmpty (missingDocs docs) = false
            /\ isSome (st_deficiencyType s) = true
            /\ nonEmpty (st_functionalLimitations s) = true
            /\ outcome r = SIM /\ confidence r = 0.8%Q
            /\ severityLevel r = Some MODERADA)
        \/ (nonEmpty (missingDocs docs) = false
            /\ isSome (st_deficiencyType s) = false
            /\ outcome r = NAO /\ confidence r = 0.7%Q
            /\ severityLevel r = None)).
Proof.
  intros Hbody. apply evaluateBody_Ok in Hbody.
  destruct Hbody as [s [Hloop H]]. exists s. split; [exact Hloop|].
  unfold decide in H.
  destruct (nonEmpty (missingDocs docs)) eqn:Hm.
  - destruct H as (Ho & Hc & Hs & Hp & Hd & Hf & He & Hmiss).
    repeat (split; [assumption|]). left. repeat split; assumption.
  - destruct (isSome (st_deficiencyType s)
              && nonEmpty (st_functionalLimitations s)) eqn:H2.
    + destruct H as (Ho & Hc & Hs & Hp & Hd & Hf & He & Hmiss).
      repeat (split; [assumption|]). right. left.
      apply andb_true_iff in H2. destruct H2 as [Ha Hb].
      repeat split; assumption.
    + rewrite (third_row_condition_false toLowerCase docs Hloop H2) in H.
      destruct H as (Ho & Hc & Hs & Hp & Hd & Hf & He & Hmiss).
      repeat (split; [assumption|]). right. right.
      pose proof (forEachDoc_typeHasFinding toLowerCase docs Hloop) as Hinv.
      unfold typeHasFinding in Hinv.
      destruct (isSome (st_deficiencyType s));
        [|repeat split; assumption].
      rewrite Hinv in H2 by reflexivity. discriminate H2.
Qed.

(** The reasoning of a run of the try block is the template of its
    outcome. *)
Lemma evaluateBody_reasoning (docs : list document) (r : PCDEvaluationResult) :
  evaluateBody toLowerCase docs = Ok r ->
  technicalReasoning r
  = technicalReasoningOf toLowerCase (outcome r) (deficiencyType r)
      (missingDocumentation r) (requiresPhysicalEvaluation r).
Proof.
  unfold evaluateBody.
  destruct (forEachDoc toLowerCase docs initialLoopState) as [s|e];
    cbn [bind]; [|discriminate].
  destruct (decide docs (missingDocs docs) s) as [[[o conf] severity] physical].
  intros H. injection H as <-. reflexivity.
Qed.


(** X18. The confidence of an assessment is one of 0.1, 0.3, 0.7 and 0.8, so it
    always lies between 0 and 1 as the output schema asks. *)
Theorem confidence_values (docs : list document) :
  let c := confidence (evaluatePCDEligibility toLowerCase docs) in
  (c = 0.1%Q \/ c = 0.3%Q \/ c = 0.7%Q \/ c = 0.8%Q)
  /\ (0 <= c)%Q /\ (c <= 1)%Q.
Proof.
  cbv zeta.
  assert (H : confidence (evaluatePCDEligibility toLowerCase docs) = 0.1%Q
              \/ confidence (evaluatePCDEligibility toLowerCase docs) = 0.3%Q
              \/ confidence (evaluatePCDEligibility toLowerCase docs) = 0.7%Q
              \/ confidence (evaluatePCDEligibility toLowerCase docs) = 0.8%Q).
  { destruct (evaluatePCDEligibility_returns toLowerCase docs)
      as [Hbody | [_ Hdeg]]; [|rewrite Hdeg; left; reflexivity].
    destruct (evaluateBody_rows docs Hbody)
      as (s & _ & _ & _ & _ & _ & _ & [H|[H|H]]).
    - right. left. tauto.
    - right. right. right. tauto.
    - right. right. left. tauto. }
  split; [exact H|].
  destruct H as [-> | [-> | [-> | ->]]]; split; unfold Qle; cbn; lia.
Qed.

Lemma forEachDoc_findingHasType (docs : list document) (s : loopState) :
  forEachDoc toLowerCase docs initialLoopState = Ok s ->
  isSome (st_deficiencyType s) = false -> st_functionalLimitations s = [].
Proof.
  apply (forEachDoc_preserves toLowerCase
           (fun s => isSome (st_deficiencyType s) = false ->
                     st_functionalLimitations s = [])).
  - intros t finding s0 _ _ H. discriminate H.
  - intros e s0 Hs0. exact Hs0.
  - reflexivity.
Qed.

Lemma nonEmpty_true (A : Type) (l : list A) : nonEmpty l = true <-> l <> [].
Proof.
  unfold nonEmpty. destruct l; cbn; split; congruence.
Qed.

Lemma nonEmpty_false (A : Type) (l : list A) : nonEmpty l = false <-> l = [].
Proof.
  unfold nonEmpty. destruct l; cbn; split; congruence.
Qed.

(** X19. The fields of an assessment agree with its outcome: the severity is
    MODERADA exactly for SIM and absent otherwise; SIM comes with a type, a
    finding and nothing missing; NAO with no type, no finding and nothing
    missing; TALVEZ with something missing and no physical evaluation
    unless the catch block answered. *)
Theorem outcome_determines_fields (docs : list document) :
  let r := evaluatePCDEligibility toLowerCase docs in
  (outcome r = SIM <-> severityLevel r = Some MODERADA)
  /\ (outcome r <> SIM <-> severityLevel r = None)
  /\ (outcome r = SIM ->
      deficiencyType r <> None /\ functionalLimitations r <> []
      /\ missingDocumentation r = [])
  /\ (outcome r = NAO ->
      deficiencyType r = None /\ functionalLimitations r = []
      /\ missingDocumentation r = [])
  /\ (outcome r = TALVEZ -> missingDocumentation r <> []).
Proof.
  cbv zeta.
  destruct (evaluatePCDEligibility_returns toLowerCase docs)
    as [Hbody | [_ Hdeg]]; [|rewrite Hdeg].
  - destruct (evaluateBody_rows docs Hbody)
      as (s & Hloop & Hd & Hf & _ & Hmiss & _ & [H|[H|H]]).
    + destruct H as (Hm & Ho & _ & Hs). rewrite Ho, Hs, Hmiss.
      apply nonEmpty_true in Hm.
      repeat split; try discriminate; try congruence; auto.
    + destruct H as (Hm & Ht & Hfl & Ho & _ & Hs).
      rewrite Ho, Hs, Hmiss, Hd, Hf.
      apply nonEmpty_false in Hm. apply nonEmpty_true in Hfl.
      destruct (st_deficiencyType s); [|discriminate Ht].
      repeat split; try discriminate; try congruence; auto.
    + destruct H as (Hm & Ht & Ho & _ & Hs).
      rewrite Ho, Hs, Hmiss, Hd, Hf.
      apply nonEmpty_false in Hm.
      rewrite (forEachDoc_findingHasType docs Hloop Ht).
      destruct (st_deficiencyType s); [discriminate Ht|].
      repeat split; try discriminate; try congruence; auto.
  - cbn [outcome severityLevel deficiencyType functionalLimitations
         missingDocumentation degraded].
    repeat split; try discriminate; try congruence; auto.
Qed.

Lemma DocumentKind_eqb_eq (a b : DocumentKind) :
  DocumentKind_eqb a b = true -> a = b.
Proof.
  destruct a, b; cbn; congruence.
Qed.

Lemma hasKind_exists (k : DocumentKind) (docs : list document) :
  hasKind k docs = true -> exists doc, In doc docs /\ type doc = k.
Proof.
  unfold hasKind. rewrite existsb_exists. intros [doc [Hin Hk]].
  exists doc. split; [exact Hin | now apply DocumentKind_eqb_eq].
Qed.

Lemma missingDocs_nil (docs : list document) :
  missingDocs docs = [] ->
  hasKind LAUDO_MEDICO docs = true
  /\ hasKind RELATORIO_ESPECIALISTA docs = true.
Proof.
  unfold missingDocs.
  destruct (hasKind LAUDO_MEDICO docs),
    (hasKind RELATORIO_ESPECIALISTA docs); cbn [negb app];
    intros H; try discriminate H; split; reflexivity.
Qed.

(** When every content is a string the try block returns. *)
Lemma wellFormed_returns (docs : list document) :
  (forall doc, In doc docs -> content doc <> None) ->
  evaluateBody toLowerCase docs
  = Ok (evaluatePCDEligibility toLowerCase docs).
Proof.
  intros Hwf.
  destruct (evaluatePCDEligibility_returns toLowerCase docs)
    as [H | [Hthrow _]]; [exact H|].
  apply evaluateBody_Throw_iff in Hthrow.
  destruct Hthrow as [doc [Hin Hnone]]. destruct (Hwf doc Hin Hnone).
Qed.

(** X20. An assessment that decides, SIM or NAO, had a medical report and a
    specialist report among its documents, hence at least two documents,
    and every content was a string. *)
Theorem decided_outcome_needs_both_reports (docs : list document) :
  outcome (evaluatePCDEligibility toLowerCase docs) = SIM
  \/ outcome (evaluatePCDEligibility toLowerCase docs) = NAO ->
  (exists doc, In doc docs /\ type doc = LAUDO_MEDICO)
  /\ (exists doc, In doc docs /\ type doc = RELATORIO_ESPECIALISTA)
  /\ (2 <= List.length docs)%nat
  /\ forall doc, In doc docs -> content doc <> None.
Proof.
  intros Hout.
  destruct (evaluatePCDEligibility_returns toLowerCase docs)
    as [Hbody | [_ Hdeg]].
  - assert (Hwf : forall doc, In doc docs -> content doc <> None).
    { intros doc Hin Hnone.
      assert (Hthrow : exists e, evaluateBody toLowerCase docs = Throw e)
        by (apply evaluateBody_Throw_iff; now exists doc).
      destruct Hthrow as [e He]. rewrite He in Hbody. discriminate Hbody. }
    destruct (evaluateBody_rows docs Hbody)
      as (s & _ & _ & _ & _ & _ & _ & [H|[H|H]]).
    + destruct H as (_ & Ho & _). rewrite Ho in Hout.
      destruct Hout as [H|H]; discriminate H.
    + destruct H as (Hm & _). apply nonEmpty_false, missingDocs_nil in Hm.
      destruct Hm as [Hl Hr].
      destruct (hasKind_exists _ _ Hl) as [d1 [Hin1 Ht1]].
      destruct (hasKind_exists _ _ Hr) as [d2 [Hin2 Ht2]].
      repeat split; eauto.
      destruct docs as [|a [|b rest]]; cbn [List.length]; try lia.
      * destruct Hin1.
      * destruct Hin1 as [<-|[]]. destruct Hin2 as [<-|[]]. congruence.
    + destruct H as (Hm & _). apply nonEmpty_false, missingDocs_nil in Hm.
      destruct Hm as [Hl Hr].
      destruct (hasKind_exists _ _ Hl) as [d1 [Hin1 Ht1]].
      destruct (hasKind_exists _ _ Hr) as [d2 [Hin2 Ht2]].
      repeat split; eauto.
      destruct docs as [|a [|b rest]]; cbn [List.length]; try lia.
      * destruct Hin1.
      * destruct Hin1 as [<-|[]]. destruct Hin2 as [<-|[]]. congruence.
  - rewrite Hdeg in Hout. cbn [outcome degraded] in Hout.
    destruct Hout as [H|H]; discriminate H.
Qed.

(** X21. An indeterminate assessment that is not that of the catch block always
    carries the same reasoning, that documents are missing, and never the
    recommendation of a physical evaluation. *)
Theorem indeterminate_reasoning (docs : list document) :
  outcome (evaluatePCDEligibility toLowerCase docs) = TALVEZ ->
  evaluatePCDEligibility toLowerCase docs = degraded
  \/ (technicalReasoning (evaluatePCDEligibility toLowerCase docs)
      = missingReasoning
      /\ requiresPhysicalEvaluation (evaluatePCDEligibility toLowerCase docs)
         = false).
Proof.
  intros Hout.
  destruct (evaluatePCDEligibility_returns toLowerCase docs)
    as [Hbody | [_ Hdeg]]; [right | now left].
  rewrite (evaluateBody_reasoning _ Hbody).
  destruct (evaluateBody_rows docs Hbody)
    as (s & _ & _ & _ & _ & Hmiss & Hphys & [H|[H|H]]).
  - destruct H as (Hm & _). rewrite Hout, Hphys, Hmiss.
    split; [|reflexivity].
    unfold technicalReasoningOf. rewrite Hm. vm_compute. reflexivity.
  - destruct H as (_ & _ & _ & Ho & _). rewrite Ho in Hout. discriminate Hout.
  - destruct H as (_ & _ & Ho & _). rewrite Ho in Hout. discriminate Hout.
Qed.

(** X22. The last document decides the type, and the visual rule comes last in
    it: when every content is a string and the last document names a
    visual deficiency or blindness, the type is VISUAL whatever the other
    documents and the rest of its text say. *)
Theorem last_visual_document_decides (docs : list document) (d : document)
  (text : jsstring) :
  (forall doc, In doc docs -> content doc <> None) ->
  content d = Some text ->
  includes (toLowerCase text) (js "deficiência visual")
  || includes (toLowerCase text) (js "cegueira") = true ->
  deficiencyType (evaluatePCDEligibility toLowerCase (docs ++ [d]))
  = Some VISUAL.
Proof.
  intros Hwf Hd Hvis.
  assert (Hall : forall doc, In doc (docs ++ [d]) -> content doc <> None).
  { intros doc Hin. apply in_app_or in Hin. destruct Hin as [Hin|[<-|[]]];
      [now apply Hwf | congruence]. }
  pose proof (wellFormed_returns _ Hall) as Hbody.
  destruct (evaluateBody_rows _ Hbody) as (s & Hloop & -> & _).
  rewrite forEachDoc_app in Hloop.
  destruct (forEachDoc toLowerCase docs initialLoopState) as [s0|e];
    cbn [bind] in Hloop; [|discriminate Hloop].
  cbn [forEachDoc] in Hloop.
  destruct (analyzeDoc toLowerCase s0 d) as [s1|e] eqn:Hdoc;
    cbn [bind] in Hloop; [|discriminate Hloop].
  injection Hloop as <-.
  destruct (analyzeDoc_effect _ _ Hdoc) as (text' & Htext & _ & _ & Htype).
  rewrite Hd in Htext. injection Htext as <-.
  cbv zeta in Htype. rewrite Hvis in Htype. exact Htype.
Qed.

Lemma picks_occurrences (kws : list jsstring) (f c : jsstring) :
  In (kws, f) findingRules ->
  occurrences f
    (pick (includes c (js "deficiência física")
           || includes c (js "mobilidade"))
       (js "Limitações de mobilidade identificadas")
     ++ pick (includes c (js "deficiência intelectual")
              || includes c (js "cognitiv"))
          (js "Limitações cognitivas identificadas")
     ++ pick (includes c (js "deficiência auditiva")
              || includes c (js "surdez"))
          (js "Limitações auditivas identificadas")
     ++ pick (includes c (js "deficiência visual")
              || includes c (js "cegueira"))
          (js "Limitações visuais identificadas"))
  = if existsb (includes c) kws then 1%nat else 0%nat.
Proof.
  unfold findingRules.
  intros [H|[H|[H|[H|[]]]]]; injection H as <- <-; cbn [existsb];
    rewrite orb_false_r;
    destruct (includes c (js "deficiência física")
              || includes c (js "mobilidade")),
      (includes c (js "deficiência intelectual")
       || includes c (js "cognitiv")),
      (includes c (js "deficiência auditiva") || includes c (js "surdez")),
      (includes c (js "deficiência visual") || includes c (js "cegueira"));
    vm_compute; reflexivity.
Qed.

Lemma picks_evidence_occurrences (kws : list jsstring) (e c : jsstring) :
  In (kws, e) evidenceRules ->
  occurrences e
    (pick (includes c (js "cid")) (js "CID identificado na documentação")
     ++ pick (includes c (js "limitação funcional"))
          (js "Limitações funcionais documentadas"))
  = if existsb (includes c) kws then 1%nat else 0%nat.
Proof.
  unfold evidenceRules.
  intros [H|[H|[]]]; injection H as <- <-; cbn [existsb];
    rewrite orb_false_r;
    destruct (includes c (js "cid")),
      (includes c (js "limitação funcional"));
    vm_compute; reflexivity.
Qed.

Lemma forEachDoc_occurrences (docs : list document) (s s' : loopState) :
  forEachDoc toLowerCase docs s = Ok s' ->
  (forall kws f, In (kws, f) findingRules ->
     occurrences f (st_functionalLimitations s')
     = (occurrences f (st_functionalLimitations s)
        + List.length (filter (mentions toLowerCase kws) docs))%nat)
  /\ (forall kws e, In (kws, e) evidenceRules ->
        occurrences e (st_clinicalEvidence s')
        = (occurrences e (st_clinicalEvidence s)
           + List.length (filter (mentions toLowerCase kws) docs))%nat).
Proof.
  revert s. induction docs as [|doc rest IH]; intros s.
  - cbn [forEachDoc]. intros H. injection H as <-.
    split; intros; cbn [filter List.length]; lia.
  - cbn [forEachDoc].
    destruct (analyzeDoc toLowerCase s doc) as [s1|e] eqn:Hdoc;
      cbn [bind]; [|discriminate].
    intros Hrest. destruct (IH _ Hrest) as [IHf IHe].
    destruct (analyzeDoc_effect _ _ Hdoc) as (text & Htext & Hf & He & _).
    cbv zeta in Hf, He.
    split; intros kws x Hin.
    + rewrite (IHf kws x Hin), Hf. unfold occurrences at 1.
      rewrite count_occ_app. fold (occurrences x (st_functionalLimitations s)).
      match goal with
      | |- context [count_occ ?dec ?l x] =>
          change (count_occ dec l x) with (occurrences x l)
      end.
      rewrite (picks_occurrences _ Hin). cbn [filter].
      unfold mentions at 2. rewrite Htext.
      destruct (existsb (includes (toLowerCase text)) kws);
        cbn [List.length]; lia.
    + rewrite (IHe kws x Hin), He. unfold occurrences at 1.
      rewrite count_occ_app. fold (occurrences x (st_clinicalEvidence s)).
      match goal with
      | |- context [count_occ ?dec ?l x] =>
          change (count_occ dec l x) with (occurrences x l)
      end.
      rewrite (picks_evidence_occurrences _ Hin). cbn [filter].
      unfold mentions at 2. rewrite Htext.
      destruct (existsb (includes (toLowerCase text)) kws);
        cbn [List.length]; lia.
Qed.

(** X23. When every content is a string, each finding occurs in the
    functional-limitation list once for every document that has a keyword
    of its rule, and each evidence entry once for every document that has
    its keyword: a finding is repeated for each document that supports
    it. *)
Theorem findings_counted_per_document (docs : list document)
  (kws : list jsstring) (x : jsstring) :
  (forall doc, In doc docs -> content doc <> None) ->
  let r := evaluatePCDEligibility toLowerCase docs in
  (In (kws, x) findingRules ->
   occurrences x (functionalLimitations r)
   = List.length (filter (mentions toLowerCase kws) docs))
  /\ (In (kws, x) evidenceRules ->
      occurrences x (clinicalEvidence r)
      = List.length (filter (mentions toLowerCase kws) docs)).
Proof.
  intros Hwf. cbv zeta.
  pose proof (wellFormed_returns _ Hwf) as Hbody.
  destruct (evaluateBody_rows _ Hbody) as (s & Hloop & _ & -> & -> & _).
  destruct (forEachDoc_occurrences _ _ Hloop) as [Hf He].
  split; intros Hin; [rewrite (Hf _ _ Hin) | rewrite (He _ _ Hin)];
    reflexivity.
Qed.

End EvaluationExtras.

Section EvaluationExtraRuns.

Import Evaluation Vocabulary.

(** Three documents that each name a physical deficiency. *)
Lemma threeReports_wellFormed :
  forall doc,
    In doc [entry LAUDO_MEDICO "Deficiência física, CID G82";
            entry RELATORIO_ESPECIALISTA "Mobilidade reduzida";
            entry EXAMES_COMPLEMENTARES "Tomografia: deficiência física"] ->
    content doc <> None.
Proof.
  intros doc [<-|[<-|[<-|[]]]]; discriminate.
Qed.

Lemma decided_outcome_needs_both_reports_witness :
  let docs := [entry LAUDO_MEDICO "Paciente em acompanhamento";
               entry RELATORIO_ESPECIALISTA "Sem alteracoes"] in
  (outcome (evaluatePCDEligibility latin1ToLowerCase docs) = SIM
   \/ outcome (evaluatePCDEligibility latin1ToLowerCase docs) = NAO)
  /\ (exists doc, In doc docs /\ type doc = LAUDO_MEDICO)
  /\ (exists doc, In doc docs /\ type doc = RELATORIO_ESPECIALISTA)
  /\ (2 <= List.length docs)%nat
  /\ forall doc, In doc docs -> content doc <> None.
Proof.
  cbv zeta. split.
  - right. vm_compute. reflexivity.
  - apply (@decided_outcome_needs_both_reports latin1ToLowerCase
             [entry LAUDO_MEDICO "Paciente em acompanhamento";
              entry RELATORIO_ESPECIALISTA "Sem alteracoes"]).
    right. vm_compute. reflexivity.
Defined.

Lemma indeterminate_reasoning_witness :
  let docs := [entry LAUDO_MEDICO "Deficiência auditiva: surdez bilateral"] in
  outcome (evaluatePCDEligibility latin1ToLowerCase docs) = TALVEZ
  /\ (evaluatePCDEligibility latin1ToLowerCase docs = degraded
      \/ (technicalReasoning (evaluatePCDEligibility latin1ToLowerCase docs)
          = missingReasoning
          /\ requiresPhysicalEvaluation
               (evaluatePCDEligibility latin1ToLowerCase docs) = false)).
Proof.
  cbv zeta. split.
  - vm_compute. reflexivity.
  - apply (@indeterminate_reasoning latin1ToLowerCase
             [entry LAUDO_MEDICO "Deficiência auditiva: surdez bilateral"]).
    vm_compute. reflexivity.
Defined.

Lemma last_visual_document_decides_witness :
  let docs := [entry LAUDO_MEDICO "Deficiência física, CID G82";
               entry RELATORIO_ESPECIALISTA "Mobilidade reduzida";
               entry EXAMES_COMPLEMENTARES "Tomografia: deficiência física"] in
  let d := entry OUTROS "Surdez e cegueira" in
  (forall doc, In doc docs -> content doc <> None)
  /\ content d = Some (js "Surdez e cegueira")
  /\ includes (latin1ToLowerCase (js "Surdez e cegueira"))
       (js "deficiência visual")
     || includes (latin1ToLowerCase (js "Surdez e cegueira")) (js "cegueira")
     = true
  /\ deficiencyType (evaluatePCDEligibility latin1ToLowerCase (docs ++ [d]))
     = Some VISUAL.
Proof.
  cbv zeta. split; [exact threeReports_wellFormed|].
  split; [reflexivity|]. split; [vm_compute; reflexivity|].
  apply (@last_visual_document_decides latin1ToLowerCase
           [entry LAUDO_MEDICO "Deficiência física, CID G82";
            entry RELATORIO_ESPECIALISTA "Mobilidade reduzida";
            entry EXAMES_COMPLEMENTARES "Tomografia: deficiência física"]
           (entry OUTROS "Surdez e cegueira") (js "Surdez e cegueira"));
    [exact threeReports_wellFormed | reflexivity | vm_compute; reflexivity].
Defined.

Lemma findings_counted_per_document_witness :
  let docs := [entry LAUDO_MEDICO "Deficiência física, CID G82";
               entry RELATORIO_ESPECIALISTA "Mobilidade reduzida";
               entry EXAMES_COMPLEMENTARES "Tomografia: deficiência física"] in
  let kws := [js "deficiência física"; js "mobilidade"] in
  let x := js "Limitações de mobilidade identificadas" in
  (forall doc, In doc docs -> content doc <> None)
  /\ let r := evaluatePCDEligibility latin1ToLowerCase docs in
     (In (kws, x) findingRules ->
      occurrences x (functionalLimitations r)
      = List.length (filter (mentions latin1ToLowerCase kws) docs))
     /\ (In (kws, x) evidenceRules ->
         occurrences x (clinicalEvidence r)
         = List.length (filter (mentions latin1ToLowerCase kws) docs)).
Proof.
  cbv zeta. split; [exact threeReports_wellFormed|].
  apply (@findings_counted_per_document latin1ToLowerCase
           [entry LAUDO_MEDICO "Deficiência física, CID G82";
            entry RELATORIO_ESPECIALISTA "Mobilidade reduzida";
            entry EXAMES_COMPLEMENTARES "Tomografia: deficiência física"]
           [js "deficiência física"; js "mobilidade"]
           (js "Limitações de mobilidade identificadas")).
  exact threeReports_wellFormed.
Defined.

(** The finding of the physical rule, three times for three documents. *)
Example physical_finding_three_times :
  occurrences (js "Limitações de mobilidade identificadas")
    (functionalLimitations
       (evaluatePCDEligibility latin1ToLowerCase
          [entry LAUDO_MEDICO "Deficiência física, CID G82";
           entry RELATORIO_ESPECIALISTA "Mobilidade reduzida";
           entry EXAMES_COMPLEMENTARES "Tomografia: deficiência física"]))
  = 3%nat.
Proof. vm_compute. reflexivity. Qed.

End EvaluationExtraRuns.

(** ** generateLaudoCaracterizador: the identifier, the token, the text *)

Section TokenExtras.

Import Laudo Token Vocabulary.

Lemma js_cons_ascii (c : ascii) (s : string) :
  (N_of_ascii c <? 128)%N = true ->
  js (String c s) = N_of_ascii c :: js s.
Proof.
  intros H. unfold js. cbn [list_ascii_of_string map utf16]. now rewrite H.
Qed.

Lemma js_uint_digits (d : Decimal.uint) :
  forallb isDigit (js (NilEmpty.string_of_uint d)) = true.
Proof.
  induction d; cbn [NilEmpty.string_of_uint]; [reflexivity|..];
    rewrite js_cons_ascii by reflexivity; cbn [forallb]; rewrite IHd;
    reflexivity.
Qed.

(** The decimal text of a number: one digit at least, and digits only. *)
Lemma ofN_digits (n : N) :
  exists d ds, ofN n = d :: ds /\ isDigit d = true
               /\ forallb isDigit ds = true.
Proof.
  unfold ofN, NilZero.string_of_uint.
  destruct (N.to_uint n) eqn:E;
    [exists 48%N, []; repeat split|..];
    match goal with
    | |- context [js (NilEmpty.string_of_uint ?u)] =>
        pose proof (js_uint_digits u) as H;
        cbn [NilEmpty.string_of_uint] in *;
        rewrite js_cons_ascii in * by reflexivity;
        cbn [forallb] in H; apply andb_true_iff in H; destruct H as [H1 H2];
        eexists; eexists; split; [reflexivity | split; assumption]
    end.
Qed.

Lemma forallb_filter_self (p : N -> bool) (s : jsstring) :
  forallb p (filter p s) = true.
Proof.
  induction s as [|c s IH]; [reflexivity|].
  cbn [filter]. destruct (p c) eqn:Hc; [cbn [forallb]; now rewrite Hc | exact IH].
Qed.

(** The units of a decimal number, most significant digit first. *)
Lemma js_uint_units (d : Decimal.uint) (acc : positive) :
  fold_left (fun a c => (a * 10 + (c - 48))%N)
    (js (NilEmpty.string_of_uint d)) (N.pos acc)
  = N.pos (Pos.of_uint_acc d acc).
Proof.
  revert acc.
  induction d; intros acc; cbn [NilEmpty.string_of_uint Pos.of_uint_acc];
    [reflexivity|..];
    rewrite js_cons_ascii by reflexivity; cbn [fold_left];
    match goal with
    | |- fold_left _ _ ?x = N.pos (Pos.of_uint_acc _ ?y) =>
        replace x with (N.pos y) by (vm_compute N_of_ascii; lia)
    end; apply IHd.
Qed.

Lemma js_uint_value (d : Decimal.uint) :
  decimalValue (js (NilEmpty.string_of_uint d)) = N.of_uint d.
Proof.
  unfold decimalValue, N.of_uint.
  induction d; cbn [NilEmpty.string_of_uint Pos.of_uint];
    [reflexivity|..];
    rewrite js_cons_ascii by reflexivity; cbn [fold_left];
    [exact IHd|..];
    match goal with
    | |- fold_left _ _ ?x = N.pos (Pos.of_uint_acc _ ?y) =>
        replace x with (N.pos y) by (vm_compute; reflexivity)
    end; apply js_uint_units.
Qed.

(** Reading the decimal text of a number gives the number back. *)
Lemma decimalValue_ofN (n : N) : decimalValue (ofN n) = n.
Proof.
  unfold ofN, NilZero.string_of_uint.
  rewrite <- (DecimalN.Unsigned.of_to n) at 2.
  destruct (N.to_uint n) eqn:E; [reflexivity|..]; apply js_uint_value.
Qed.

Lemma ofN_all_digits (n : N) : forallb isDigit (ofN n) = true.
Proof.
  destruct (ofN_digits n) as (c & cs & -> & Hc & Hcs).
  cbn [forallb]. now rewrite Hc.
Qed.

(** Two texts of digits followed by a hyphen are read apart at the hyphen. *)
Lemma split_at_hyphen (a a' b b' : jsstring) :
  forallb isDigit a = true -> forallb isDigit a' = true ->
  a ++ 45%N :: b = a' ++ 45%N :: b' -> a = a' /\ b = b'.
Proof.
  revert a'. induction a as [|c a IH]; intros [|c' a'] Ha Ha' H;
    cbn [app forallb] in *.
  - injection H as <-. now split.
  - injection H as <- _. discriminate Ha'.
  - injection H as -> _. discriminate Ha.
  - injection H as <- H.
    apply andb_true_iff in Ha. apply andb_true_iff in Ha'.
    destruct (IH a' (proj2 Ha) (proj2 Ha') H) as [<- <-]. now split.
Qed.

(** X25. The identifier of a report is the prefix, the decimal text of the time
    stamp, a hyphen and the digits of the CPF in their order, every other
    character of the CPF removed. The text of the time stamp has a digit at
    least, digits only, and reads back as the time stamp; so two
    identifiers are equal exactly when the time stamps are equal and the
    CPFs have the same digits. *)
Theorem laudoId_reads_back (now : N) (d : LaudoCaracterizadorData) :
  laudoIdOf now d
  = js "LAUDO-PCD-" ++ ofN now ++ js "-"
    ++ filter isDigit (cpf (candidateInfo d))
  /\ ofN now <> [] /\ forallb isDigit (ofN now) = true
  /\ decimalValue (ofN now) = now
  /\ (forall c, In c (filter isDigit (cpf (candidateInfo d)))
                <-> In c (cpf (candidateInfo d)) /\ isDigit c = true)
  /\ forall now' d',
       laudoIdOf now' d' = laudoIdOf now d
       <-> now' = now
           /\ filter isDigit (cpf (candidateInfo d'))
              = filter isDigit (cpf (candidateInfo d)).
Proof.
  split; [reflexivity|].
  split; [destruct (ofN_digits now) as (c & cs & -> & _); discriminate|].
  split; [apply ofN_all_digits|].
  split; [apply decimalValue_ofN|].
  split; [intros c; apply filter_In|].
  intros now' d'. unfold laudoIdOf. split.
  - intros H. apply app_inv_head in H.
    change (js "-") with [45%N] in H. cbn [app] in H.
    apply split_at_hyphen in H; try apply ofN_all_digits.
    destruct H as [Hn Hd]. split; [|exact Hd].
    rewrite <- (decimalValue_ofN now'), <- (decimalValue_ofN now).
    now rewrite Hn.
  - intros [-> ->]. reflexivity.
Qed.

Lemma utf8_ascii (c : N) (s : jsstring) :
  (c <? 128)%N = true -> utf8 (c :: s) = c :: utf8 s.
Proof.
  intros H. cbn [utf8]. now rewrite H.
Qed.

Lemma isDigit_ascii (c : N) : isDigit c = true -> (c <? 128)%N = true.
Proof.
  unfold isDigit. intros H. apply andb_true_iff in H. destruct H as [_ H].
  apply N.leb_le in H. apply N.ltb_lt. lia.
Qed.

(** The time stamp followed by the hyphen opens with two ASCII units. *)
Lemma stamp_opening (now : N) (rest : jsstring) :
  exists t1 t2 tail,
    ofN now ++ js "-" ++ rest = t1 :: t2 :: tail
    /\ firstn 2 (ofN now ++ js "-") = [t1; t2]
    /\ (t1 <? 128)%N = true /\ (t2 <? 128)%N = true.
Proof.
  destruct (ofN_digits now) as (c & cs & -> & Hc & Hcs).
  destruct cs as [|c2 cs].
  - exists c, 45%N, rest. repeat split. now apply isDigit_ascii.
  - exists c, c2, (cs ++ js "-" ++ rest). cbn [forallb] in Hcs.
    apply andb_true_iff in Hcs. destruct Hcs as [Hc2 _].
    repeat split; now apply isDigit_ascii.
Qed.

(** X26. The signature token is fixed by the first two characters of the time
    stamp: it is the base64 text of "LAUDO-PCD-" and these two characters,
    so it is the same for every candidate, every CPF and every date and
    time of issue; it is always 23 characters long. *)
Theorem signature_ignores_dossier (now : N) (currentDateTime : jsstring)
  (d : LaudoCaracterizadorData) :
  digitalSignature now currentDateTime d
  = js "SHA256-"
    ++ base64 (utf8 (js "LAUDO-PCD-" ++ firstn 2 (ofN now ++ js "-")))
  /\ List.length (digitalSignature now currentDateTime d) = 23%nat
  /\ forall currentDateTime' d',
       digitalSignature now currentDateTime' d'
       = digitalSignature now currentDateTime d.
Proof.
  assert (Hall : forall dt dd,
             digitalSignature now dt dd
             = js "SHA256-"
               ++ base64 (utf8 (js "LAUDO-PCD-"
                                ++ firstn 2 (ofN now ++ js "-")))
             /\ List.length (digitalSignature now dt dd) = 23%nat).
  { intros dt dd. unfold digitalSignature, laudoIdOf.
    rewrite <- !app_assoc.
    destruct (stamp_opening now
                (filter isDigit (cpf (candidateInfo dd))
                 ++ cpf (candidateInfo dd) ++ dt))
      as (t1 & t2 & tail & Heq & -> & H1 & H2).
    rewrite Heq.
    replace (js "LAUDO-PCD-") with [76; 65; 85; 68; 79; 45; 80; 67; 68; 45]%N
      by (vm_compute; reflexivity).
    replace (js "SHA256-") with [83; 72; 65; 50; 53; 54; 45]%N
      by (vm_compute; reflexivity).
    cbn [app].
    rewrite !utf8_ascii by (exact H1 || exact H2 || reflexivity).
    cbn [base64 app firstn utf8 List.length]. split; reflexivity. }
  destruct (Hall currentDateTime d) as [Hsig Hlen].
  split; [exact Hsig|]. split; [exact Hlen|].
  intros dt' d'. destruct (Hall dt' d') as [-> _]. now rewrite Hsig.
Qed.

End TokenExtras.

Section ReportExtras.

Import Laudo Token Vocabulary.

Variable toLowerCase : jsstring -> jsstring.
Variable now : N.
Variable currentDate : jsstring.

Lemma join_cons (sep p q : jsstring) (parts : list jsstring) :
  join sep (p :: q :: parts) = p ++ sep ++ join sep (q :: parts).
Proof. reflexivity. Qed.

(** A text made by [join] includes each of its parts. *)
Lemma includes_join (sep row : jsstring) (rows : list jsstring) :
  In row rows -> includes (join sep rows) row = true.
Proof.
  induction rows as [|p rows IH]; [intros []|].
  destruct rows as [|q rows].
  - intros [<-|[]]. cbn [join]. apply includes_startsWith.
    rewrite <- (app_nil_r p) at 1. apply startsWith_self.
  - rewrite join_cons. intros [<-|Hin].
    + apply includes_startsWith, startsWith_self.
    + apply (@includes_app_l p), (@includes_app_l sep). now apply IH.
Qed.

(** Every row of the template is in the document as it is written. *)
Lemma document_includes_row (d : LaudoCaracterizadorData) (row : jsstring) :
  In row (documentRows toLowerCase now currentDate d) ->
  includes (fullDocument toLowerCase now currentDate d) row = true.
Proof.
  intros Hin. rewrite fullDocument_rows. now apply includes_join.
Qed.

Lemma document_includes_nth (d : LaudoCaracterizadorData) (n : nat)
  (row : jsstring) :
  nth_error (documentRows toLowerCase now currentDate d) n = Some row ->
  includes (fullDocument toLowerCase now currentDate d) row = true.
Proof.
  intros H. apply document_includes_row. now apply nth_error_In in H.
Qed.

(** X27. Whatever the dossier holds, the report opens with its title and has the
    seven section headers, the line of its identifier, and the lines of the
    name and of the CPF of the candidate. *)
Theorem report_has_every_section (d : LaudoCaracterizadorData) :
  let doc := fullDocument toLowerCase now currentDate d in
  startsWith doc (js "LAUDO CARACTERIZADOR DE PESSOA COM DEFICIENCIA") = true
  /\ forallb (includes doc) sectionHeaders = true
  /\ includes doc (js "Numero do Laudo: " ++ laudoIdOf now d) = true
  /\ includes doc (js "Nome Completo: " ++ fullName (candidateInfo d)) = true
  /\ includes doc (js "CPF: " ++ cpf (candidateInfo d)) = true.
Proof.
  cbv zeta. split.
  - rewrite fullDocument_rows. unfold documentRows.
    rewrite join_cons. apply startsWith_self.
  - unfold sectionHeaders. cbn [forallb].
    rewrite (@document_includes_nth d 3 _ eq_refl).
    rewrite (@document_includes_nth d 8 _ eq_refl).
    rewrite (@document_includes_nth d 17 _ eq_refl).
    rewrite (@document_includes_nth d 26 _ eq_refl).
    rewrite (@document_includes_nth d 39 _ eq_refl).
    rewrite (@document_includes_nth d 51 _ eq_refl).
    rewrite (@document_includes_nth d 61 _ eq_refl).
    rewrite (@document_includes_nth d 4 _ eq_refl).
    rewrite (@document_includes_nth d 9 _ eq_refl).
    rewrite (@document_includes_nth d 10 _ eq_refl).
    repeat split.
Qed.

(** X28. A legal citation whose flag is set is in the report word for word, and
    so is every other law the dossier names. *)
Theorem legal_citations_follow_flags (d : LaudoCaracterizadorData) :
  let doc := fullDocument toLowerCase now currentDate d in
  (lei13146 (legalBasis d) = true ->
   includes doc
     (js "- Lei no 13.146/2015 (Lei Brasileira de Inclusao da Pessoa com Deficiencia)")
   = true)
  /\ (decreto3298 (legalBasis d) = true ->
      includes doc
        (js "- Decreto no 3.298/1999 (Regulamenta a Lei no 7.853/1989)")
      = true)
  /\ (cif (legalBasis d) = true ->
      includes doc
        (js "- Classificacao Internacional de Funcionalidade, Incapacidade e Saude (CIF/OMS)")
      = true)
  /\ forall laws law,
       otherLaws (legalBasis d) = Some laws -> In law laws ->
       includes doc (js "- " ++ law) = true.
Proof.
  cbv zeta. split; [|split; [|split]].
  - intros H. apply (@document_includes_nth d 52).
    unfold documentRows. cbn [nth_error]. now rewrite H.
  - intros H. apply (@document_includes_nth d 53).
    unfold documentRows. cbn [nth_error]. now rewrite H.
  - intros H. apply (@document_includes_nth d 54).
    unfold documentRows. cbn [nth_error]. now rewrite H.
  - intros laws law Hlaws Hin.
    assert (Hrow : includes (fullDocument toLowerCase now currentDate d)
                     (otherLawsRow (otherLaws (legalBasis d))) = true).
    { apply (@document_includes_nth d 55). reflexivity. }
    rewrite Hlaws in Hrow. destruct laws as [|l0 ls]; [destruct Hin|].
    cbn [otherLawsRow] in Hrow. unfold bullets in Hrow.
    assert (Hpart : includes
                      (join LF (map (fun item => js "- " ++ item) (l0 :: ls)))
                      (js "- " ++ law) = true).
    { apply includes_join.
      apply (in_map (fun item => js "- " ++ item)) in Hin. exact Hin. }
    now apply (@includes_trans _ _ _ Hpart).
Qed.

End ReportExtras.

(** ** Further properties of the analysis *)

Section AnalysisExtras2.

Import Analysis Vocabulary Pipeline.

(** X11. The quality EXCELENTE is out of reach without a medical report, without
    a specialist report, or without CRM evidence. *)
Theorem excellent_needs_reports_and_crm (extraction : ExtractionResult)
  (expected : option ExpectedDeficiencyType) (content : jsstring) :
  documentQuality (analyzeContent extraction expected content) = EXCELENTE ->
  hasLaudoMedico content = true /\ hasSpecialistReport content = true
  /\ hasValidCRM content = true.
Proof.
  intros Hq.
  destruct (analysis_fields extraction expected content)
    as (Hs & Hqual & _).
  rewrite Hqual in Hq. apply documentQualityOf_tiers in Hq.
  rewrite Hs, completenessScoreOf_sum in Hq.
  pose proof (points_bounds MedicalReport (evidenceFlags content)).
  pose proof (points_bounds SpecialistReport (evidenceFlags content)).
  pose proof (points_bounds CIDDiagnosis (evidenceFlags content)).
  pose proof (points_bounds ValidSignature (evidenceFlags content)).
  pose proof (points_bounds ValidProfessionalId (evidenceFlags content)).
  pose proof (points_bounds TypeDetected (evidenceFlags content)).
  pose proof (points_bounds CIFCriteria (evidenceFlags content)).
  pose proof (points_bounds ComplementaryExams (evidenceFlags content)).
  cbn [weight] in *.
  split; [|split].
  - destruct (hasLaudoMedico content) eqn:E; [reflexivity|].
    rewrite (@points_zero MedicalReport) in Hq by exact E. lia.
  - destruct (hasSpecialistReport content) eqn:E; [reflexivity|].
    rewrite (@points_zero SpecialistReport) in Hq by exact E. lia.
  - destruct (hasValidCRM content) eqn:E; [reflexivity|].
    assert (Hsig : hasProperMedicalSignature content = false)
      by (unfold hasProperMedicalSignature; now rewrite E).
    rewrite (@points_zero ValidProfessionalId) in Hq by exact E.
    rewrite (@points_zero ValidSignature) in Hq by exact Hsig. lia.
Qed.

Lemma excellent_needs_reports_and_crm_witness :
  let extraction :=
    extractionOf "Laudo medico e relatorio do especialista. CID H90.3, deficiencia auditiva, audiometria (exame). CIF. Dr. Lima CRM 12345" in
  let content := latin1ToLowerCase (extractedText extraction) in
  documentQuality (analyzeContent extraction None content) = EXCELENTE
  /\ hasLaudoMedico content = true /\ hasSpecialistReport content = true
  /\ hasValidCRM content = true.
Proof.
  cbv zeta. split.
  - vm_compute. reflexivity.
  - apply (@excellent_needs_reports_and_crm
             (extractionOf "Laudo medico e relatorio do especialista. CID H90.3, deficiencia auditiva, audiometria (exame). CIF. Dr. Lima CRM 12345")
             None).
    vm_compute. reflexivity.
Defined.

(** X12. The qualifications are pushed rule by rule and not merged: psychiatry
    is listed once for the intellectual rule and once more for the
    psychosocial rule, so it is listed twice when both match. *)
Theorem psychiatry_listed_per_rule (extraction : ExtractionResult)
  (expected : option ExpectedDeficiencyType) (content : jsstring) :
  occurrences (js "Psiquiatria")
    (issuerQualifications
       (medicalDocuments (analyzeContent extraction expected content)))
  = ((if matchesIntelectual content then 1 else 0)
     + (if matchesPsicossocial content then 1 else 0))%nat.
Proof.
  destruct (analysis_fields extraction expected content)
    as (_ & _ & _ & _ & _ & ->).
  unfold matchedRules, baseTypes. cbn [filter matchesRule].
  destruct (matchesFisica content), (matchesIntelectual content),
    (matchesAuditiva content), (matchesVisual content),
    (matchesPsicossocial content); vm_compute; reflexivity.
Qed.

End AnalysisExtras2.

Section PipelineExtras2.

Import Analysis Vocabulary Pipeline.

Variable toLowerCase : jsstring -> jsstring.
Variable fetch : jsstring -> attempt Response.
Variable extractTextFromPDF : list N -> attempt ExtractionResult.

(** X16. When the download succeeds and the extracted text has a character that
    is not white space, [execute] returns the analysis of the lower-cased
    text, and reports the text as extracted, with its length. *)
Theorem nonblank_text_is_analysed (pdfUrl : jsstring)
  (expected : option ExpectedDeficiencyType) (response : Response)
  (pdfBuffer : list N) (extraction : ExtractionResult) :
  fetch pdfUrl = Returned response ->
  ok response = true ->
  arrayBuffer response = Returned pdfBuffer ->
  extractTextFromPDF pdfBuffer = Returned extraction ->
  forallb isSpace (extractedText extraction) = false ->
  let r := execute toLowerCase fetch extractTextFromPDF pdfUrl expected in
  r = analyzeContent extraction expected
        (toLowerCase (extractedText extraction))
  /\ rawText (extractedContent r) = extractedText extraction
  /\ characterCount (extractedContent r)
     = Z.of_nat (List.length (extractedText extraction))
  /\ ~ In errorFlag (urgencyFlags r).
Proof.
  intros Hf Hok Hb He Hblank. cbv zeta.
  assert (Hnot : isBlank (extractedText extraction) = false).
  { destruct (isBlank (extractedText extraction)) eqn:E; [|reflexivity].
    apply isBlank_iff in E. congruence. }
  assert (Hrun : execute toLowerCase fetch extractTextFromPDF pdfUrl expected
                 = analyzeContent extraction expected
                     (toLowerCase (extractedText extraction))).
  { unfold execute, tryBlock. rewrite Hf. cbn [andThen]. rewrite Hok.
    cbn [negb]. rewrite Hb. cbn [andThen]. rewrite He. cbn [andThen].
    now rewrite Hnot. }
  rewrite Hrun. split; [reflexivity|]. split; [reflexivity|].
  split; [reflexivity|].
  destruct (analysis_fields extraction expected
              (toLowerCase (extractedText extraction)))
    as (_ & _ & _ & -> & _).
  apply member_false, errorFlag_not_raised.
Qed.

End PipelineExtras2.

Section PipelineRuns2.

Import Analysis Vocabulary Pipeline.

Lemma nonblank_text_is_analysed_witness :
  let fetch := respondWith 200 "OK" in
  let extract := extracting "Laudo Medico: Surdez" in
  let extraction := extractionOf "Laudo Medico: Surdez" in
  fetch (js "https://example.org/laudo.pdf")
  = Returned {| ok := true; status := 200; statusText := js "OK";
                arrayBuffer := Returned [] |}
  /\ forallb isSpace (extractedText extraction) = false
  /\ let r := execute latin1ToLowerCase fetch extract
                (js "https://example.org/laudo.pdf") None in
     r = analyzeContent extraction None
           (latin1ToLowerCase (extractedText extraction))
     /\ rawText (extractedContent r) = extractedText extraction
     /\ characterCount (extractedContent r)
        = Z.of_nat (List.length (extractedText extraction))
     /\ ~ In errorFlag (urgencyFlags r).
Proof.
  cbv zeta. split; [reflexivity|]. split; [vm_compute; reflexivity|].
  apply (@nonblank_text_is_analysed latin1ToLowerCase (respondWith 200 "OK")
           (extracting "Laudo Medico: Surdez")
           (js "https://example.org/laudo.pdf") None
           {| ok := true; status := 200; statusText := js "OK";
              arrayBuffer := Returned [] |}
           [] (extractionOf "Laudo Medico: Surdez"));
    [reflexivity | reflexivity | reflexivity | reflexivity
    | vm_compute; reflexivity].
Defined.

End PipelineRuns2.

(** ** evaluatePCDEligibility: the order of the documents *)

Section OrderExtras.

Import Evaluation Vocabulary.

Variable toLowerCase : jsstring -> jsstring.

Lemma existsb_Permutation (A : Type) (f : A -> bool) (l l' : list A) :
  Permutation l l' -> existsb f l = existsb f l'.
Proof.
  induction 1 as [|x l l' _ IH|x y l|l l' l'' _ IH1 _ IH2]; cbn [existsb].
  - reflexivity.
  - now rewrite IH.
  - destruct (f x), (f y); reflexivity.
  - now rewrite IH1.
Qed.

Lemma mentions_content (kws : list jsstring) (doc : document)
  (text : jsstring) :
  content doc = Some text ->
  mentions toLowerCase kws doc = existsb (includes (toLowerCase text)) kws.
Proof.
  intros H. unfold mentions. now rewrite H.
Qed.

(** A type is set at the end of the loop exactly when it was set before or
    some document has one of the eight type keywords. *)
Lemma forEachDoc_type_set (docs : list document) (s s' : loopState) :
  forEachDoc toLowerCase docs s = Ok s' ->
  isSome (st_deficiencyType s')
  = isSome (st_deficiencyType s)
    || existsb (mentions toLowerCase typeKeywords) docs.
Proof.
  revert s. induction docs as [|doc rest IH]; intros s.
  - cbn [forEachDoc existsb]. intros H. injection H as <-.
    now rewrite orb_false_r.
  - cbn [forEachDoc existsb].
    destruct (analyzeDoc toLowerCase s doc) as [s1|e] eqn:Hdoc;
      cbn [bind]; [|discriminate].
    intros Hrest. rewrite (IH _ Hrest).
    destruct (analyzeDoc_effect toLowerCase _ _ Hdoc)
      as (text & Htext & _ & _ & Htype).
    cbv zeta in Htype. rewrite Htype.
    rewrite (mentions_content _ _ Htext).
    generalize (existsb (mentions toLowerCase typeKeywords) rest) as later.
    intros later. unfold typeKeywords. cbn [existsb].
    destruct (includes (toLowerCase text) (js "deficiência física")),
      (includes (toLowerCase text) (js "mobilidade")),
      (includes (toLowerCase text) (js "deficiência intelectual")),
      (includes (toLowerCase text) (js "cognitiv")),
      (includes (toLowerCase text) (js "deficiência auditiva")),
      (includes (toLowerCase text) (js "surdez")),
      (includes (toLowerCase text) (js "deficiência visual")),
      (includes (toLowerCase text) (js "cegueira"));
      cbn [orb isSome]; rewrite ?orb_true_r; try reflexivity;
      destruct (st_deficiencyType s), later; reflexivity.
Qed.

Lemma missingDocs_Permutation (docs docs' : list document) :
  Permutation docs docs' -> missingDocs docs = missingDocs docs'.
Proof.
  intros Hp. unfold missingDocs, hasKind.
  now rewrite !(existsb_Permutation _ Hp).
Qed.

(** X24. The outcome does not depend on the order of the documents: two lists
    with the same documents get the same outcome, confidence, severity and
    missing-documentation list, and a type in the one exactly when in the
    other; only which type, and the order of the findings, can differ. *)
Theorem outcome_ignores_order (docs docs' : list document) :
  Permutation docs docs' ->
  let r := evaluatePCDEligibility toLowerCase docs in
  let r' := evaluatePCDEligibility toLowerCase docs' in
  outcome r = outcome r' /\ confidence r = confidence r'
  /\ severityLevel r = severityLevel r'
  /\ missingDocumentation r = missingDocumentation r'
  /\ requiresPhysicalEvaluation r = requiresPhysicalEvaluation r'
  /\ isSome (deficiencyType r) = isSome (deficiencyType r').
Proof.
  intros Hp. cbv zeta.
  destruct (evaluatePCDEligibility_returns toLowerCase docs)
    as [Hbody | [Hthrow Hdeg]].
  - destruct (evaluatePCDEligibility_returns toLowerCase docs')
      as [Hbody' | [Hthrow' _]].
    + destruct (evaluateBody_rows toLowerCase _ Hbody)
        as (s & Hloop & Hd & _ & _ & Hmiss & Hphys & Hrow).
      destruct (evaluateBody_rows toLowerCase _ Hbody')
        as (s' & Hloop' & Hd' & _ & _ & Hmiss' & Hphys' & Hrow').
      pose proof (forEachDoc_type_set _ _ Hloop) as Ht.
      pose proof (forEachDoc_type_set _ _ Hloop') as Ht'.
      cbn [initialLoopState st_deficiencyType isSome orb] in Ht, Ht'.
      rewrite (existsb_Permutation _ Hp) in Ht. rewrite <- Ht' in Ht.
      rewrite Hmiss, Hmiss', Hphys, Hphys', Hd, Hd', Ht.
      rewrite (missingDocs_Permutation Hp) in *.
      destruct Hrow as [H|[H|H]]; destruct Hrow' as [H'|[H'|H']];
        repeat match goal with
               | H : _ /\ _ |- _ => destruct H
               end;
        try congruence;
        repeat split; congruence.
    + exfalso. apply evaluateBody_Throw_iff in Hthrow'.
      destruct Hthrow' as [doc [Hin Hnone]].
      assert (Hthrow : exists e, evaluateBody toLowerCase docs = Throw e).
      { apply evaluateBody_Throw_iff. exists doc. split; [|exact Hnone].
        apply Permutation_sym in Hp. now apply (Permutation_in _ Hp). }
      destruct Hthrow as [e He]. rewrite He in Hbody. discriminate Hbody.
  - apply evaluateBody_Throw_iff in Hthrow.
    destruct Hthrow as [doc [Hin Hnone]].
    assert (Hdeg' : evaluatePCDEligibility toLowerCase docs' = degraded).
    { destruct (evaluatePCDEligibility_returns toLowerCase docs')
        as [Hbody' | [_ H]]; [|exact H].
      assert (Hthrow' : exists e, evaluateBody toLowerCase docs' = Throw e).
      { apply evaluateBody_Throw_iff. exists doc. split; [|exact Hnone].
        now apply (Permutation_in _ Hp). }
      destruct Hthrow' as [e He]. rewrite He in Hbody'. discriminate Hbody'. }
    rewrite Hdeg, Hdeg'. repeat split.
Qed.

End OrderExtras.

Section OrderRuns.

Import Evaluation Vocabulary.

Lemma outcome_ignores_order_witness :
  let a := entry LAUDO_MEDICO "Surdez bilateral" in
  let b := entry RELATORIO_ESPECIALISTA "Cegueira do olho direito" in
  Permutation [a; b] [b; a]
  /\ let r := evaluatePCDEligibility latin1ToLowerCase [a; b] in
     let r' := evaluatePCDEligibility latin1ToLowerCase [b; a] in
     outcome r = outcome r' /\ confidence r = confidence r'
     /\ severityLevel r = severityLevel r'
     /\ missingDocumentation r = missingDocumentation r'
     /\ requiresPhysicalEvaluation r = requiresPhysicalEvaluation r'
     /\ isSome (deficiencyType r) = isSome (deficiencyType r').
Proof.
  cbv zeta. split; [apply perm_swap|].
  apply (@outcome_ignores_order latin1ToLowerCase
           [entry LAUDO_MEDICO "Surdez bilateral";
            entry RELATORIO_ESPECIALISTA "Cegueira do olho direito"]
           [entry RELATORIO_ESPECIALISTA "Cegueira do olho direito";
            entry LAUDO_MEDICO "Surdez bilateral"]).
  apply perm_swap.
Defined.

(** The type itself follows the order: the last document that names one
    decides. *)
Example type_follows_order :
  let a := entry LAUDO_MEDICO "Surdez bilateral" in
  let b := entry RELATORIO_ESPECIALISTA "Cegueira do olho direito" in
  deficiencyType (evaluatePCDEligibility latin1ToLowerCase [a; b])
  = Some VISUAL
  /\ deficiencyType (evaluatePCDEligibility latin1ToLowerCase [b; a])
     = Some AUDITIVA.
Proof. vm_compute. split; reflexivity. Qed.

End OrderRuns.

Section TokenRuns.

Import Laudo Token.

(** The token of every report issued while the time stamp starts with 17,
    as it does from November 2023 to January 2027. *)
Example signature_of_minimal_dossier :
  digitalSignature 1700000000000 (js "14/11/2023, 19:13:20") minimalDossier
  = js "SHA256-TEFVRE8tUENELTE3"
  /\ digitalSignature 1799999999999 (js "15/01/2027, 08:00:00") minimalDossier
     = js "SHA256-TEFVRE8tUENELTE3".
Proof. vm_compute. split; reflexivity. Qed.

End TokenRuns.
